(** * Car business analytics dashboard: record store, upsert writers,
      spreadsheet importer and aggregation engine

    A shallow embedding of [database.py], [import_excel.py] and the data
    logic of [app.py], followed by the properties of these functions.

    Modelling conventions.
    - Python [int] is [Z]; a pandas [int64] column sums with wrap-around,
      written out in [Float64.wrap64].
    - Python [float] and pandas [float64] are IEEE-754 binary64 values, given
      by [spec_float] with precision 53 and maximal exponent 1024; NaN doubles
      as the blank cell of a data frame, as in pandas.
    - A Python [str] is a sequence of Unicode code points; the decimal
      digits are those of Unicode 14.0, the database of Python 3.11.
    - Exceptions are values of [exn]; code that may raise returns [result].
    - A SQLAlchemy session is an explicit state: the rows as of the last
      commit, the loaded rows with their unflushed attribute changes, the
      dates of the loaded rows that were assigned to, and the rows passed to
      [session.add] and not flushed yet.
    - The engine is the default one of [database.py], SQLite: an Integer
      column holds a signed 64-bit value, and writing a larger one raises
      [OverflowError] when the statement is executed.
    - A table is the list of its rows in insertion (primary key) order.  The
      surrogate [id] column is left out: no function of the repository reads
      it.  The Integer columns are always written by the writers below and
      are modelled as non-null. *)

From Stdlib Require Import ZArith NArith List String Ascii Bool Lia Permutation.
From Stdlib Require Import Sorted SpecFloat.
Import ListNotations.
Open Scope Z_scope.

(* ================================================================== *)
(** * Part I: the program                                              *)
(* ================================================================== *)

(** ** Exceptions *)

Inductive exn : Type :=
| ValueError
| OverflowError
| TypeError
| IntegrityError
| StatementError.

Inductive result (A : Type) : Type :=
| Ok (a : A)
| Raise (e : exn).
Arguments Ok {A} a.
Arguments Raise {A} e.

Definition rbind {A B} (m : result A) (k : A -> result B) : result B :=
  match m with
  | Ok a => k a
  | Raise e => Raise e
  end.

Declare Scope result_scope.
Delimit Scope result_scope with result.
Notation "'do' x <- m ; k" := (rbind m (fun x => k))
  (at level 10, x name, m at level 100, k at level 200) : result_scope.
Open Scope result_scope.

(** ** Binary64 floating point *)

Module Float64.

Definition float : Type := spec_float.

Definition prec : Z := 53.
Definition emax : Z := 1024.

Definition add : float -> float -> float := SFadd prec emax.
Definition sub : float -> float -> float := SFsub prec emax.
Definition mul : float -> float -> float := SFmul prec emax.
Definition div : float -> float -> float := SFdiv prec emax.
Definition eqb : float -> float -> bool := SFeqb.
Definition ltb : float -> float -> bool := SFltb.

Definition zero : float := S754_zero false.
Definition nan : float := S754_nan.
Definition pinf : float := S754_infinity false.
Definition ninf : float := S754_infinity true.

Definition is_nan (x : float) : bool :=
  match x with
  | S754_nan => true
  | _ => false
  end.

(** Conversion of an integer, rounding to nearest even. *)
Definition of_Z (z : Z) : float := binary_normalize prec emax z 0 false.

(** Python [float(n)] for an [int] [n], as applied implicitly by
    [n - x]: too large an integer raises [OverflowError]. *)
Definition of_int (z : Z) : result float :=
  match of_Z z with
  | S754_infinity _ => Raise OverflowError
  | f => Ok f
  end.

(** Python [int(x)] for a float [x]: truncation toward zero;
    [ValueError] on NaN and [OverflowError] on an infinity. *)
Definition to_int (x : float) : result Z :=
  match x with
  | S754_zero _ => Ok 0
  | S754_finite s m e =>
      Ok (cond_Zopp s
            (match e with
             | Z0 => Zpos m
             | Zpos p => Zpos m * 2 ^ Zpos p
             | Zneg p => Zpos m / 2 ^ Zpos p
             end))
  | S754_nan => Raise ValueError
  | S754_infinity _ => Raise OverflowError
  end.

(** Python truthiness of a float: [x != 0]; NaN is truthy. *)
Definition truthy (x : float) : bool := negb (eqb x zero).

(** pandas [fillna(0)] on one numeric cell. *)
Definition fillna0 (x : float) : float := if is_nan x then zero else x.

(** The value range of a pandas [int64] column. *)
Definition wrap64 (z : Z) : Z := (z + 2 ^ 63) mod 2 ^ 64 - 2 ^ 63.

End Float64.

(** ** Calendar dates ([datetime.date]) *)

Module Datetime.

Record date : Type := mkdate { year : Z; month : Z; day : Z }.

Definition date_eqb (a b : date) : bool :=
(year a =? year b) && (month a =? month b) && (day a =? day b).

Definition date_ltb (a b : date) : bool :=
(year a <? year b)
|| ((year a =? year b)
    && ((month a <? month b)
        || ((month a =? month b) && (day a <? day b)))).

Definition is_leap (y : Z) : bool :=
(y mod 4 =? 0) && (negb (y mod 100 =? 0) || (y mod 400 =? 0)).

Definition days_in_month (y m : Z) : Z :=
if m =? 2 then (if is_leap y then 29 else 28)
else if (m =? 4) || (m =? 6) || (m =? 9) || (m =? 11) then 30
else 31.

(** The check made by the [datetime.date] constructor. *)
Definition valid_date (y m d : Z) : bool :=
(1 <=? y) && (y <=? 9999) && (1 <=? m) && (m <=? 12)
&& (1 <=? d) && (d <=? days_in_month y m).

End Datetime.

Import Datetime.

(** ** Strings *)

Module Unicode.

(** A [str]: its code points. *)
Definition str : Type := list N.

(** The [str] of a text of one-byte characters. *)
Definition of_string (s : string) : str :=
  map N_of_ascii (list_ascii_of_string s).

Definition hyphen : N := 45.
Definition space : N := 32.

(** The decimal digits (general category Nd) come in runs of ten code
    points, for the digits 0 to 9 in order; these are the first code
    points of the runs, from ["0"] to the segmented digits. *)
Definition digit_runs : list N :=
  [48; 1632; 1776; 1984; 2406; 2534; 2662; 2790; 2918; 3046; 3174; 3302;
   3430; 3558; 3664; 3792; 3872; 4160; 4240; 6112; 6160; 6470; 6608; 6784;
   6800; 6992; 7088; 7232; 7248; 42528; 43216; 43264; 43472; 43504; 43600;
   44016; 65296; 66720; 68912; 69734; 69872; 69942; 70096; 70384; 70736;
   70864; 71248; 71360; 71472; 71904; 72016; 72784; 73040; 73120; 92768;
   92864; 93008; 120782; 120792; 120802; 120812; 120822; 123200; 123632;
   125264; 130032]%N.

(** [unicodedata.decimal(c)], where it is defined. *)
Definition decimal (c : N) : option Z :=
  match find (fun lo => (lo <=? c) && (c <? lo + 10))%N digit_runs with
  | Some lo => Some (Z.of_N (c - lo))
  | None => None
  end.

End Unicode.

(** ** Python values reaching [normalize_date]

    [PyNaT] is pandas' [NaT], the blank cell of a datetime column: an
    instance of [datetime] whose [date()] is [NaT] itself. *)

Inductive pyval : Type :=
| PyNone
| PyInt (z : Z)
| PyFloat (x : Float64.float)
| PyStr (s : Unicode.str)
| PyDate (d : date)
| PyDatetime (d : date) (hour minute second : Z)
| PyNaT.

(** What [normalize_date] returns: a [datetime.date], or [NaT]. *)
Inductive dateval : Type :=
| Date (d : date)
| NaT.

(** ** [datetime.strptime(s, "%Y-%m-%d")]

    The format compiles to the regular expression
    [(\d\d\d\d)-(1[0-2]|0[1-9]|[1-9])-(3[0-1]|[1-2]\d|0[1-9]|[1-9]| [1-9])],
    matched by backtracking from the start of the string; text left over
    after the match and field values that are no calendar date raise
    [ValueError].  [\d] matches every decimal digit, a class such as
    [[0-2]] the ASCII digits it names; [int()] reads both. *)

Module Strptime.

(** [\d] *)
Definition is_digit (c : N) : bool :=
  match Unicode.decimal c with
  | Some _ => true
  | None => false
  end.

(** The value [int()] gives a digit. *)
Definition digit_val (c : N) : Z :=
  match Unicode.decimal c with
  | Some v => v
  | None => 0
  end.

(** The class [[lo-hi]] of ASCII digits. *)
Definition in_range (lo hi : Z) (c : N) : bool :=
  (48 + lo <=? Z.of_N c) && (Z.of_N c <=? 48 + hi).

(** A matcher returns its successes in the order backtracking tries them. *)
Definition matcher (A : Type) : Type :=
  Unicode.str -> list (A * Unicode.str).

Definition re_year : matcher Z := fun s =>
  match s with
  | a :: b :: c :: d :: rest =>
      if is_digit a && is_digit b && is_digit c && is_digit d
      then [(1000 * digit_val a + 100 * digit_val b
             + 10 * digit_val c + digit_val d, rest)]
      else []
  | _ => []
  end.

Definition re_dash : matcher unit := fun s =>
  match s with
  | a :: rest => if N.eqb a Unicode.hyphen then [(tt, rest)] else []
  | _ => []
  end.

(** Two characters: a digit in [lo1..hi1], then a digit in [lo2..hi2]. *)
Definition two (lo1 hi1 lo2 hi2 : Z) : matcher Z := fun s =>
  match s with
  | a :: b :: rest =>
      if in_range lo1 hi1 a && in_range lo2 hi2 b
      then [(10 * digit_val a + digit_val b, rest)]
      else []
  | _ => []
  end.

(** Two characters: a digit in [lo..hi], then [\d]. *)
Definition class_digit (lo hi : Z) : matcher Z := fun s =>
  match s with
  | a :: b :: rest =>
      if in_range lo hi a && is_digit b
      then [(10 * digit_val a + digit_val b, rest)]
      else []
  | _ => []
  end.

Definition one (lo hi : Z) : matcher Z := fun s =>
  match s with
  | a :: rest => if in_range lo hi a then [(digit_val a, rest)] else []
  | _ => []
  end.

Definition space_one : matcher Z := fun s =>
  match s with
  | a :: b :: rest =>
      if N.eqb a Unicode.space && in_range 1 9 b
      then [(digit_val b, rest)]
      else []
  | _ => []
  end.

Definition alt {A} (p q : matcher A) : matcher A := fun s => p s ++ q s.

Definition re_month : matcher Z :=
  alt (two 1 1 0 2) (alt (two 0 0 1 9) (one 1 9)).

Definition re_day : matcher Z :=
  alt (two 3 3 0 1)
    (alt (class_digit 1 2) (alt (two 0 0 1 9) (alt (one 1 9) space_one))).

Definition seq {A B} (p : matcher A) (k : A -> matcher B) : matcher B :=
  fun s => flat_map (fun '(a, rest) => k a rest) (p s).

Definition re_format : matcher (Z * Z * Z) :=
  seq re_year (fun y =>
  seq re_dash (fun _ =>
  seq re_month (fun m =>
  seq re_dash (fun _ =>
  seq re_day (fun d => fun rest => [((y, m, d), rest)]))))).

Definition strptime (s : Unicode.str) : result date :=
  match re_format s with
  | [] => Raise ValueError                      (* does not match format *)
  | ((y, m, d), rest) :: _ =>
      match rest with
      | [] =>
          if valid_date y m d then Ok (mkdate y m d)
          else Raise ValueError                 (* out of range *)
      | _ :: _ => Raise ValueError              (* unconverted data *)
      end
  end.

End Strptime.

(** ** [database.py]: the two tables and the session *)

Module DailyRecord.

Record t : Type := mk {
  date : Datetime.date;                         (* unique *)
  ride_count : Z;
  earnings : Z;
  cng_expenses : Z;
  driver_pass_subscription : option Float64.float;
  indrive_topup : option Float64.float;
  odometer_start : option Float64.float;
  odometer_end : option Float64.float;
  daily_net : Z
}.

(** The values an Integer column of the engine holds. *)
Definition int64 (z : Z) : bool := (- 2 ^ 63 <=? z) && (z <? 2 ^ 63).

(** The row can be written: its Integer columns fit.  (A Float column
    takes every float.) *)
Definition storable (r : t) : bool :=
  int64 (ride_count r) && int64 (earnings r) && int64 (cng_expenses r)
  && int64 (daily_net r).

End DailyRecord.

Module OtherExpense.

Record t : Type := mk {
  date : Datetime.date;                         (* unique *)
  expenses : option Float64.float;
  months : option string;
  car_emi : option Float64.float;
  pg_rent : option Float64.float
}.

(** No Integer column but [id]: every row can be written. *)
Definition storable (r : t) : bool := true.

End OtherExpense.

Module Session.

Section Table.
Context {T : Type}.
Variable key : T -> Datetime.date.
Variable storable : T -> bool.

(** [committed]: the table as of the last commit.  [loaded]: the same
    rows as Python objects, carrying attribute changes not flushed yet.
    [dirty]: the dates of the loaded objects that were assigned to.
    [pending]: objects passed to [session.add], not flushed yet. *)
Record session : Type := mk {
  committed : list T;
  loaded : list T;
  dirty : list Datetime.date;
  pending : list T
}.

Definition get_session (table : list T) : session :=
  mk table table [] [].

(** [session.query(C).filter_by(date=d).first()] while nothing pending
    has been flushed: the statement runs against the stored rows, whose
    dates no writer changes, and returns the loaded object. *)
Definition query_first (d : Datetime.date) (s : session) : option T :=
  find (fun r => date_eqb (key r) d) (loaded s).

(** Attribute assignment on the object [query_first] returned. *)
Fixpoint assign (d : Datetime.date) (r' : T) (rows : list T) : list T :=
  match rows with
  | [] => []
  | r :: rest =>
      if date_eqb (key r) d then r' :: rest else r :: assign d r' rest
  end.

Definition set_existing (d : Datetime.date) (r' : T) (s : session)
  : session :=
  mk (committed s) (assign d r' (loaded s)) (d :: dirty s) (pending s).

Definition add (r : T) (s : session) : session :=
  mk (committed s) (loaded s) (dirty s) (pending s ++ [r]).

Definition has_date (d : Datetime.date) (rows : list T) : bool :=
  existsb (fun r => date_eqb (key r) d) rows.

(** The loaded rows an UPDATE is sent for at the flush: the objects the
    queries returned and the loops assigned to. *)
Definition updated (s : session) : list T :=
  flat_map (fun d => match query_first d s with
                     | Some r => [r]
                     | None => []
                     end)
    (dirty s).

(** The INSERT of each pending row, after the rows already in the table:
    the values must fit the columns, and the date must be new (the unique
    constraint). *)
Fixpoint flush (table news : list T) : result (list T) :=
  match news with
  | [] => Ok table
  | r :: rest =>
      if negb (storable r) then Raise OverflowError
      else if has_date (key r) table then Raise IntegrityError
      else flush (table ++ [r]) rest
  end.

(** [session.commit()]: the flush sends the UPDATEs, whose values must
    fit the columns, then the INSERTs.  (An UPDATE carries the changed
    columns only; the rows read from the table fit, so a row that does not
    fit after an assignment has a changed column that does not.) *)
Definition commit (s : session) : result (list T) :=
  if forallb storable (updated s) then flush (loaded s) (pending s)
  else Raise OverflowError.

Definition rollback (s : session) : list T := committed s.

End Table.

Arguments session T : clear implicits.

End Session.

(** ** [import_excel.py] *)

Module ImportExcel.

Definition normalize_date (raw_date : pyval) : result dateval :=
  match raw_date with
  | PyStr s => do d <- Strptime.strptime s; Ok (Date d)
  | PyDatetime d _ _ _ => Ok (Date d)
  | PyNaT => Ok NaT                             (* [NaT.date()] *)
  | PyDate d => Ok (Date d)
  | _ => Raise ValueError
  end.

(** pandas [fillna(0)] on a cell of the date column. *)
Definition fillna0_cell (v : pyval) : pyval :=
  match v with
  | PyNone | PyNaT => PyInt 0
  | PyFloat x => if Float64.is_nan x then PyInt 0 else v
  | _ => v
  end.

(** [pd.concat(all_df)] raises on an empty list of frames. *)
Definition concat {A} (all_df : list (list A)) : result (list A) :=
  match all_df with
  | [] => Raise ValueError
  | _ => Ok (List.concat all_df)
  end.

(** A row of a "Daily Record" sheet after the columns are renamed.
    Numeric cells are binary64, NaN when blank.  (A column without blanks
    and fractions is [int64] in pandas; below 2^53 its cells are the same
    numbers.) *)
Module Daily.

Record row : Type := mk {
  date : pyval;
  ride_count : Float64.float;
  earnings : Float64.float;
  cng_expenses : Float64.float;
  driver_pass_subscription : Float64.float;
  indrive_topup : Float64.float;
  odometer_start : Float64.float;
  odometer_end : Float64.float;
  daily_net : Float64.float
}.

(** [df['daily_net'] = earnings - cng_expenses
      - driver_pass_subscription.fillna(0) - indrive_topup.fillna(0)] *)
Definition formula (r : row) : Float64.float :=
  Float64.sub
    (Float64.sub (Float64.sub (earnings r) (cng_expenses r))
       (Float64.fillna0 (driver_pass_subscription r)))
    (Float64.fillna0 (indrive_topup r)).

Definition set_daily_net (r : row) : row :=
  mk (date r) (ride_count r) (earnings r) (cng_expenses r)
    (driver_pass_subscription r) (indrive_topup r)
    (odometer_start r) (odometer_end r) (formula r).

(** [df = df.fillna(0)] *)
Definition fillna (r : row) : row :=
  mk (fillna0_cell (date r))
    (Float64.fillna0 (ride_count r)) (Float64.fillna0 (earnings r))
    (Float64.fillna0 (cng_expenses r))
    (Float64.fillna0 (driver_pass_subscription r))
    (Float64.fillna0 (indrive_topup r))
    (Float64.fillna0 (odometer_start r))
    (Float64.fillna0 (odometer_end r))
    (Float64.fillna0 (daily_net r)).

(** One sheet, from the rename to [all_df.append(df)]. *)
Definition prepare_sheet (df : list row) : list row :=
  map (fun r => fillna (set_daily_net r)) df.

(** [float(x) if x else None] *)
Definition odometer (x : Float64.float) : option Float64.float :=
  if Float64.truthy x then Some x else None.

(** The field values both branches of the loop body compute, in the
    order they are evaluated; [d] is the date of the row written.  When a
    conversion raises in the update branch, the attributes assigned before
    it are discarded by the rollback that follows. *)
Definition to_record (d : Datetime.date) (r : row)
  : result DailyRecord.t :=
  do rc <- Float64.to_int (ride_count r);
  do e <- Float64.to_int (earnings r);
  do c <- Float64.to_int (cng_expenses r);
  do n <- Float64.to_int (daily_net r);
  Ok (DailyRecord.mk d rc e c
        (Some (driver_pass_subscription r)) (Some (indrive_topup r))
        (odometer (odometer_start r)) (odometer (odometer_end r)) n).

End Daily.

(** A row of an "Other Expenses" sheet after the columns are renamed. *)
Module Expense.

Record row : Type := mk {
  date : pyval;
  expenses : Float64.float;
  months : option string;                     (* [None]: blank *)
  car_emi : Float64.float;
  pg_rent : Float64.float
}.

(** [df[['expenses','car_emi','pg_rent']] = ... .fillna(0)] *)
Definition fillna (r : row) : row :=
  mk (date r) (Float64.fillna0 (expenses r)) (months r)
    (Float64.fillna0 (car_emi r)) (Float64.fillna0 (pg_rent r)).

Definition ne0 (x : Float64.float) : bool :=
  negb (Float64.eqb x Float64.zero).

(** [(df['expenses'] != 0) | (df['car_emi'] != 0) | (df['pg_rent'] != 0)] *)
Definition keep (r : row) : bool :=
  ne0 (expenses r) || ne0 (car_emi r) || ne0 (pg_rent r).

Definition prepare_sheet (df : list row) : list row :=
  filter keep (map fillna df).

Definition to_record (d : Datetime.date) (r : row) : OtherExpense.t :=
  OtherExpense.mk d (Some (expenses r)) (months r)
    (Some (car_emi r)) (Some (pg_rent r)).

End Expense.

Definition nonempty {A} (df : list A) : bool :=
  match df with
  | [] => false
  | _ => true
  end.

Section Importers.

(** [DataFrame.sort_values]: some reordering of the rows by the key
    column (the default sort is not stable), or an exception when two
    keys do not compare. *)
Variable sort_values : forall A, (A -> pyval) -> list A -> result (list A).

(** The frame the loop of [import_daily_records] iterates over. *)
Definition daily_batch (sheets : list (list Daily.row))
  : result (list Daily.row) :=
  do combined <- concat (map Daily.prepare_sheet (filter nonempty sheets));
  sort_values _ Daily.date combined.

(** The loop of [import_daily_records].  The date goes into the query by
    date; for [NaT], which has no year, month and day to bind, the
    statement cannot be built and the query raises. *)
Fixpoint daily_loop (rows : list Daily.row)
  (s : Session.session DailyRecord.t) (added updated : Z)
  : result (Z * Z) * Session.session DailyRecord.t :=
  match rows with
  | [] => (Ok (added, updated), s)
  | row :: rest =>
      match normalize_date (Daily.date row) with
      | Raise e => (Raise e, s)
      | Ok NaT => (Raise StatementError, s)
      | Ok (Date record_date) =>
          match Session.query_first DailyRecord.date record_date s with
          | Some existing =>
              match Daily.to_record (DailyRecord.date existing) row with
              | Raise e => (Raise e, s)
              | Ok record =>
                  daily_loop rest
                    (Session.set_existing DailyRecord.date
                       record_date record s)
                    added (updated + 1)
              end
          | None =>
              match Daily.to_record record_date row with
              | Raise e => (Raise e, s)
              | Ok record =>
                  daily_loop rest (Session.add record s)
                    (added + 1) updated
              end
          end
      end
  end.

Definition import_daily_records (sheets : list (list Daily.row))
  (table : list DailyRecord.t)
  : result (Z * Z) * list DailyRecord.t :=
  match daily_batch sheets with
  | Raise e => (Raise e, table)
  | Ok combined =>
      let session := Session.get_session table in
      match daily_loop combined session 0 0 with
      | (Ok (added, updated), s) =>
          match Session.commit DailyRecord.date DailyRecord.storable s with
          | Ok table' => (Ok (added, updated), table')
          | Raise e => (Raise e, Session.rollback s)
          end
      | (Raise e, s) => (Raise e, Session.rollback s)
      end
  end.

Definition expense_batch (sheets : list (list Expense.row))
  : result (list Expense.row) :=
  do combined <-
    concat (map Expense.prepare_sheet (filter nonempty sheets));
  sort_values _ Expense.date combined.

(** The loop of [import_other_expenses], with the same query. *)
Fixpoint expense_loop (rows : list Expense.row)
  (s : Session.session OtherExpense.t) (added updated : Z)
  : result (Z * Z) * Session.session OtherExpense.t :=
  match rows with
  | [] => (Ok (added, updated), s)
  | row :: rest =>
      match normalize_date (Expense.date row) with
      | Raise e => (Raise e, s)
      | Ok NaT => (Raise StatementError, s)
      | Ok (Date record_date) =>
          match Session.query_first OtherExpense.date record_date s with
          | Some existing =>
              expense_loop rest
                (Session.set_existing OtherExpense.date record_date
                   (Expense.to_record (OtherExpense.date existing) row) s)
                added (updated + 1)
          | None =>
              expense_loop rest
                (Session.add (Expense.to_record record_date row) s)
                (added + 1) updated
          end
      end
  end.

Definition import_other_expenses (sheets : list (list Expense.row))
  (table : list OtherExpense.t)
  : result (Z * Z) * list OtherExpense.t :=
  match expense_batch sheets with
  | Raise e => (Raise e, table)
  | Ok combined =>
      let session := Session.get_session table in
      match expense_loop combined session 0 0 with
      | (Ok (added, updated), s) =>
          match Session.commit OtherExpense.date OtherExpense.storable s with
          | Ok table' => (Ok (added, updated), table')
          | Raise e => (Raise e, Session.rollback s)
          end
      | (Raise e, s) => (Raise e, Session.rollback s)
      end
  end.

(** [import_excel_to_db]: [init_db()] creates missing tables and touches
    no row; the two imports follow, each in a session of its own, and an
    exception of the first ends the run.  The result holds the four counts
    the function prints. *)
Definition import_excel_to_db
  (daily_sheets : list (list Daily.row))
  (expense_sheets : list (list Expense.row))
  (daily_table : list DailyRecord.t) (expense_table : list OtherExpense.t)
  : result ((Z * Z) * (Z * Z)) * (list DailyRecord.t * list OtherExpense.t) :=
  match import_daily_records daily_sheets daily_table with
  | (Raise e, daily_table') => (Raise e, (daily_table', expense_table))
  | (Ok daily_counts, daily_table') =>
      match import_other_expenses expense_sheets expense_table with
      | (Raise e, expense_table') =>
          (Raise e, (daily_table', expense_table'))
      | (Ok expense_counts, expense_table') =>
          (Ok (daily_counts, expense_counts), (daily_table', expense_table'))
      end
  end.

End Importers.

End ImportExcel.

(** ** [app.py]: writers and aggregation *)

Module App.

(** *** Upsert writers *)

(** [x if x > 0 else None] *)
Definition odometer (x : Float64.float) : option Float64.float :=
  if Float64.ltb Float64.zero x then Some x else None.

(** The body of the [try] block of [add_record] up to [session.commit()].
    [ride_count], [earnings] and [cng_expenses] are the integers and the
    other amounts the floats of the entry form. *)
Definition add_record_body (date : Datetime.date)
  (ride_count earnings cng_expenses : Z)
  (driver_pass indrive odo_start odo_end : Float64.float)
  (s : Session.session DailyRecord.t)
  : result unit * Session.session DailyRecord.t :=
  match Float64.of_int (earnings - cng_expenses) with
  | Raise e => (Raise e, s)
  | Ok gross =>
      let daily_net := Float64.sub (Float64.sub gross driver_pass) indrive in
      match Session.query_first DailyRecord.date date s with
      | Some existing =>
          match Float64.to_int daily_net with
          | Raise e => (Raise e, s)
          | Ok n =>
              (Ok tt,
               Session.set_existing DailyRecord.date date
                 (DailyRecord.mk (DailyRecord.date existing)
                    ride_count earnings cng_expenses
                    (Some driver_pass) (Some indrive)
                    (odometer odo_start) (odometer odo_end) n) s)
          end
      | None =>
          match Float64.to_int daily_net with
          | Raise e => (Raise e, s)
          | Ok n =>
              (Ok tt,
               Session.add
                 (DailyRecord.mk date ride_count earnings cng_expenses
                    (Some driver_pass) (Some indrive)
                    (odometer odo_start) (odometer odo_end) n) s)
          end
      end
  end.

(** Returns the boolean of the source and the table afterwards. *)
Definition add_record (date : Datetime.date)
  (ride_count earnings cng_expenses : Z)
  (driver_pass indrive odo_start odo_end : Float64.float)
  (table : list DailyRecord.t) : bool * list DailyRecord.t :=
  match add_record_body date ride_count earnings cng_expenses
          driver_pass indrive odo_start odo_end
          (Session.get_session table) with
  | (Ok _, s) =>
      match Session.commit DailyRecord.date DailyRecord.storable s with
      | Ok table' => (true, table')
      | Raise _ => (false, Session.rollback s)
      end
  | (Raise _, s) => (false, Session.rollback s)
  end.

Definition add_other_expense_body (date : Datetime.date)
  (car_emi pg_rent expenses : Float64.float) (months : string)
  (s : Session.session OtherExpense.t) : Session.session OtherExpense.t :=
  match Session.query_first OtherExpense.date date s with
  | Some existing =>
      Session.set_existing OtherExpense.date date
        (OtherExpense.mk (OtherExpense.date existing)
           (Some expenses) (Some months) (Some car_emi) (Some pg_rent)) s
  | None =>
      Session.add
        (OtherExpense.mk date
           (Some expenses) (Some months) (Some car_emi) (Some pg_rent)) s
  end.

Definition add_other_expense (date : Datetime.date)
  (car_emi pg_rent expenses : Float64.float) (months : string)
  (table : list OtherExpense.t) : bool * list OtherExpense.t :=
  let s :=
    add_other_expense_body date car_emi pg_rent expenses months
      (Session.get_session table) in
  match Session.commit OtherExpense.date OtherExpense.storable s with
  | Ok table' => (true, table')
  | Raise _ => (false, Session.rollback s)
  end.

(** *** The data frames *)

(** [x or 0] on a nullable Float column. *)
Definition or0 (x : option Float64.float) : Float64.float :=
  match x with
  | Some v => if Float64.truthy v then v else Float64.zero
  | None => Float64.zero
  end.

(** A nullable Float column in a frame: [None] becomes NaN. *)
Definition cell (x : option Float64.float) : Float64.float :=
  match x with
  | Some v => v
  | None => Float64.nan
  end.

(** A row of the frame [load_data] builds.  The integer columns are
    [int64], the others [float64]. *)
Module Frame.
Record row : Type := mk {
  date : Datetime.date;
  ride_count : Z;
  earnings : Z;
  cng_expenses : Z;
  driver_pass_subscription : Float64.float;
  indrive_topup : Float64.float;
  odometer_start : Float64.float;
  odometer_end : Float64.float;
  daily_net : Z
}.
End Frame.

(** A row of the frame [load_other_expenses] builds, without the
    [total] column, which the monthly summary does not read. *)
Module ExpenseFrame.
Record row : Type := mk {
  date : Datetime.date;
  expenses : Float64.float;
  months : option string;
  car_emi : Float64.float;
  pg_rent : Float64.float
}.
End ExpenseFrame.

Definition load_row (r : DailyRecord.t) : Frame.row :=
  Frame.mk (DailyRecord.date r) (DailyRecord.ride_count r)
    (DailyRecord.earnings r) (DailyRecord.cng_expenses r)
    (or0 (DailyRecord.driver_pass_subscription r))
    (or0 (DailyRecord.indrive_topup r))
    (cell (DailyRecord.odometer_start r))
    (cell (DailyRecord.odometer_end r))
    (DailyRecord.daily_net r).

Definition load_expense_row (r : OtherExpense.t) : ExpenseFrame.row :=
  ExpenseFrame.mk (OtherExpense.date r) (cell (OtherExpense.expenses r))
    (OtherExpense.months r) (cell (OtherExpense.car_emi r))
    (cell (OtherExpense.pg_rent r)).

(** [order_by(date)]: the dates of a table are distinct. *)
Fixpoint insert_by {A} (key : A -> Datetime.date) (x : A) (l : list A)
  : list A :=
  match l with
  | [] => [x]
  | y :: rest =>
      if date_ltb (key x) (key y) then x :: l
      else y :: insert_by key x rest
  end.

Definition order_by {A} (key : A -> Datetime.date) (l : list A) : list A :=
  fold_right (insert_by key) [] l.

Definition load_data (table : list DailyRecord.t) : list Frame.row :=
  map load_row (order_by DailyRecord.date table).

Definition load_other_expenses (table : list OtherExpense.t)
  : list ExpenseFrame.row :=
  map load_expense_row (order_by OtherExpense.date table).

(** *** Column sums *)

(** [Series.sum()] of an [int64] column. *)
Definition sum_int (col : list Z) : Z :=
  fold_left (fun acc x => Float64.wrap64 (acc + x)) col 0.

(** [Series.sum()] of a [float64] column: NaN cells are skipped.  The
    cells are added from first to last; the blocked and compensated
    summation orders of the library are not reproduced. *)
Definition sum_float (col : list Float64.float) : Float64.float :=
  fold_left
    (fun acc x => if Float64.is_nan x then acc else Float64.add acc x)
    col Float64.zero.

(** *** Filters *)

Definition date_leb (a b : Datetime.date) : bool := negb (date_ltb b a).

(** [df[(df["date"] >= start_date) & (df["date"] <= end_date)]] *)
Definition filter_range (start_date end_date : Datetime.date)
  (df : list Frame.row) : list Frame.row :=
  filter (fun r => date_leb start_date (Frame.date r)
                   && date_leb (Frame.date r) end_date) df.

(** A calendar month, [pd.Period(..., 'M')]. *)
Definition period : Type := (Z * Z)%type.

Definition to_period (d : Datetime.date) : period := (year d, month d).

Definition period_eqb (p q : period) : bool :=
  (fst p =? fst q) && (snd p =? snd q).

Definition period_ltb (p q : period) : bool :=
  (fst p <? fst q) || ((fst p =? fst q) && (snd p <? snd q)).

(** [df[months == filter_month]] *)
Definition filter_month (filter_month : period) (df : list Frame.row)
  : list Frame.row :=
  filter (fun r => period_eqb (to_period (Frame.date r)) filter_month) df.

(** *** Summary metrics *)

(** A Python or numpy number: an integer or a float. *)
Inductive number : Type :=
| Int (z : Z)
| Float (x : Float64.float).

Definition total_earnings (filtered_df : list Frame.row) : Z :=
  sum_int (map Frame.earnings filtered_df).

Definition total_expenses (filtered_df : list Frame.row) : Float64.float :=
  Float64.add
    (Float64.add
       (Float64.of_Z (sum_int (map Frame.cng_expenses filtered_df)))
       (sum_float (map Frame.driver_pass_subscription filtered_df)))
    (sum_float (map Frame.indrive_topup filtered_df)).

Definition total_profit (filtered_df : list Frame.row) : Z :=
  sum_int (map Frame.daily_net filtered_df).

Definition total_rides (filtered_df : list Frame.row) : Z :=
  sum_int (map Frame.ride_count filtered_df).

(** [total_earnings / total_rides if total_rides > 0 else 0] *)
Definition avg_per_ride (filtered_df : list Frame.row) : number :=
  if 0 <? total_rides filtered_df
  then Float (Float64.div (Float64.of_Z (total_earnings filtered_df))
                (Float64.of_Z (total_rides filtered_df)))
  else Int 0.

(** *** Profit margin series *)

(** [(daily_net / earnings * 100).fillna(0)], row by row. *)
Definition profit_margin_of (r : Frame.row) : Float64.float :=
  Float64.fillna0
    (Float64.mul
       (Float64.div (Float64.of_Z (Frame.daily_net r))
          (Float64.of_Z (Frame.earnings r)))
       (Float64.of_Z 100)).

Definition profit_margin (filtered_df : list Frame.row)
  : list Float64.float :=
  map profit_margin_of filtered_df.

(** *** Monthly summary *)

(** The group keys of [groupby('month')]: distinct, ascending. *)
Fixpoint insert_period (p : period) (keys : list period) : list period :=
  match keys with
  | [] => [p]
  | q :: rest =>
      if period_eqb p q then keys
      else if period_ltb p q then p :: keys
      else q :: insert_period p rest
  end.

Definition group_keys (dates : list Datetime.date) : list period :=
  fold_right insert_period [] (map to_period dates).

Definition in_month (p : period) (d : Datetime.date) : bool :=
  period_eqb (to_period d) p.

(** [expense_summary]: per month the sums of [car_emi], [pg_rent] and
    [expenses]. *)
Definition expense_summary (other_expenses_df : list ExpenseFrame.row)
  : list (period * (Float64.float * Float64.float * Float64.float)) :=
  map (fun p =>
         let g := filter (fun r => in_month p (ExpenseFrame.date r))
                    other_expenses_df in
         (p, (sum_float (map ExpenseFrame.car_emi g),
              sum_float (map ExpenseFrame.pg_rent g),
              sum_float (map ExpenseFrame.expenses g))))
    (group_keys (map ExpenseFrame.date other_expenses_df)).

(** [merge(expense_summary, on='month', how='left')] for one month,
    then [fillna(0)] on the three merged columns. *)
Definition merged_expenses (p : period)
  (summary : list (period * (Float64.float * Float64.float * Float64.float)))
  : Float64.float * Float64.float * Float64.float :=
  match find (fun e => period_eqb (fst e) p) summary with
  | Some (_, (emi, rent, misc)) =>
      (Float64.fillna0 emi, Float64.fillna0 rent, Float64.fillna0 misc)
  | None => (Float64.zero, Float64.zero, Float64.zero)
  end.

Module Monthly.
Record row : Type := mk {
  month : period;
  earnings : Z;
  cng_expenses : Z;
  driver_pass_subscription : Float64.float;
  indrive_topup : Float64.float;
  daily_net : Z;
  ride_count : Z;
  days : Z;                                   (* the count of [date] *)
  total_expenses : Float64.float;
  (* [car_emi], [pg_rent], [expenses], [total_all_expenses]: columns
     that exist only when other expenses were merged *)
  other : option (Float64.float * Float64.float * Float64.float);
  total_all_expenses : option Float64.float;
  net_profit : number
}.
End Monthly.

Definition monthly_row (other_expenses_df : list ExpenseFrame.row)
  (p : period) (g : list Frame.row) : Monthly.row :=
  let earnings := sum_int (map Frame.earnings g) in
  let cng := sum_int (map Frame.cng_expenses g) in
  let pass := sum_float (map Frame.driver_pass_subscription g) in
  let indrive := sum_float (map Frame.indrive_topup g) in
  let daily_net := sum_int (map Frame.daily_net g) in
  let total_expenses :=
    Float64.add (Float64.add (Float64.of_Z cng) pass) indrive in
  match other_expenses_df with
  | _ :: _ =>
      let '(emi, rent, misc) :=
        merged_expenses p (expense_summary other_expenses_df) in
      let total_all :=
        Float64.add (Float64.add (Float64.add total_expenses emi) rent)
          misc in
      Monthly.mk p earnings cng pass indrive daily_net
        (sum_int (map Frame.ride_count g)) (Z.of_nat (List.length g))
        total_expenses (Some (emi, rent, misc)) (Some total_all)
        (Float (Float64.sub (Float64.of_Z earnings) total_all))
  | [] =>
      Monthly.mk p earnings cng pass indrive daily_net
        (sum_int (map Frame.ride_count g)) (Z.of_nat (List.length g))
        total_expenses None None (Int daily_net)
  end.

Definition monthly_summary (filtered_df : list Frame.row)
  (other_expenses_df : list ExpenseFrame.row) : list Monthly.row :=
  map (fun p =>
         monthly_row other_expenses_df p
           (filter (fun r => in_month p (Frame.date r)) filtered_df))
    (group_keys (map Frame.date filtered_df)).

(** *** Default date range *)

Definition date_min (a b : Datetime.date) : Datetime.date :=
  if date_ltb b a then b else a.

Definition date_max (a b : Datetime.date) : Datetime.date :=
  if date_ltb a b then b else a.

(** [df["date"].min()] and [df["date"].max()]; the source takes them of a
    frame that is not empty. *)
Definition min_date (df : list Frame.row) : option Datetime.date :=
  match df with
  | [] => None
  | r :: rest =>
      Some (fold_left (fun acc x => date_min acc (Frame.date x)) rest
              (Frame.date r))
  end.

Definition max_date (df : list Frame.row) : option Datetime.date :=
  match df with
  | [] => None
  | r :: rest =>
      Some (fold_left (fun acc x => date_max acc (Frame.date x)) rest
              (Frame.date r))
  end.

(** *** Cumulative profit *)

(** [Series.cumsum()] of an [int64] column. *)
Fixpoint cumsum_from (acc : Z) (col : list Z) : list Z :=
  match col with
  | [] => []
  | x :: rest =>
      let acc' := Float64.wrap64 (acc + x) in acc' :: cumsum_from acc' rest
  end.

Definition cumulative_profit (filtered_df : list Frame.row) : list Z :=
  cumsum_from 0 (map Frame.daily_net filtered_df).

End App.

(** ** A sorting routine to run the importer with

    One admissible [sort_values]: insertion sort on the date column, raising
    [TypeError] when two cells of different Python types meet, as the
    comparison of such values does. *)

Module Pandas.

(** [s <= t] on strings: by code points, from the left. *)
Fixpoint str_leb (s t : Unicode.str) : bool :=
  match s, t with
  | [], _ => true
  | _ :: _, [] => false
  | a :: s', b :: t' => N.ltb a b || (N.eqb a b && str_leb s' t')
  end.

(** Blank cells of a datetime column sort last. *)
Definition le_key (a b : pyval) : result bool :=
  match a, b with
  | PyStr s, PyStr t => Ok (str_leb s t)
  | PyInt x, PyInt y => Ok (x <=? y)
  | PyDate d, PyDate e => Ok (negb (date_ltb e d))
  | PyDatetime d h m s, PyDatetime e h' m' s' =>
      Ok (date_ltb d e
          || (date_eqb d e
              && (((h * 60 + m) * 60 + s) <=? ((h' * 60 + m') * 60 + s'))))
  | PyDatetime _ _ _ _, PyNaT | PyNaT, PyNaT => Ok true
  | PyNaT, PyDatetime _ _ _ _ => Ok false
  | _, _ => Raise TypeError
  end.

Fixpoint insert {A} (key : A -> pyval) (x : A) (l : list A)
  : result (list A) :=
  match l with
  | [] => Ok [x]
  | y :: rest =>
      do b <- le_key (key x) (key y);
      if b then Ok (x :: l)
      else do rest' <- insert key x rest; Ok (y :: rest')
  end.

Fixpoint sort_values (A : Type) (key : A -> pyval) (l : list A)
  : result (list A) :=
  match l with
  | [] => Ok []
  | x :: rest => do sorted <- sort_values A key rest; insert key x sorted
  end.

End Pandas.

(* ================================================================== *)
(** * Part II: vocabulary of the specification                         *)
(* ================================================================== *)

Module Spec.

(** The unique constraint on the [date] column. *)
Definition unique_dates {T} (key : T -> date) (table : list T) : Prop :=
  NoDup (map key table).

(** The rows of a table stored for date [d]. *)
Definition rows_for {T} (key : T -> date) (d : date) (table : list T)
  : list T :=
  filter (fun r => date_eqb (key r) d) table.

(** The row a query by date returns. *)
Definition lookup {T} (key : T -> date) (d : date) (table : list T)
  : option T :=
  find (fun r => date_eqb (key r) d) table.

(** A nullable amount, null read as 0. *)
Definition amount (x : option Float64.float) : Float64.float :=
  match x with
  | Some v => v
  | None => Float64.zero
  end.

(** [earnings - cng_expenses - driver_pass_subscription - indrive_topup]
    on the stored fields of a record, in binary64. *)
Definition net_formula (r : DailyRecord.t) : Float64.float :=
  Float64.sub
    (Float64.sub
       (Float64.of_Z (DailyRecord.earnings r - DailyRecord.cng_expenses r))
       (amount (DailyRecord.driver_pass_subscription r)))
    (amount (DailyRecord.indrive_topup r)).

(** The stored [daily_net] is the value of the formula itself. *)
Definition daily_net_exact (r : DailyRecord.t) : Prop :=
  Float64.of_Z (DailyRecord.daily_net r) = net_formula r.

(** Record [r] holds the amounts of sheet row [raw], blanks as 0. *)
Definition written_from (raw : ImportExcel.Daily.row) (r : DailyRecord.t)
  : Prop :=
  ImportExcel.normalize_date
    (ImportExcel.fillna0_cell (ImportExcel.Daily.date raw))
  = Ok (Date (DailyRecord.date r))
  /\ Float64.to_int (Float64.fillna0 (ImportExcel.Daily.earnings raw))
     = Ok (DailyRecord.earnings r)
  /\ Float64.to_int (Float64.fillna0 (ImportExcel.Daily.cng_expenses raw))
     = Ok (DailyRecord.cng_expenses r)
  /\ DailyRecord.driver_pass_subscription r
     = Some (Float64.fillna0 (ImportExcel.Daily.driver_pass_subscription raw))
  /\ DailyRecord.indrive_topup r
     = Some (Float64.fillna0 (ImportExcel.Daily.indrive_topup raw)).

(** Sheet row [raw] is the only row of the sheets with date [d]. *)
Definition only_row_for (sheets : list (list ImportExcel.Daily.row))
  (d : date) (raw : ImportExcel.Daily.row) : Prop :=
  forall sheet other,
    In sheet sheets -> In other sheet ->
    ImportExcel.normalize_date
      (ImportExcel.fillna0_cell (ImportExcel.Daily.date other))
    = Ok (Date d) ->
    other = raw.

(** The [earnings] and [cng_expenses] cells of a sheet row hold whole
    numbers, below [2^53] in magnitude. *)
Definition whole_amounts (raw : ImportExcel.Daily.row) : Prop :=
  exists e c,
    Z.abs e < 2 ^ 53 /\ Z.abs c < 2 ^ 53
    /\ ImportExcel.Daily.earnings raw = Float64.of_Z e
    /\ ImportExcel.Daily.cng_expenses raw = Float64.of_Z c.

(** The exact sum of an integer column. *)
Definition total (col : list Z) : Z := fold_right Z.add 0 col.

(** The selected rows of calendar month [p]. *)
Definition month_rows (p : App.period) (df : list App.Frame.row)
  : list App.Frame.row :=
  filter (fun r => App.in_month p (App.Frame.date r)) df.

(** Whether the other-expenses table has a row in month [p]. *)
Definition has_expenses (p : App.period)
  (other : list App.ExpenseFrame.row) : bool :=
  existsb (fun r => App.in_month p (App.ExpenseFrame.date r)) other.

(** The sum of one amount of the other-expenses rows of month [p]; zero
    when the month has no row. *)
Definition month_sum (col : App.ExpenseFrame.row -> Float64.float)
  (p : App.period) (other : list App.ExpenseFrame.row) : Float64.float :=
  Float64.fillna0
    (App.sum_float
       (map col
          (filter (fun r => App.in_month p (App.ExpenseFrame.date r))
             other))).

(** The number an integer or float result stands for, as a float. *)
Definition value (n : App.number) : Float64.float :=
  match n with
  | App.Int z => Float64.of_Z z
  | App.Float x => x
  end.

(** Decimal renderings, in ASCII digits. *)
Definition digit_char (n : Z) : N := Z.to_N (48 + n).

Definition pad2 (n : Z) : Unicode.str :=
  [digit_char (n / 10); digit_char (n mod 10)].

Definition pad4 (n : Z) : Unicode.str :=
  digit_char (n / 1000) :: digit_char (n / 100 mod 10) :: pad2 (n mod 100).

(** One or two digits, no leading zero. *)
Definition plain (n : Z) : Unicode.str :=
  if n <? 10 then [digit_char n] else pad2 n.

(** The string [YYYY-MM-DD] of a calendar date. *)
Definition iso (d : date) : Unicode.str :=
  pad4 (year d) ++ Unicode.hyphen :: pad2 (month d)
  ++ Unicode.hyphen :: pad2 (day d).

Definition is_yyyy_mm_dd (s : Unicode.str) : Prop :=
  exists d, valid_date (year d) (month d) (day d) = true /\ s = iso d.

(** The inputs the specification lists for [normalize_date]: a
    [YYYY-MM-DD] string, a datetime or a date. *)
Definition listed_input (v : pyval) : Prop :=
  match v with
  | PyStr s => is_yyyy_mm_dd s
  | PyDate _ | PyDatetime _ _ _ _ => True
  | _ => False
  end.

(** Code point [c] is a decimal digit, of any script, of value [v]. *)
Definition digit_of (c : N) (v : Z) : Prop := Unicode.decimal c = Some v.

(** The texts [strptime] reads as year [y], as month [m] and as day [n]:
    four decimal digits of any script for the year; ASCII digits for the
    month and the day, with or without the leading zero, for the day also
    with a space in its place; and for the days 10 to 29 a last digit of
    any script. *)
Definition year_text (t : Unicode.str) (y : Z) : Prop :=
  exists a b c e va vb vc ve,
    t = [a; b; c; e]
    /\ digit_of a va /\ digit_of b vb /\ digit_of c vc /\ digit_of e ve
    /\ y = 1000 * va + 100 * vb + 10 * vc + ve.

Definition month_text (t : Unicode.str) (m : Z) : Prop :=
  t = pad2 m \/ t = plain m.

Definition day_text (t : Unicode.str) (n : Z) : Prop :=
  t = pad2 n \/ t = plain n
  \/ (n < 10 /\ t = [Unicode.space; digit_char n])
  \/ (exists b vb,
        10 <= n <= 29 /\ digit_of b vb /\ vb = n mod 10
        /\ t = [digit_char (n / 10); b]).

Definition date_text (s : Unicode.str) (d : date) : Prop :=
  valid_date (year d) (month d) (day d) = true
  /\ exists ty tm td,
      year_text ty (year d) /\ month_text tm (month d)
      /\ day_text td (day d)
      /\ s = ty ++ Unicode.hyphen :: tm ++ Unicode.hyphen :: td.

(** The dates of the batch rows for which [table] has no row, in the
    order of the batch. *)
Fixpoint new_dates {R T} (date_of : R -> pyval) (key : T -> date)
  (table : list T) (rows : list R) : list date :=
  match rows with
  | [] => []
  | row :: rest =>
      match ImportExcel.normalize_date (date_of row) with
      | Ok (Date d) =>
          if Session.has_date key d table
          then new_dates date_of key table rest
          else d :: new_dates date_of key table rest
      | _ => new_dates date_of key table rest
      end
  end.

(** The records the loop of [import_daily_records] adds for the batch
    rows without a row in [table], in the order of the batch. *)
Fixpoint new_records (table : list DailyRecord.t)
  (rows : list ImportExcel.Daily.row) : list DailyRecord.t :=
  match rows with
  | [] => []
  | row :: rest =>
      match ImportExcel.normalize_date (ImportExcel.Daily.date row) with
      | Ok (Date d) =>
          if Session.has_date DailyRecord.date d table
          then new_records table rest
          else
            match ImportExcel.Daily.to_record d row with
            | Ok r => r :: new_records table rest
            | Raise _ => new_records table rest
            end
      | _ => new_records table rest
      end
  end.

(** The record built from the last row of the batch whose date is [d]. *)
Fixpoint last_write (d : date) (rows : list ImportExcel.Daily.row)
  : option DailyRecord.t :=
  match rows with
  | [] => None
  | row :: rest =>
      match last_write d rest with
      | Some r => Some r
      | None =>
          match ImportExcel.normalize_date (ImportExcel.Daily.date row) with
          | Ok (Date d') =>
              if date_eqb d' d
              then match ImportExcel.Daily.to_record d row with
                   | Ok r => Some r
                   | Raise _ => None
                   end
              else None
          | _ => None
          end
      end
  end.

(** Date [a] is earlier than date [b]. *)
Definition date_lt (a b : date) : Prop :=
  year a < year b
  \/ (year a = year b
      /\ (month a < month b \/ (month a = month b /\ day a < day b))).

(** Dates in ascending order, equal ones allowed. *)
Definition ascending (dates : list date) : Prop :=
  Sorted (fun a b => App.date_leb a b = true) dates.

(** Months in strictly ascending order. *)
Definition months_ascending (ps : list App.period) : Prop :=
  Sorted (fun p q => App.period_ltb p q = true) ps.

End Spec.

(** ** Sample data *)

Module Examples.

Definition amt (n : Z) : Float64.float := Float64.of_Z n.
Definition half : Float64.float := Float64.div (amt 1) (amt 2).

Definition jan1 : date := mkdate 2025 1 1.
Definition jan2 : date := mkdate 2025 1 2.
Definition feb1 : date := mkdate 2025 2 1.

(** The record [add_record jan1 5 1000 200 0.5 0 0 120] writes. *)
Definition rec_half : DailyRecord.t :=
  DailyRecord.mk jan1 5 1000 200 (Some half) (Some Float64.zero)
    None (Some (amt 120)) 799.

(** The record [add_record jan1 7 900 100 50 0 10 0] writes. *)
Definition rec_second : DailyRecord.t :=
  DailyRecord.mk jan1 7 900 100 (Some (amt 50)) (Some Float64.zero)
    (Some (amt 10)) None 750.

(** Sheet rows: a well-formed one, one with an invalid month, and the
    record the first one becomes. *)
Definition text (s : string) : pyval := PyStr (Unicode.of_string s).

(** The year 2025 in full-width digits, and a date written with it. *)
Definition wide_2025 : Unicode.str := [65298; 65296; 65298; 65301]%N.

Definition wide_date : pyval :=
  PyStr (wide_2025 ++ Unicode.of_string "-01-02").

Definition row_ok : ImportExcel.Daily.row :=
  ImportExcel.Daily.mk (text "2025-01-02") (amt 3) (amt 800) (amt 150)
    Float64.nan (amt 20) Float64.nan (amt 0) (amt 12345).

Definition row_bad_month : ImportExcel.Daily.row :=
  ImportExcel.Daily.mk (text "2025-13-01") (amt 3) (amt 800) (amt 150)
    Float64.nan (amt 20) Float64.nan (amt 0) (amt 12345).

Definition rec_ok : DailyRecord.t :=
  DailyRecord.mk jan2 3 800 150 (Some Float64.zero) (Some (amt 20))
    None None 630.

(** A sheet row with both odometer readings, and its record. *)
Definition row_trip : ImportExcel.Daily.row :=
  ImportExcel.Daily.mk (text "2025-02-01") (amt 4) (amt 500) (amt 100)
    Float64.nan Float64.nan (amt 1200) (amt 1260) Float64.nan.

Definition rec_trip : DailyRecord.t :=
  DailyRecord.mk feb1 4 500 100 (Some Float64.zero) (Some Float64.zero)
    (Some (amt 1200)) (Some (amt 1260)) 400.

(** A sheet row with a blank earnings cell, and the record it becomes. *)
Definition row_blank : ImportExcel.Daily.row :=
  ImportExcel.Daily.mk (text "2025-01-02") (amt 0) Float64.nan (amt 150)
    Float64.nan Float64.nan Float64.nan Float64.nan Float64.nan.

Definition rec_blank : DailyRecord.t :=
  DailyRecord.mk jan2 0 0 150 (Some Float64.zero) (Some Float64.zero)
    None None 0.

(** Sheet rows with a blank date cell. *)
Definition row_no_date : ImportExcel.Daily.row :=
  ImportExcel.Daily.mk PyNaT (amt 3) (amt 800) (amt 150)
    Float64.nan (amt 20) Float64.nan (amt 0) Float64.nan.

Definition exp_no_date : ImportExcel.Expense.row :=
  ImportExcel.Expense.mk PyNaT (amt 10) None Float64.nan Float64.nan.

Definition exp_emi : ImportExcel.Expense.row :=
  ImportExcel.Expense.mk (text "2025-01-01") Float64.nan None
    (amt 5000) (amt 3000).

Definition exp_blank : ImportExcel.Expense.row :=
  ImportExcel.Expense.mk (text "2025-01-05") Float64.nan None
    Float64.nan Float64.zero.

Definition exp_bad_month : ImportExcel.Expense.row :=
  ImportExcel.Expense.mk (text "2025-13-01") (amt 10) None
    Float64.nan Float64.nan.

(** Frame rows: a day without earnings that bought fuel, an idle day,
    and the day [rec_half] records. *)
Definition day_fuel_only : App.Frame.row :=
  App.Frame.mk jan2 0 0 200 Float64.zero Float64.zero
    Float64.nan Float64.nan (-200).

Definition day_idle : App.Frame.row :=
  App.Frame.mk feb1 0 0 0 Float64.zero Float64.zero
    Float64.nan Float64.nan 0.

Definition day_half : App.Frame.row := App.load_row rec_half.

Definition emi_feb : App.ExpenseFrame.row :=
  App.ExpenseFrame.mk feb1 Float64.zero None (amt 5000) (amt 3000).

End Examples.

(* ================================================================== *)
(** * Part III: properties                                             *)
(* ================================================================== *)

(** ** Dates *)

Lemma date_eqb_eq (a b : date) : date_eqb a b = true <-> a = b.
Proof.
  destruct a as [ya ma da], b as [yb mb db]; unfold date_eqb; simpl.
  rewrite !andb_true_iff, !Z.eqb_eq. split.
  - intros [[-> ->] ->]. reflexivity.
  - intros H. injection H as -> -> ->. auto.
Qed.

Lemma date_eqb_refl (a : date) : date_eqb a a = true.
Proof. apply date_eqb_eq. reflexivity. Qed.

(** ** Sessions *)

Section SessionFacts.
Context {T : Type}.
Variable key : T -> date.

Lemma has_date_In (d : date) (rows : list T) :
  Session.has_date key d rows = true <-> In d (map key rows).
Proof.
  unfold Session.has_date. rewrite existsb_exists, in_map_iff. split.
  - intros (r & Hr & E). apply date_eqb_eq in E. eauto.
  - intros (r & E & Hr). exists r. split; auto. apply date_eqb_eq. auto.
Qed.

Lemma lookup_None_has_date (d : date) (rows : list T) :
  Spec.lookup key d rows = None -> Session.has_date key d rows = false.
Proof.
  unfold Spec.lookup, Session.has_date. induction rows as [|r rows IH]; simpl.
  - reflexivity.
  - destruct (date_eqb (key r) d); [discriminate | exact IH].
Qed.

Lemma lookup_Some_key (d : date) (rows : list T) (r : T) :
  Spec.lookup key d rows = Some r -> key r = d /\ In r rows.
Proof.
  unfold Spec.lookup. intros H. apply find_some in H as [Hin E].
  apply date_eqb_eq in E. auto.
Qed.

Lemma map_key_assign (d : date) (r' : T) (rows : list T) :
  key r' = d -> map key (Session.assign key d r' rows) = map key rows.
Proof.
  intros E. induction rows as [|r rows IH]; simpl; auto.
  destruct (date_eqb (key r) d) eqn:Er; simpl.
  - apply date_eqb_eq in Er. congruence.
  - now rewrite IH.
Qed.

Lemma lookup_assign (d : date) (r' r0 : T) (rows : list T) :
  key r' = d ->
  Spec.lookup key d rows = Some r0 ->
  Spec.lookup key d (Session.assign key d r' rows) = Some r'.
Proof.
  unfold Spec.lookup. intros E.
  induction rows as [|r rows IH]; simpl; [discriminate|].
  destruct (date_eqb (key r) d) eqn:Er; simpl.
  - intros _. rewrite E, date_eqb_refl. reflexivity.
  - rewrite Er. exact IH.
Qed.

Lemma In_assign (d : date) (r' x : T) (rows : list T) :
  In x (Session.assign key d r' rows) -> x = r' \/ In x rows.
Proof.
  induction rows as [|r rows IH]; simpl; [tauto|].
  destruct (date_eqb (key r) d); simpl; intuition.
Qed.

Lemma lookup_app_new (d : date) (r : T) (rows : list T) :
  key r = d ->
  Spec.lookup key d rows = None ->
  Spec.lookup key d (rows ++ [r]) = Some r.
Proof.
  unfold Spec.lookup. intros E.
  induction rows as [|x rows IH]; simpl.
  - intros _. now rewrite E, date_eqb_refl.
  - destruct (date_eqb (key x) d); [discriminate | exact IH].
Qed.

Lemma rows_for_unique (d : date) (r : T) (rows : list T) :
  Spec.unique_dates key rows ->
  Spec.lookup key d rows = Some r ->
  Spec.rows_for key d rows = [r].
Proof.
  unfold Spec.unique_dates, Spec.lookup, Spec.rows_for.
  induction rows as [|x rows IH]; simpl; [discriminate|].
  intros U. inversion U as [|? ? Hnot U']; subst.
  destruct (date_eqb (key x) d) eqn:Ex.
  - intros H. injection H as ->. f_equal.
    apply date_eqb_eq in Ex.
    clear IH U. induction rows as [|y rows IH]; simpl; auto.
    destruct (date_eqb (key y) d) eqn:Ey.
    + apply date_eqb_eq in Ey. exfalso. apply Hnot. simpl. left. congruence.
    + apply IH.
      * intros Hin. apply Hnot. now right.
      * now inversion U'.
  - intros H. now apply IH.
Qed.

End SessionFacts.

Section CommitFacts.
Context {T : Type}.
Variable key : T -> date.
Variable storable : T -> bool.

Lemma flush_app (table news table' : list T) :
  Session.flush key storable table news = Ok table' ->
  table' = table ++ news.
Proof.
  revert table. induction news as [|r news IH]; simpl; intros table H.
  - injection H as <-. now rewrite app_nil_r.
  - destruct (storable r); [|discriminate]. cbn [negb] in H.
    destruct (Session.has_date key (key r) table); [discriminate|].
    apply IH in H. now rewrite <- app_assoc in H.
Qed.

Lemma flush_storable (table news table' : list T) :
  Session.flush key storable table news = Ok table' ->
  forallb storable news = true.
Proof.
  revert table. induction news as [|r news IH]; simpl; intros table H.
  - reflexivity.
  - destruct (storable r); [|discriminate]. cbn [negb] in H.
    destruct (Session.has_date key (key r) table); [discriminate|].
    now apply IH in H.
Qed.

(** A commit that succeeds is the flush of the pending rows, and every row
    it wrote fits the columns. *)
Lemma commit_Ok (s : Session.session T) (table' : list T) :
  Session.commit key storable s = Ok table' ->
  forallb storable (Session.updated key s) = true
  /\ Session.flush key storable (Session.loaded s) (Session.pending s)
     = Ok table'.
Proof.
  unfold Session.commit.
  destruct (forallb storable (Session.updated key s)); [auto | discriminate].
Qed.

Lemma commit_app (s : Session.session T) (table' : list T) :
  Session.commit key storable s = Ok table' ->
  table' = Session.loaded s ++ Session.pending s.
Proof. intros H. apply commit_Ok in H as [_ H]. now apply flush_app in H. Qed.

Lemma flush_unique (table news table' : list T) :
  Spec.unique_dates key table ->
  Session.flush key storable table news = Ok table' ->
  Spec.unique_dates key table'.
Proof.
  unfold Spec.unique_dates.
  revert table. induction news as [|r news IH]; simpl; intros table U H.
  - injection H as <-. exact U.
  - destruct (storable r); [|discriminate]. cbn [negb] in H.
    destruct (Session.has_date key (key r) table) eqn:E; [discriminate|].
    apply IH in H; auto.
    rewrite map_app. simpl.
    apply NoDup_app_remove_l with (l := []). simpl.
    apply Permutation_NoDup with (l := key r :: map key table).
    + apply Permutation_cons_append.
    + constructor; auto.
      intros Hin. apply has_date_In in Hin. congruence.
Qed.

(** The commit after one assignment to the row of date [d], and after
    one [add] of a row for a new date. *)
Lemma commit_set_existing (d : date) (r0 r' : T) (table : list T) :
  Spec.lookup key d table = Some r0 -> key r' = d ->
  Session.commit key storable
    (Session.set_existing key d r' (Session.get_session table))
  = if storable r' then Ok (Session.assign key d r' table)
    else Raise OverflowError.
Proof.
  intros El E. unfold Session.commit, Session.updated, Session.query_first.
  cbn [Session.set_existing Session.get_session Session.loaded
       Session.dirty Session.pending flat_map].
  fold (Spec.lookup key d (Session.assign key d r' table)).
  rewrite (lookup_assign key d r' r0 table E El). cbn [app forallb].
  rewrite andb_true_r. now destruct (storable r').
Qed.

Lemma commit_add (d : date) (r : T) (table : list T) :
  Spec.lookup key d table = None -> key r = d ->
  Session.commit key storable (Session.add r (Session.get_session table))
  = if storable r then Ok (table ++ [r]) else Raise OverflowError.
Proof.
  intros El E. unfold Session.commit, Session.updated.
  cbn [Session.add Session.get_session Session.loaded Session.dirty
       Session.pending flat_map forallb app Session.flush].
  destruct (storable r); [|reflexivity]. cbn [negb].
  rewrite E, (lookup_None_has_date key d table El). reflexivity.
Qed.

End CommitFacts.

(** ** The writers of [app.py] *)

Ltac inv H := inversion H; subst; clear H.

Lemma to_int_after_overflow (s : bool) (p i : Float64.float) :
  exists e,
    Float64.to_int (Float64.sub (Float64.sub (S754_infinity s) p) i)
    = Raise e.
Proof.
  destruct s, p as [sp|sp| |sp mp ep]; try destruct sp;
    destruct i as [si|si| |si mi ei]; try destruct si; cbn; eauto.
Qed.

(** What [add_record] returns, by the outcome of [int(daily_net)] and of
    the write of the row. *)
Lemma add_record_eval d rc e c p i os oe table :
  App.add_record d rc e c p i os oe table
  = match Float64.to_int
            (Float64.sub (Float64.sub (Float64.of_Z (e - c)) p) i) with
    | Ok n =>
        let r := DailyRecord.mk d rc e c (Some p) (Some i)
                   (App.odometer os) (App.odometer oe) n in
        if DailyRecord.storable r
        then (true,
              match Spec.lookup DailyRecord.date d table with
              | Some _ => Session.assign DailyRecord.date d r table
              | None => table ++ [r]
              end)
        else (false, table)
    | Raise _ => (false, table)
    end.
Proof.
  unfold App.add_record, App.add_record_body, Float64.of_int.
  unfold Session.query_first at 1.
  cbn [Session.get_session Session.loaded].
  fold (Spec.lookup DailyRecord.date d table).
  destruct (Float64.of_Z (e - c)) as [s0|s0| |s0 m0 e0] eqn:Eg.
  2: { destruct (to_int_after_overflow s0 p i) as [x ->]. reflexivity. }
  all: destruct (Spec.lookup DailyRecord.date d table) as [r0|] eqn:El;
    (destruct (Float64.to_int _) as [n|x]; [|reflexivity]); cbn zeta.
  all: first
    [ destruct (lookup_Some_key DailyRecord.date d table r0 El) as [Ed _];
      rewrite Ed;
      rewrite (commit_set_existing DailyRecord.date DailyRecord.storable
                 d r0 _ table El) by reflexivity
    | rewrite (commit_add DailyRecord.date DailyRecord.storable
                 d _ table El) by reflexivity ];
    now destruct (DailyRecord.storable _).
Qed.

(** What a successful [add_record] leaves in the table. *)
Lemma add_record_true d rc e c p i os oe table table' :
  App.add_record d rc e c p i os oe table = (true, table') ->
  exists n,
    Float64.to_int
      (Float64.sub (Float64.sub (Float64.of_Z (e - c)) p) i) = Ok n
    /\ let r := DailyRecord.mk d rc e c (Some p) (Some i)
                  (App.odometer os) (App.odometer oe) n in
       Spec.lookup DailyRecord.date d table' = Some r
       /\ ((exists r0, Spec.lookup DailyRecord.date d table = Some r0
                       /\ table' = Session.assign DailyRecord.date d r table)
           \/ (Spec.lookup DailyRecord.date d table = None
               /\ table' = table ++ [r])).
Proof.
  rewrite add_record_eval.
  destruct (Float64.to_int _) as [n|] eqn:En; [|discriminate].
  cbn zeta. destruct (DailyRecord.storable _); [|discriminate].
  intros H. inv H. exists n. split; [reflexivity|].
  destruct (Spec.lookup DailyRecord.date d table) as [r0|] eqn:El.
  - split; [eapply lookup_assign; eauto | left; eauto].
  - split; [now apply lookup_app_new | right; auto].
Qed.

(** The row a successful [add_record] wrote fits the columns. *)
Lemma add_record_storable d rc e c p i os oe table table' n :
  App.add_record d rc e c p i os oe table = (true, table') ->
  Float64.to_int
    (Float64.sub (Float64.sub (Float64.of_Z (e - c)) p) i) = Ok n ->
  DailyRecord.storable
    (DailyRecord.mk d rc e c (Some p) (Some i)
       (App.odometer os) (App.odometer oe) n) = true.
Proof.
  rewrite add_record_eval. intros H En. rewrite En in H. cbn zeta in H.
  destruct (DailyRecord.storable _); [reflexivity | discriminate].
Qed.

(** A failed [add_record] leaves the table as it was. *)
Lemma add_record_false d rc e c p i os oe table table' :
  App.add_record d rc e c p i os oe table = (false, table') ->
  table' = table.
Proof.
  rewrite add_record_eval.
  destruct (Float64.to_int _) as [n|]; cbn zeta;
    [destruct (DailyRecord.storable _)|]; intros H; now inv H.
Qed.

Lemma add_record_unique d rc e c p i os oe table table' :
  Spec.unique_dates DailyRecord.date table ->
  App.add_record d rc e c p i os oe table = (true, table') ->
  Spec.unique_dates DailyRecord.date table'.
Proof.
  intros U H.
  apply add_record_true in H as (n & _ & _ & [(r0 & _ & ->)|[El ->]]).
  - unfold Spec.unique_dates. now rewrite map_key_assign.
  - unfold Spec.unique_dates. rewrite map_app. simpl.
    apply Permutation_NoDup with (l := d :: map DailyRecord.date table).
    + apply Permutation_cons_append.
    + constructor; auto.
      intros Hin. apply has_date_In in Hin.
      now rewrite (lookup_None_has_date _ _ _ El) in Hin.
Qed.

(** ** Floating-point comparisons against zero *)

Lemma eqb_zero_not_lt (x : Float64.float) :
  Float64.eqb x Float64.zero = true -> Float64.ltb Float64.zero x = false.
Proof. destruct x as [s|s| |s m e]; try destruct s; cbn; congruence. Qed.

Lemma lt_zero_truthy (x : Float64.float) :
  Float64.ltb Float64.zero x = true -> Float64.truthy x = true.
Proof. destruct x as [s|s| |s m e]; try destruct s; cbn; congruence. Qed.

Lemma lt_zero_fillna0 (x : Float64.float) :
  Float64.ltb Float64.zero x = true -> Float64.fillna0 x = x.
Proof. destruct x as [s|s| |s m e]; try destruct s; cbn; congruence. Qed.

Lemma fillna0_not_nan (x : Float64.float) :
  Float64.is_nan x = false -> Float64.fillna0 x = x.
Proof. unfold Float64.fillna0. now intros ->. Qed.

Lemma fillna0_idem (x : Float64.float) :
  Float64.fillna0 (Float64.fillna0 x) = Float64.fillna0 x.
Proof. now destruct x. Qed.

(** ** The importer *)

Lemma concat_Ok {A} (all_df : list (list A)) (combined : list A) :
  ImportExcel.concat all_df = Ok combined -> combined = List.concat all_df.
Proof.
  unfold ImportExcel.concat. destruct all_df; [discriminate|].
  intros H. now inv H.
Qed.

Lemma In_concat_nonempty {A B} (f : list A -> list B) (sheets : list (list A))
  (x : B) :
  f [] = [] ->
  In x (List.concat (map f (filter ImportExcel.nonempty sheets)))
  <-> exists sheet, In sheet sheets /\ In x (f sheet).
Proof.
  intros Hf. rewrite in_concat. split.
  - intros (l & Hl & Hx). apply in_map_iff in Hl as (sheet & <- & Hs).
    apply filter_In in Hs as [Hs _]. eauto.
  - intros (sheet & Hs & Hx). exists (f sheet). split; auto.
    apply in_map. apply filter_In. split; auto.
    destruct sheet; [|reflexivity]. rewrite Hf in Hx. destruct Hx.
Qed.

(** The loops never touch the committed rows, keep any property of the
    rows that every converted sheet row has, stop at the first row whose
    date does not normalize, and count every row they pass. *)

Section LoopFacts.

Variable P : DailyRecord.t -> Prop.

Lemma daily_loop_inv (rows : list ImportExcel.Daily.row) :
  forall s a u res s',
    ImportExcel.daily_loop rows s a u = (res, s') ->
    (forall row d r,
        In row rows ->
        ImportExcel.normalize_date (ImportExcel.Daily.date row) = Ok (Date d) ->
        ImportExcel.Daily.to_record d row = Ok r -> P r) ->
    Forall P (Session.loaded s) -> Forall P (Session.pending s) ->
    Session.committed s' = Session.committed s
    /\ Forall P (Session.loaded s') /\ Forall P (Session.pending s').
Proof.
  induction rows as [|row rows IH]; intros s a u res s' H HP Hl Hp.
  - inv H. auto.
  - cbn [ImportExcel.daily_loop] in H.
    destruct (ImportExcel.normalize_date _) as [[d|]|e] eqn:Ed;
      [|inv H; auto..].
    unfold Session.query_first in H.
    fold (Spec.lookup DailyRecord.date d (Session.loaded s)) in H.
    destruct (Spec.lookup _ d _) as [r0|] eqn:El.
    + destruct (lookup_Some_key _ _ _ _ El) as [E0 _]. rewrite E0 in H.
      destruct (ImportExcel.Daily.to_record d row) as [r|e] eqn:Er;
        [|inv H; auto].
      apply IH in H; cbn; auto.
      * intros; eapply HP; eauto. now right.
      * apply Forall_forall. intros x Hx.
        apply In_assign in Hx as [->|Hx].
        -- eapply HP; eauto. now left.
        -- eapply Forall_forall in Hl; eauto.
    + destruct (ImportExcel.Daily.to_record d row) as [r|e] eqn:Er;
        [|inv H; auto].
      apply IH in H; cbn; auto.
      * intros; eapply HP; eauto. now right.
      * apply Forall_app. split; auto. constructor; auto.
        eapply HP; eauto. now left.
Qed.

End LoopFacts.

Lemma daily_loop_Ok (rows : list ImportExcel.Daily.row) :
  forall s a u a' u' s',
    ImportExcel.daily_loop rows s a u = (Ok (a', u'), s') ->
    (forall row, In row rows ->
       exists d,
         ImportExcel.normalize_date (ImportExcel.Daily.date row)
         = Ok (Date d))
    /\ a' + u' = a + u + Z.of_nat (List.length rows).
Proof.
  induction rows as [|row rows IH]; intros s a u a' u' s' H.
  - inv H. split; [intros ? []|]. cbn. lia.
  - cbn [ImportExcel.daily_loop] in H.
    destruct (ImportExcel.normalize_date _) as [[d|]|e] eqn:Ed; [|inv H..].
    destruct (Session.query_first _ _ _) as [r0|];
      (destruct (ImportExcel.Daily.to_record _ row) as [r|e]; [|inv H]);
      apply IH in H as [Hn Hc];
      (split; [intros x [<-|Hx]; eauto | cbn [List.length]; lia]).
Qed.

Lemma expense_loop_committed (rows : list ImportExcel.Expense.row) :
  forall s a u res s',
    ImportExcel.expense_loop rows s a u = (res, s') ->
    Session.committed s' = Session.committed s.
Proof.
  induction rows as [|row rows IH]; intros s a u res s' H.
  - now inv H.
  - cbn [ImportExcel.expense_loop] in H.
    destruct (ImportExcel.normalize_date _) as [[d|]|e]; [|now inv H..].
    destruct (Session.query_first _ _ _) as [r0|]; now apply IH in H.
Qed.

Lemma expense_loop_Ok (rows : list ImportExcel.Expense.row) :
  forall s a u a' u' s',
    ImportExcel.expense_loop rows s a u = (Ok (a', u'), s') ->
    (forall row, In row rows ->
       exists d,
         ImportExcel.normalize_date (ImportExcel.Expense.date row)
         = Ok (Date d))
    /\ a' + u' = a + u + Z.of_nat (List.length rows).
Proof.
  induction rows as [|row rows IH]; intros s a u a' u' s' H.
  - inv H. split; [intros ? []|]. cbn. lia.
  - cbn [ImportExcel.expense_loop] in H.
    destruct (ImportExcel.normalize_date _) as [[d|]|e] eqn:Ed; [|inv H..].
    destruct (Session.query_first _ _ _) as [r0|];
      apply IH in H as [Hn Hc];
      (split; [intros x [<-|Hx]; eauto | cbn [List.length]; lia]).
Qed.

Lemma rbind_Ok {A B} (m : result A) (k : A -> result B) (b : B) :
  rbind m k = Ok b -> exists a, m = Ok a /\ k a = Ok b.
Proof. destruct m; cbn; [eauto | discriminate]. Qed.

(** The fields of the record the loop body builds from a prepared row. *)
Lemma to_record_prepared d raw r :
  ImportExcel.Daily.to_record d
    (ImportExcel.Daily.fillna (ImportExcel.Daily.set_daily_net raw)) = Ok r ->
  DailyRecord.date r = d
  /\ Float64.to_int (Float64.fillna0 (ImportExcel.Daily.earnings raw))
     = Ok (DailyRecord.earnings r)
  /\ Float64.to_int (Float64.fillna0 (ImportExcel.Daily.cng_expenses raw))
     = Ok (DailyRecord.cng_expenses r)
  /\ DailyRecord.driver_pass_subscription r
     = Some (Float64.fillna0 (ImportExcel.Daily.driver_pass_subscription raw))
  /\ DailyRecord.indrive_topup r
     = Some (Float64.fillna0 (ImportExcel.Daily.indrive_topup raw))
  /\ DailyRecord.odometer_start r
     = ImportExcel.Daily.odometer
         (Float64.fillna0 (ImportExcel.Daily.odometer_start raw))
  /\ DailyRecord.odometer_end r
     = ImportExcel.Daily.odometer
         (Float64.fillna0 (ImportExcel.Daily.odometer_end raw))
  /\ Float64.to_int (Float64.fillna0 (ImportExcel.Daily.formula raw))
     = Ok (DailyRecord.daily_net r).
Proof.
  unfold ImportExcel.Daily.to_record. cbn.
  intros H.
  apply rbind_Ok in H as (rc & Hrc & H).
  apply rbind_Ok in H as (e & He & H).
  apply rbind_Ok in H as (c & Hc & H).
  apply rbind_Ok in H as (n & Hn & H).
  inv H. cbn. repeat split; auto.
Qed.

Section ImportFacts.

Variable sort_values : forall A, (A -> pyval) -> list A -> result (list A).
Hypothesis sort_values_perm :
  forall A key (l l' : list A),
    sort_values A key l = Ok l' -> Permutation l l'.

Lemma daily_batch_In sheets combined :
  ImportExcel.daily_batch sort_values sheets = Ok combined ->
  forall row,
    In row combined <->
    exists sheet raw,
      In sheet sheets /\ In raw sheet
      /\ row = ImportExcel.Daily.fillna (ImportExcel.Daily.set_daily_net raw).
Proof.
  unfold ImportExcel.daily_batch. intros H row.
  apply rbind_Ok in H as (l & Hl & Hs).
  apply concat_Ok in Hl. apply sort_values_perm in Hs.
  transitivity (In row l).
  - split; apply Permutation_in; [symmetry|]; assumption.
  - subst l. rewrite In_concat_nonempty by reflexivity.
    unfold ImportExcel.Daily.prepare_sheet.
    split.
    + intros (sheet & Hsh & Hr). apply in_map_iff in Hr as (raw & <- & Hr).
      eauto.
    + intros (sheet & raw & Hsh & Hr & ->). exists sheet. split; auto.
      apply in_map_iff. eauto.
Qed.

Lemma expense_batch_In sheets combined :
  ImportExcel.expense_batch sort_values sheets = Ok combined ->
  forall row,
    In row combined <->
    ImportExcel.Expense.keep row = true
    /\ exists sheet raw,
        In sheet sheets /\ In raw sheet
        /\ row = ImportExcel.Expense.fillna raw.
Proof.
  unfold ImportExcel.expense_batch. intros H row.
  apply rbind_Ok in H as (l & Hl & Hs).
  apply concat_Ok in Hl. apply sort_values_perm in Hs.
  transitivity (In row l).
  - split; apply Permutation_in; [symmetry|]; assumption.
  - subst l. rewrite In_concat_nonempty by reflexivity.
    unfold ImportExcel.Expense.prepare_sheet.
    split.
    + intros (sheet & Hsh & Hr). apply filter_In in Hr as [Hr Hk].
      apply in_map_iff in Hr as (raw & <- & Hr). eauto 6.
    + intros (Hk & sheet & raw & Hsh & Hr & ->). exists sheet. split; auto.
      apply filter_In. split; auto. now apply in_map.
Qed.

End ImportFacts.

(** ** The sample sorting routine only reorders *)

Lemma pandas_insert_perm {A} (key : A -> pyval) (x : A) (l l' : list A) :
  Pandas.insert key x l = Ok l' -> Permutation (x :: l) l'.
Proof.
  revert l'. induction l as [|y l IH]; cbn; intros l' H.
  - now inv H.
  - apply rbind_Ok in H as (b & _ & H). destruct b.
    + now inv H.
    + apply rbind_Ok in H as (rest' & Hr & H). inv H.
      rewrite perm_swap. constructor. now apply IH.
Qed.

Lemma pandas_sort_values_perm A (key : A -> pyval) (l l' : list A) :
  Pandas.sort_values A key l = Ok l' -> Permutation l l'.
Proof.
  revert l'. induction l as [|x l IH]; cbn; intros l' H.
  - now inv H.
  - apply rbind_Ok in H as (sorted & Hs & H).
    apply pandas_insert_perm in H. rewrite <- H. constructor. now apply IH.
Qed.

(** ** Lookups after a write *)

Section LookupFacts.
Context {T : Type}.
Variable key : T -> date.

Lemma lookup_assign_other (d d' : date) (r' : T) (rows : list T) :
  key r' = d -> d' <> d ->
  Spec.lookup key d' (Session.assign key d r' rows) = Spec.lookup key d' rows.
Proof.
  unfold Spec.lookup. intros E Hne.
  induction rows as [|r rows IH]; cbn; auto.
  destruct (date_eqb (key r) d) eqn:Er; cbn.
  - apply date_eqb_eq in Er.
    replace (date_eqb (key r') d') with false
      by (symmetry; apply not_true_is_false; rewrite date_eqb_eq; congruence).
    replace (date_eqb (key r) d') with false
      by (symmetry; apply not_true_is_false; rewrite date_eqb_eq; congruence).
    reflexivity.
  - now rewrite IH.
Qed.

Lemma lookup_app_other (d d' : date) (r : T) (rows : list T) :
  key r = d -> d' <> d ->
  Spec.lookup key d' (rows ++ [r]) = Spec.lookup key d' rows.
Proof.
  unfold Spec.lookup. intros E Hne.
  induction rows as [|x rows IH]; cbn.
  - replace (date_eqb (key r) d') with false
      by (symmetry; apply not_true_is_false; rewrite date_eqb_eq; congruence).
    reflexivity.
  - now rewrite IH.
Qed.

Lemma assign_same (d : date) (r : T) (rows : list T) :
  Spec.lookup key d rows = Some r -> Session.assign key d r rows = rows.
Proof.
  unfold Spec.lookup. induction rows as [|x rows IH]; cbn; auto.
  destruct (date_eqb (key x) d).
  - intros H. now inv H.
  - intros H. now rewrite IH.
Qed.

Lemma assign_length (d : date) (r : T) (rows : list T) :
  List.length (Session.assign key d r rows) = List.length rows.
Proof.
  induction rows as [|x rows IH]; cbn; auto.
  destruct (date_eqb (key x) d); cbn; auto.
Qed.

End LookupFacts.

(** ** What [import_daily_records] stores *)

Lemma has_date_lookup {T} (key : T -> date) (d : date) (rows : list T) :
  Session.has_date key d rows
  = match Spec.lookup key d rows with
    | Some _ => true
    | None => false
    end.
Proof.
  unfold Session.has_date, Spec.lookup.
  induction rows as [|r rows IH]; cbn; auto.
  destruct (date_eqb (key r) d); auto.
Qed.

Lemma has_date_keys {T} (key : T -> date) (d : date) (t1 t2 : list T) :
  map key t1 = map key t2 ->
  Session.has_date key d t1 = Session.has_date key d t2.
Proof.
  intros E. apply eq_true_iff_eq. rewrite !has_date_In. now rewrite E.
Qed.

Lemma new_dates_keys {R T} (date_of : R -> pyval) (key : T -> date)
  (t1 t2 : list T) (rows : list R) :
  map key t1 = map key t2 ->
  Spec.new_dates date_of key t1 rows = Spec.new_dates date_of key t2 rows.
Proof.
  intros E. induction rows as [|row rows IH]; cbn; auto.
  destruct (ImportExcel.normalize_date (date_of row)) as [[a|]|]; auto.
  rewrite (has_date_keys key a t1 t2 E), IH. reflexivity.
Qed.

Lemma new_records_keys (t1 t2 : list DailyRecord.t)
  (rows : list ImportExcel.Daily.row) :
  map DailyRecord.date t1 = map DailyRecord.date t2 ->
  Spec.new_records t1 rows = Spec.new_records t2 rows.
Proof.
  intros E. induction rows as [|row rows IH]; cbn; auto.
  destruct (ImportExcel.normalize_date _) as [[a|]|]; auto.
  rewrite (has_date_keys DailyRecord.date a t1 t2 E), IH. reflexivity.
Qed.

Lemma to_record_date d row r :
  ImportExcel.Daily.to_record d row = Ok r -> DailyRecord.date r = d.
Proof.
  unfold ImportExcel.Daily.to_record. intros H.
  apply rbind_Ok in H as (rc & _ & H).
  apply rbind_Ok in H as (e & _ & H).
  apply rbind_Ok in H as (c & _ & H).
  apply rbind_Ok in H as (n & _ & H).
  now inv H.
Qed.

(** The state a completed loop leaves: the loaded rows keep their dates,
    each one replaced by the last batch row written for its date; the
    pending rows grow by the records of the new dates; [added] counts
    these. *)
Lemma daily_loop_state (rows : list ImportExcel.Daily.row) :
  forall s a u a' u' s',
    ImportExcel.daily_loop rows s a u = (Ok (a', u'), s') ->
    map DailyRecord.date (Session.loaded s')
    = map DailyRecord.date (Session.loaded s)
    /\ Session.pending s'
       = Session.pending s ++ Spec.new_records (Session.loaded s) rows
    /\ map DailyRecord.date (Spec.new_records (Session.loaded s) rows)
       = Spec.new_dates ImportExcel.Daily.date DailyRecord.date
           (Session.loaded s) rows
    /\ a' = a + Z.of_nat
                   (List.length (Spec.new_records (Session.loaded s) rows))
    /\ (forall d,
          Spec.lookup DailyRecord.date d (Session.loaded s')
          = match Spec.lookup DailyRecord.date d (Session.loaded s) with
            | Some x =>
                Some match Spec.last_write d rows with
                     | Some r => r
                     | None => x
                     end
            | None => None
            end).
Proof.
  induction rows as [|row rows IH]; intros s a u a' u' s' H.
  - inv H. cbn. rewrite app_nil_r. repeat split; try lia.
    intros d. now destruct (Spec.lookup _ d _).
  - cbn [ImportExcel.daily_loop] in H.
    cbn [Spec.new_records Spec.new_dates Spec.last_write].
    destruct (ImportExcel.normalize_date _) as [[d0|]|e] eqn:Ed; [|inv H..].
    unfold Session.query_first in H.
    fold (Spec.lookup DailyRecord.date d0 (Session.loaded s)) in H.
    rewrite (has_date_lookup DailyRecord.date d0 (Session.loaded s)).
    destruct (Spec.lookup DailyRecord.date d0 (Session.loaded s))
      as [ex|] eqn:El.
    + destruct (lookup_Some_key _ _ _ _ El) as [E0 _]. rewrite E0 in H.
      destruct (ImportExcel.Daily.to_record d0 row) as [rec|e] eqn:Er;
        [|inv H].
      pose proof (to_record_date _ _ _ Er) as Hrd.
      apply IH in H as (Hk & Hp & Hnd & Ha & Hl).
      cbn [Session.set_existing Session.loaded Session.pending] in *.
      assert (Ek : map DailyRecord.date
                     (Session.assign DailyRecord.date d0 rec (Session.loaded s))
                   = map DailyRecord.date (Session.loaded s))
        by now apply map_key_assign.
      rewrite (new_records_keys _ _ _ Ek) in Hp, Hnd, Ha.
      rewrite (new_dates_keys _ _ _ _ _ Ek) in Hnd.
      repeat split; try congruence.
      intros d. rewrite Hl.
      destruct (date_eqb d0 d) eqn:Edd.
      * apply date_eqb_eq in Edd. subst d.
        rewrite (lookup_assign _ _ _ _ _ Hrd El), El, Er.
        now destruct (Spec.last_write d0 rows).
      * assert (Hne : d <> d0)
          by (intros ->; now rewrite date_eqb_refl in Edd).
        rewrite (lookup_assign_other _ _ _ _ _ Hrd Hne).
        destruct (Spec.lookup DailyRecord.date d (Session.loaded s)); auto.
        now destruct (Spec.last_write d rows).
    + destruct (ImportExcel.Daily.to_record d0 row) as [rec|e] eqn:Er;
        [|inv H].
      pose proof (to_record_date _ _ _ Er) as Hrd.
      apply IH in H as (Hk & Hp & Hnd & Ha & Hl).
      cbn [Session.add Session.loaded Session.pending] in *.
      rewrite <- app_assoc in Hp. cbn [app] in Hp.
      cbn [map List.length]. rewrite Hnd, Hrd.
      repeat split; try congruence; try lia.
      intros d. rewrite Hl.
      destruct (Spec.lookup DailyRecord.date d (Session.loaded s)) eqn:Eld;
        auto.
      destruct (Spec.last_write d rows); auto.
      destruct (date_eqb d0 d) eqn:Edd; auto.
      apply date_eqb_eq in Edd. congruence.
Qed.

Lemma daily_loop_records (rows : list ImportExcel.Daily.row) :
  forall s a u a' u' s',
    ImportExcel.daily_loop rows s a u = (Ok (a', u'), s') ->
    forall row, In row rows ->
      exists d r,
        ImportExcel.normalize_date (ImportExcel.Daily.date row) = Ok (Date d)
        /\ ImportExcel.Daily.to_record d row = Ok r.
Proof.
  induction rows as [|row rows IH]; intros s a u a' u' s' H x Hx.
  - destruct Hx.
  - cbn [ImportExcel.daily_loop] in H.
    destruct (ImportExcel.normalize_date _) as [[d0|]|e] eqn:Ed; [|inv H..].
    unfold Session.query_first in H.
    fold (Spec.lookup DailyRecord.date d0 (Session.loaded s)) in H.
    destruct (Spec.lookup DailyRecord.date d0 (Session.loaded s))
      as [ex|] eqn:El.
    + destruct (lookup_Some_key _ _ _ _ El) as [E0 _]. rewrite E0 in H.
      destruct (ImportExcel.Daily.to_record d0 row) as [rec|e] eqn:Er;
        [|inv H].
      destruct Hx as [<-|Hx]; eauto.
    + destruct (ImportExcel.Daily.to_record d0 row) as [rec|e] eqn:Er;
        [|inv H].
      destruct Hx as [<-|Hx]; eauto.
Qed.

Section FlushFacts.
Context {T : Type}.
Variable key : T -> date.
Variable storable : T -> bool.

(** A flush succeeds only when the pending dates are pairwise distinct
    and none of them is in the table. *)
Lemma flush_fresh (table news table' : list T) :
  Session.flush key storable table news = Ok table' ->
  NoDup (map key news)
  /\ forall r, In r news -> Session.has_date key (key r) table = false.
Proof.
  revert table. induction news as [|r news IH]; cbn; intros table H.
  - split; [constructor | intros ? []].
  - destruct (storable r); [|discriminate]. cbn [negb] in H.
    destruct (Session.has_date key (key r) table) eqn:E; [discriminate|].
    apply IH in H as [Hn Hf]. split.
    + constructor; auto. intros Hin. apply in_map_iff in Hin as (x & Ex & Hx).
      specialize (Hf x Hx). rewrite Ex in Hf.
      assert (Session.has_date key (key r) (table ++ [r]) = true).
      { apply has_date_In. rewrite map_app. apply in_or_app. right. now left. }
      congruence.
    + intros x [<-|Hx]; auto. specialize (Hf x Hx).
      apply not_true_is_false. intros Ht. apply has_date_In in Ht.
      assert (Session.has_date key (key x) (table ++ [r]) = true).
      { apply has_date_In. rewrite map_app. apply in_or_app. now left. }
      congruence.
Qed.

End FlushFacts.

Lemma In_new_dates {R T} (date_of : R -> pyval) (key : T -> date)
  (table : list T) (rows : list R) (row : R) (d : date) :
  In row rows ->
  ImportExcel.normalize_date (date_of row) = Ok (Date d) ->
  Session.has_date key d table = false ->
  In d (Spec.new_dates date_of key table rows).
Proof.
  intros Hin Hd Hh. induction rows as [|x rows IH]; [destruct Hin|].
  cbn. destruct Hin as [->|Hin].
  - rewrite Hd, Hh. now left.
  - destruct (ImportExcel.normalize_date (date_of x)) as [[a|]|]; auto.
    destruct (Session.has_date key a table); auto. right. auto.
Qed.

Lemma new_dates_app {R T} (date_of : R -> pyval) (key : T -> date)
  (table : list T) (l1 l2 : list R) :
  Spec.new_dates date_of key table (l1 ++ l2)
  = Spec.new_dates date_of key table l1
    ++ Spec.new_dates date_of key table l2.
Proof.
  induction l1 as [|x l1 IH]; cbn; auto.
  destruct (ImportExcel.normalize_date (date_of x)) as [[a|]|]; auto.
  destruct (Session.has_date key a table); auto. cbn. now rewrite IH.
Qed.

Lemma last_write_In (table : list DailyRecord.t) (d : date)
  (rows : list ImportExcel.Daily.row) (r : DailyRecord.t) :
  Spec.last_write d rows = Some r ->
  Session.has_date DailyRecord.date d table = false ->
  In d (Spec.new_dates ImportExcel.Daily.date DailyRecord.date table rows).
Proof.
  intros H Hh. revert r H.
  induction rows as [|row rows IH]; intros r H; [discriminate|].
  cbn in H |- *.
  destruct (Spec.last_write d rows) as [r'|].
  - specialize (IH r' eq_refl).
    destruct (ImportExcel.normalize_date _) as [[a|]|]; auto.
    destruct (Session.has_date _ a table); auto. right. auto.
  - destruct (ImportExcel.normalize_date _) as [[d'|]|]; [|discriminate..].
    destruct (date_eqb d' d) eqn:E; [|discriminate].
    apply date_eqb_eq in E. subst d'. rewrite Hh. now left.
Qed.

(** Among the records added for new dates, the one for [d] is the record
    of the last (and only) batch row for [d]. *)
Lemma lookup_new_records (table : list DailyRecord.t) (d : date)
  (rows : list ImportExcel.Daily.row) :
  Session.has_date DailyRecord.date d table = false ->
  NoDup (Spec.new_dates ImportExcel.Daily.date DailyRecord.date table rows) ->
  (forall row, In row rows ->
     exists d' r,
       ImportExcel.normalize_date (ImportExcel.Daily.date row) = Ok (Date d')
       /\ ImportExcel.Daily.to_record d' row = Ok r) ->
  Spec.lookup DailyRecord.date d (Spec.new_records table rows)
  = Spec.last_write d rows.
Proof.
  intros Hh. induction rows as [|row rows IH]; intros Hn Hc; [reflexivity|].
  destruct (Hc row (or_introl eq_refl)) as (d0 & rec & Ed & Er).
  assert (Hc' : forall x, In x rows ->
            exists d' r,
              ImportExcel.normalize_date (ImportExcel.Daily.date x)
              = Ok (Date d')
              /\ ImportExcel.Daily.to_record d' x = Ok r)
    by (intros; apply Hc; now right).
  cbn [Spec.new_records Spec.new_dates Spec.last_write] in Hn |- *.
  rewrite Ed in Hn |- *.
  destruct (Session.has_date DailyRecord.date d0 table) eqn:Eh.
  - rewrite (IH Hn Hc').
    destruct (Spec.last_write d rows); auto.
    destruct (date_eqb d0 d) eqn:E; auto.
    apply date_eqb_eq in E. congruence.
  - rewrite Er. inversion Hn as [|? ? Hnot Hn']; subst.
    unfold Spec.lookup. cbn [find].
    rewrite (to_record_date _ _ _ Er).
    destruct (date_eqb d0 d) eqn:E.
    + apply date_eqb_eq in E. subst d0.
      destruct (Spec.last_write d rows) as [r'|] eqn:El.
      * exfalso. apply Hnot. eapply last_write_In; eauto.
      * now rewrite Er.
    + fold (Spec.lookup DailyRecord.date d (Spec.new_records table rows)).
      rewrite (IH Hn' Hc'). now destruct (Spec.last_write d rows).
Qed.

Lemma lookup_app {T} (key : T -> date) (d : date) (l1 l2 : list T) :
  Spec.lookup key d (l1 ++ l2)
  = match Spec.lookup key d l1 with
    | Some r => Some r
    | None => Spec.lookup key d l2
    end.
Proof.
  unfold Spec.lookup. induction l1 as [|x l1 IH]; cbn; auto.
  destruct (date_eqb (key x) d); auto.
Qed.

(** A successful import, taken apart. *)
Lemma import_daily_Ok sort_values sheets table added updated table' :
  ImportExcel.import_daily_records sort_values sheets table
  = (Ok (added, updated), table') ->
  exists combined s',
    ImportExcel.daily_batch sort_values sheets = Ok combined
    /\ ImportExcel.daily_loop combined (Session.get_session table) 0 0
       = (Ok (added, updated), s')
    /\ forallb DailyRecord.storable (Session.updated DailyRecord.date s')
       = true
    /\ Session.flush DailyRecord.date DailyRecord.storable
         (Session.loaded s') (Session.pending s')
       = Ok table'.
Proof.
  unfold ImportExcel.import_daily_records.
  destruct (ImportExcel.daily_batch sort_values sheets) as [combined|e];
    [|discriminate].
  destruct (ImportExcel.daily_loop _ _ _ _) as [[[a u]|e] s] eqn:Eloop;
    [|discriminate].
  destruct (Session.commit _ _ s) as [t|e] eqn:Ec; [|discriminate].
  intros H. inv H. apply commit_Ok in Ec as [Hu Hf]. eauto 6.
Qed.

Lemma import_daily_Raise sort_values sheets table e table' :
  ImportExcel.import_daily_records sort_values sheets table
  = (Raise e, table') ->
  table' = table.
Proof.
  unfold ImportExcel.import_daily_records.
  destruct (ImportExcel.daily_batch sort_values sheets) as [combined|e0];
    [|now intros H; inv H].
  destruct (ImportExcel.daily_loop _ _ _ _) as [[[a u]|e0] s] eqn:Eloop;
    apply (daily_loop_inv (fun _ => True)) in Eloop as (Hc & _); cbn; auto;
    try (apply Forall_forall; auto).
  - destruct (Session.commit _ _ s); intros H; inv H. exact Hc.
  - intros H; inv H. exact Hc.
Qed.

(** The dates of the table after a successful import. *)
Lemma import_daily_shape :
  forall sort_values sheets table added updated table',
    ImportExcel.import_daily_records sort_values sheets table
    = (Ok (added, updated), table') ->
    exists combined,
      ImportExcel.daily_batch sort_values sheets = Ok combined
      /\ let fresh :=
           Spec.new_dates ImportExcel.Daily.date DailyRecord.date
             table combined in
         map DailyRecord.date table' = map DailyRecord.date table ++ fresh
         /\ NoDup fresh
         /\ added = Z.of_nat (List.length fresh)
         /\ updated
            = Z.of_nat (List.length combined) - Z.of_nat (List.length fresh)
         /\ (Spec.unique_dates DailyRecord.date table ->
             Spec.unique_dates DailyRecord.date table').
Proof.
  intros sort_values sheets table added updated table' H.
  apply import_daily_Ok in H as (combined & s' & Hb & Hloop & _ & Hf).
  exists combined. split; [exact Hb|]. cbn zeta.
  pose proof (daily_loop_Ok _ _ _ _ _ _ _ Hloop) as [_ Hcount].
  pose proof (daily_loop_state _ _ _ _ _ _ _ Hloop) as (Hk & Hp & Hnd & Ha & _).
  cbn [Session.get_session Session.loaded Session.pending app] in *.
  pose proof (flush_fresh _ _ _ _ _ Hf) as [Hn _].
  pose proof (flush_app _ _ _ _ _ Hf) as Ht.
  rewrite Hp, Hnd in Hn.
  assert (Hlen : List.length (Spec.new_records table combined)
                 = List.length
                     (Spec.new_dates ImportExcel.Daily.date DailyRecord.date
                        table combined))
    by (rewrite <- Hnd; now rewrite length_map).
  repeat split.
  - subst table'. rewrite map_app, Hk, Hp, Hnd. reflexivity.
  - exact Hn.
  - lia.
  - lia.
  - intros U. eapply flush_unique; [|exact Hf].
    unfold Spec.unique_dates in *. now rewrite Hk.
Qed.

(** The row stored for each date after a successful import. *)
Lemma import_daily_lookup :
  forall sort_values sheets table added updated table',
    ImportExcel.import_daily_records sort_values sheets table
    = (Ok (added, updated), table') ->
    exists combined,
      ImportExcel.daily_batch sort_values sheets = Ok combined
      /\ forall d,
          Spec.lookup DailyRecord.date d table'
          = match Spec.last_write d combined with
            | Some r => Some r
            | None => Spec.lookup DailyRecord.date d table
            end.
Proof.
  intros sort_values sheets table added updated table' H.
  apply import_daily_Ok in H as (combined & s' & Hb & Hloop & _ & Hf).
  exists combined. split; [exact Hb|]. intros d.
  pose proof (daily_loop_records _ _ _ _ _ _ _ Hloop) as Hrec.
  pose proof (daily_loop_state _ _ _ _ _ _ _ Hloop) as (Hk & Hp & Hnd & _ & Hl).
  cbn [Session.get_session Session.loaded Session.pending app] in *.
  pose proof (flush_fresh _ _ _ _ _ Hf) as [Hn _].
  pose proof (flush_app _ _ _ _ _ Hf) as Ht.
  rewrite Hp, Hnd in Hn. subst table'.
  rewrite lookup_app, Hl, Hp.
  destruct (Spec.lookup DailyRecord.date d table) as [x|] eqn:Ex.
  - destruct (Spec.last_write d combined); reflexivity.
  - rewrite lookup_new_records; auto.
    + now destruct (Spec.last_write d combined).
    + now rewrite has_date_lookup, Ex.
Qed.

(** The batch row behind the last write for a date. *)
Lemma last_write_inv (d : date) (rows : list ImportExcel.Daily.row)
  (r : DailyRecord.t) :
  Spec.last_write d rows = Some r ->
  exists row,
    In row rows
    /\ ImportExcel.normalize_date (ImportExcel.Daily.date row) = Ok (Date d)
    /\ ImportExcel.Daily.to_record d row = Ok r.
Proof.
  induction rows as [|x rows IH]; [discriminate|].
  cbn [Spec.last_write].
  destruct (Spec.last_write d rows) as [r'|].
  - intros H. inv H. destruct (IH eq_refl) as (row & Hin & H).
    exists row. split; [now right | exact H].
  - destruct (ImportExcel.normalize_date _) as [[d'|]|] eqn:Ed;
      try discriminate.
    destruct (date_eqb d' d) eqn:E; [|discriminate].
    apply date_eqb_eq in E. subst d'.
    destruct (ImportExcel.Daily.to_record d x) as [r'|] eqn:Er;
      [|discriminate].
    intros H. inv H. exists x. split; [now left | auto].
Qed.

Lemma last_write_found (d : date) (rows : list ImportExcel.Daily.row) :
  (forall row, In row rows ->
     exists d' r,
       ImportExcel.normalize_date (ImportExcel.Daily.date row)
       = Ok (Date d')
       /\ ImportExcel.Daily.to_record d' row = Ok r) ->
  forall row,
    In row rows ->
    ImportExcel.normalize_date (ImportExcel.Daily.date row) = Ok (Date d) ->
    exists r, Spec.last_write d rows = Some r.
Proof.
  induction rows as [|x rows IH]; intros Hc row Hin Hd; [destruct Hin|].
  cbn [Spec.last_write].
  destruct (Spec.last_write d rows) as [r'|] eqn:El; [eauto|].
  destruct Hin as [->|Hin].
  - destruct (Hc row (or_introl eq_refl)) as (d' & r & Hd' & Hr).
    rewrite Hd in Hd'. inv Hd'. rewrite Hd, date_eqb_refl, Hr. eauto.
  - destruct (IH (fun y Hy => Hc y (or_intror Hy)) row Hin Hd) as [r Hr].
    congruence.
Qed.

(** Every sheet row of a successful import has a row stored for its
    date, and that row is the record of a sheet row with the same date. *)
Lemma import_daily_stored sort_values
  (Hperm : forall A key (l l' : list A),
      sort_values A key l = Ok l' -> Permutation l l')
  sheets table added updated table' :
  ImportExcel.import_daily_records sort_values sheets table
  = (Ok (added, updated), table') ->
  forall sheet raw,
    In sheet sheets -> In raw sheet ->
    exists d r sheet' raw',
      ImportExcel.normalize_date
        (ImportExcel.fillna0_cell (ImportExcel.Daily.date raw))
      = Ok (Date d)
      /\ Spec.lookup DailyRecord.date d table' = Some r
      /\ In sheet' sheets /\ In raw' sheet'
      /\ ImportExcel.normalize_date
           (ImportExcel.fillna0_cell (ImportExcel.Daily.date raw'))
         = Ok (Date d)
      /\ ImportExcel.Daily.to_record d
           (ImportExcel.Daily.fillna (ImportExcel.Daily.set_daily_net raw'))
         = Ok r.
Proof.
  intros H sheet raw Hsh Hraw.
  pose proof (import_daily_lookup _ _ _ _ _ _ H) as (combined & Hb & Hlk).
  pose proof (import_daily_Ok _ _ _ _ _ _ H) as (c0 & s' & Hb0 & Hloop & _).
  rewrite Hb in Hb0. inv Hb0.
  pose proof (daily_loop_records _ _ _ _ _ _ _ Hloop) as Hrec.
  assert (Hin : In (ImportExcel.Daily.fillna
                      (ImportExcel.Daily.set_daily_net raw)) c0)
    by (apply (daily_batch_In _ Hperm _ _ Hb); eauto).
  destruct (Hrec _ Hin) as (d & r0 & Hd & _).
  destruct (last_write_found d c0 Hrec _ Hin Hd) as (r & Hlw).
  destruct (last_write_inv d c0 r Hlw) as (row' & Hin' & Hd' & Hr').
  apply (daily_batch_In _ Hperm _ _ Hb) in Hin'
    as (sheet' & raw' & Hsh' & Hraw' & ->).
  exists d, r, sheet', raw'. rewrite Hlk, Hlw. auto 10.
Qed.

(** ** Whole numbers in binary64

    An integer below [2^53] in magnitude is a binary64 value, and the
    difference of two such values is the rounded difference of the
    integers. *)

Lemma iter_pos_nat {A} (f : A -> A) (p : positive) (x : A) :
  iter_pos f p x = Nat.iter (Pos.to_nat p) f x.
Proof.
  revert x. induction p as [p IH|p IH|]; intros x; cbn [iter_pos].
  - rewrite !IH, Pos2Nat.inj_xI. cbn [Nat.iter].
    rewrite <- Nat.iter_succ_r, <- Nat.iter_add. f_equal. lia.
  - rewrite !IH, Pos2Nat.inj_xO, <- Nat.iter_add. f_equal. lia.
  - reflexivity.
Qed.

Lemma digits2_lower (p : positive) :
  2 ^ (Z.pos (digits2_pos p) - 1) <= Z.pos p.
Proof.
  induction p as [p IH|p IH|]; cbn [digits2_pos];
    rewrite ?Pos2Z.inj_succ.
  - replace (Z.succ (Z.pos (digits2_pos p)) - 1)
      with (Z.succ (Z.pos (digits2_pos p) - 1)) by lia.
    rewrite Z.pow_succ_r by lia. lia.
  - replace (Z.succ (Z.pos (digits2_pos p)) - 1)
      with (Z.succ (Z.pos (digits2_pos p) - 1)) by lia.
    rewrite Z.pow_succ_r by lia. lia.
  - reflexivity.
Qed.

Lemma digits2_small (p : positive) :
  Z.pos p < 2 ^ 53 -> Z.pos (digits2_pos p) <= 53.
Proof.
  intros H. pose proof (digits2_lower p) as L.
  destruct (Z_le_gt_dec (Z.pos (digits2_pos p)) 53) as [|G]; [assumption|].
  assert (2 ^ 53 <= 2 ^ (Z.pos (digits2_pos p) - 1))
    by (apply Z.pow_le_mono_r; lia).
  lia.
Qed.

Lemma iter_xO_digits (m d : positive) :
  Z.pos (digits2_pos (Pos.iter xO m d)) = Z.pos (digits2_pos m) + Z.pos d.
Proof.
  induction d as [|d IH] using Pos.peano_ind.
  - cbn. lia.
  - rewrite Pos.iter_succ. cbn [digits2_pos]. lia.
Qed.

Lemma iter_xO_value (m d : positive) :
  Z.pos (Pos.iter xO m d) = Z.pos m * 2 ^ Z.pos d.
Proof.
  induction d as [|d IH] using Pos.peano_ind.
  - cbn. lia.
  - rewrite Pos.iter_succ, Pos2Z.inj_xO, IH, Pos2Z.inj_succ.
    rewrite Z.pow_succ_r by lia. ring.
Qed.

(** Aligning a mantissa to a smaller exponent keeps the value. *)
Lemma shl_align_value (m : positive) (e e' : Z) :
  e' <= e ->
  snd (shl_align m e e') = e'
  /\ Z.pos (fst (shl_align m e e')) = Z.pos m * 2 ^ (e - e')
  /\ Z.pos (digits2_pos (fst (shl_align m e e')))
     = Z.pos (digits2_pos m) + (e - e').
Proof.
  intros H. unfold shl_align.
  destruct (e' - e) as [|d|d] eqn:E; try lia; cbn [fst snd].
  - replace (e - e') with 0 by lia. rewrite Z.pow_0_r. lia.
  - replace (e - e') with (Z.pos d) by lia.
    rewrite iter_xO_value, iter_xO_digits. lia.
Qed.

(** Rounding a mantissa that is already in place returns it. *)
Lemma binary_round_aux_canonical (s : bool) (m : positive) (e : Z) :
  bounded 53 1024 m e = true ->
  binary_round_aux 53 1024 s (Z.pos m) e loc_Exact = S754_finite s m e.
Proof.
  unfold bounded, canonical_mantissa.
  rewrite andb_true_iff, Z.eqb_eq, Z.leb_le. intros [Hc He].
  unfold binary_round_aux, shr_fexp.
  cbn [Zdigits2 shr_record_of_loc]. rewrite Hc, Z.sub_diag.
  cbn [shr shr_m loc_of_shr_record round_nearest_even Zdigits2
       shr_record_of_loc].
  rewrite Hc, Z.sub_diag. cbn [shr shr_m].
  apply Z.leb_le in He. now rewrite He.
Qed.

(** The binary64 value of a positive integer below [2^53], up to the
    sign: the integer itself, shifted into place. *)
Lemma binary_round_small (p : positive) :
  Z.pos p < 2 ^ 53 ->
  exists m e,
    (forall s, binary_round 53 1024 s p 0 = S754_finite s m e)
    /\ e <= 0 /\ Z.pos m = Z.pos p * 2 ^ (- e).
Proof.
  intros H. pose proof (digits2_small p H) as Hd.
  set (t := Z.pos (digits2_pos p) - 53).
  assert (Ht : fexp 53 1024 (Z.pos (digits2_pos p) + 0) = t)
    by (unfold fexp, emin; lia).
  destruct (shl_align_value p 0 t) as (He & Hm & Hdig); [lia|].
  exists (fst (shl_align p 0 t)), t. split; [|split; [lia|]].
  - intros s. unfold binary_round. rewrite Ht.
    destruct (shl_align p 0 t) as [mz ez]. cbn [fst snd] in *. subst ez.
    apply binary_round_aux_canonical.
    unfold bounded, canonical_mantissa.
    rewrite andb_true_iff, Z.eqb_eq, Z.leb_le. rewrite Hdig.
    unfold fexp, emin. lia.
  - rewrite Hm. f_equal; lia.
Qed.

Lemma of_Z_signed (s : bool) (p : positive) :
  Float64.of_Z (cond_Zopp s (Z.pos p)) = binary_round 53 1024 s p 0.
Proof. now destruct s. Qed.

Lemma signed_nonzero (a : Z) :
  a <> 0 -> exists s p, a = cond_Zopp s (Z.pos p) /\ Z.pos p = Z.abs a.
Proof.
  destruct a as [|p|p]; intros H; [congruence| |].
  - exists false, p. auto.
  - exists true, p. auto.
Qed.

(** [int(float(n)) = n] for such an integer. *)
Lemma to_int_of_Z (a : Z) :
  Z.abs a < 2 ^ 53 -> Float64.to_int (Float64.of_Z a) = Ok a.
Proof.
  intros H. destruct (Z.eq_dec a 0) as [->|Na]; [reflexivity|].
  destruct (signed_nonzero a Na) as (s & p & -> & Hp).
  destruct (binary_round_small p) as (m & e & Hr & He & Hm); [lia|].
  rewrite of_Z_signed, Hr. cbn [Float64.to_int]. do 2 f_equal.
  destruct e as [|q|q]; try lia.
  rewrite Hm. cbn [Z.opp]. apply Z.div_mul. lia.
Qed.

(** One more trailing zero in the mantissa is one less in the exponent. *)
Lemma shr_fexp_double (p : positive) (e : Z) :
  e < fexp 53 1024 (Z.pos (digits2_pos p) + (e + 1)) ->
  shr_fexp 53 1024 (Z.pos p~0) e loc_Exact
  = shr_fexp 53 1024 (Z.pos p) (e + 1) loc_Exact.
Proof.
  intros H. unfold shr_fexp. cbn [Zdigits2 digits2_pos shr_record_of_loc].
  rewrite Pos2Z.inj_succ.
  replace (Z.succ (Z.pos (digits2_pos p)) + e)
    with (Z.pos (digits2_pos p) + (e + 1)) by lia.
  set (t := fexp 53 1024 (Z.pos (digits2_pos p) + (e + 1))) in *.
  unfold shr.
  destruct (t - e) as [|n|n] eqn:E1; try lia.
  rewrite iter_pos_nat.
  destruct (Pos2Nat.is_succ n) as [k Hk]. rewrite Hk, Nat.iter_succ_r.
  cbn [shr_1 orb].
  destruct (t - (e + 1)) as [|n'|n'] eqn:E2; try lia.
  - assert (k = 0%nat) by lia. subst k. cbn [Nat.iter]. f_equal. lia.
  - rewrite iter_pos_nat. assert (Pos.to_nat n' = k) by lia. subst k.
    f_equal. lia.
Qed.

Lemma binary_round_double (s : bool) (p : positive) (e : Z) :
  binary_round 53 1024 s p~0 e = binary_round 53 1024 s p (e + 1).
Proof.
  unfold binary_round. cbn [digits2_pos]. rewrite Pos2Z.inj_succ.
  replace (Z.succ (Z.pos (digits2_pos p)) + e)
    with (Z.pos (digits2_pos p) + (e + 1)) by lia.
  pose proof (shr_fexp_double p e) as Hshr.
  set (t := fexp 53 1024 (Z.pos (digits2_pos p) + (e + 1))) in *.
  unfold shl_align.
  destruct (t - e) as [|n|n] eqn:E1;
    destruct (t - (e + 1)) as [|n'|n'] eqn:E2; try lia.
  - assert (n' = 1%positive) by lia. subst n'. cbn [Pos.iter].
    f_equal. lia.
  - unfold binary_round_aux. rewrite Hshr by lia. reflexivity.
  - unfold binary_round_aux. rewrite Hshr by lia. reflexivity.
  - assert (n' = Pos.succ n) by lia. subst n'.
    now rewrite Pos.iter_succ_r.
Qed.

Lemma binary_normalize_double (M e : Z) (sz : bool) :
  binary_normalize 53 1024 (2 * M) e sz
  = binary_normalize 53 1024 M (e + 1) sz.
Proof.
  destruct M as [|p|p]; [reflexivity| |].
  - change (2 * Z.pos p) with (Z.pos p~0). apply binary_round_double.
  - change (2 * Z.neg p) with (Z.neg p~0). apply binary_round_double.
Qed.

Lemma binary_normalize_shift (k : nat) :
  forall (M e : Z) (sz : bool),
    binary_normalize 53 1024 (M * 2 ^ Z.of_nat k) e sz
    = binary_normalize 53 1024 M (e + Z.of_nat k) sz.
Proof.
  induction k as [|k IH]; intros M e sz.
  - cbn [Z.of_nat]. rewrite Z.pow_0_r, Z.mul_1_r, Z.add_0_r. reflexivity.
  - rewrite Nat2Z.inj_succ, Z.pow_succ_r by lia.
    replace (M * (2 * 2 ^ Z.of_nat k)) with (2 * M * 2 ^ Z.of_nat k) by ring.
    rewrite IH, binary_normalize_double. f_equal. lia.
Qed.

Lemma cond_Zopp_mul (s : bool) (x y : Z) :
  cond_Zopp s (x * y) = cond_Zopp s x * y.
Proof. destruct s; cbn; ring. Qed.

(** The float difference of two whole numbers is the float of their
    difference. *)
Lemma sub_of_Z (a b : Z) :
  Z.abs a < 2 ^ 53 -> Z.abs b < 2 ^ 53 ->
  Float64.sub (Float64.of_Z a) (Float64.of_Z b) = Float64.of_Z (a - b).
Proof.
  intros Ha Hb.
  destruct (Z.eq_dec b 0) as [->|Nb].
  { rewrite Z.sub_0_r. change (Float64.of_Z 0) with (S754_zero false).
    now destruct (Float64.of_Z a) as [[]|s| |s m e]. }
  destruct (signed_nonzero b Nb) as (sb & pb & -> & Hpb).
  destruct (binary_round_small pb) as (mb & eb & Hrb & Heb & Hmb); [lia|].
  destruct (Z.eq_dec a 0) as [->|Na].
  { change (Float64.of_Z 0) with (S754_zero false).
    replace (0 - cond_Zopp sb (Z.pos pb))
      with (cond_Zopp (negb sb) (Z.pos pb)) by (destruct sb; cbn; lia).
    now rewrite !of_Z_signed, !Hrb. }
  destruct (signed_nonzero a Na) as (sa & pa & -> & Hpa).
  destruct (binary_round_small pa) as (ma & ea & Hra & Hea & Hma); [lia|].
  rewrite !of_Z_signed, Hra, Hrb.
  unfold Float64.sub, Float64.of_Z, Float64.prec, Float64.emax.
  cbn [SFsub]. cbv zeta.
  set (ez := Z.min ea eb).
  destruct (shl_align_value ma ea ez) as (_ & Va & _); [lia|].
  destruct (shl_align_value mb eb ez) as (_ & Vb & _); [lia|].
  rewrite Va, Vb, Hma, Hmb.
  replace (cond_Zopp sa (Z.pos pa * 2 ^ (- ea) * 2 ^ (ea - ez))
           - cond_Zopp sb (Z.pos pb * 2 ^ (- eb) * 2 ^ (eb - ez)))
    with ((cond_Zopp sa (Z.pos pa) - cond_Zopp sb (Z.pos pb))
          * 2 ^ Z.of_nat (Z.to_nat (- ez))).
  - rewrite binary_normalize_shift. f_equal. lia.
  - rewrite Z2Nat.id by lia.
    rewrite <- !Z.mul_assoc, <- !Z.pow_add_r by lia.
    replace (- ea + (ea - ez)) with (- ez) by lia.
    replace (- eb + (eb - ez)) with (- ez) by lia.
    rewrite !cond_Zopp_mul. ring.
Qed.

(** ** Stored [daily_net] *)

(** C1 as stated fails: with a subscription of 0.5 the write stores 799
    where the formula gives 799.5. *)
Lemma daily_net_fractional_counterexample :
  App.add_record Examples.jan1 5 1000 200 Examples.half Float64.zero
    Float64.zero (Examples.amt 120) [] = (true, [Examples.rec_half])
  /\ ~ Spec.daily_net_exact Examples.rec_half.
Proof.
  split; [reflexivity|]. unfold Spec.daily_net_exact. vm_compute. discriminate.
Qed.

Lemma of_Z_not_nan (a : Z) :
  Z.abs a < 2 ^ 53 -> Float64.is_nan (Float64.of_Z a) = false.
Proof.
  intros H. pose proof (to_int_of_Z a H) as E.
  now destruct (Float64.of_Z a).
Qed.

(** For a sheet row with whole earnings and fuel amounts, the formula of
    the sheet is the formula over the stored fields. *)
Lemma formula_whole raw d r :
  Spec.whole_amounts raw ->
  ImportExcel.Daily.to_record d
    (ImportExcel.Daily.fillna (ImportExcel.Daily.set_daily_net raw)) = Ok r ->
  ImportExcel.Daily.formula raw = Spec.net_formula r.
Proof.
  intros (e & c & He & Hc & Ee & Ec) Hrec.
  destruct (to_record_prepared _ _ _ Hrec)
    as (_ & Hre & Hrc & Hp & Hi & _).
  rewrite Ee, (fillna0_not_nan _ (of_Z_not_nan e He)), (to_int_of_Z e He)
    in Hre.
  rewrite Ec, (fillna0_not_nan _ (of_Z_not_nan c Hc)), (to_int_of_Z c Hc)
    in Hrc.
  injection Hre as Hre. injection Hrc as Hrc.
  unfold ImportExcel.Daily.formula, Spec.net_formula.
  rewrite <- Hre, <- Hrc, Hp, Hi, Ee, Ec, (sub_of_Z e c He Hc).
  reflexivity.
Qed.

Lemma written_from_prepared raw d r :
  ImportExcel.normalize_date
    (ImportExcel.fillna0_cell (ImportExcel.Daily.date raw)) = Ok (Date d) ->
  ImportExcel.Daily.to_record d
    (ImportExcel.Daily.fillna (ImportExcel.Daily.set_daily_net raw)) = Ok r ->
  Spec.written_from raw r.
Proof.
  intros Hd Hrec.
  destruct (to_record_prepared _ _ _ Hrec) as (Ed & He & Hc & Hp & Hi & _).
  unfold Spec.written_from. rewrite Ed. auto.
Qed.

(** C1 (amended): after a successful [add_record] the row stored for the
    date has [daily_net] equal to the binary64 value of
    [earnings - cng_expenses - driver_pass_subscription - indrive_topup]
    over its stored fields, truncated toward zero by [int()].  After a
    successful [import_daily_records] every sheet row has a row stored for
    its date, written from a sheet row of that date (the row itself when no
    other sheet row has its date); when the earnings and fuel cells of that
    sheet row hold whole numbers, the stored [daily_net] is the same
    truncation of the same formula over the stored fields, whenever the
    value of the formula is a number. *)
Theorem daily_net_truncates_formula :
  (forall d rc e c p i os oe table table',
      App.add_record d rc e c p i os oe table = (true, table') ->
      exists r,
        Spec.lookup DailyRecord.date d table' = Some r
        /\ Float64.to_int (Spec.net_formula r) = Ok (DailyRecord.daily_net r))
  /\ (forall sort_values,
        (forall A key (l l' : list A),
            sort_values A key l = Ok l' -> Permutation l l') ->
        forall sheets table added updated table',
          ImportExcel.import_daily_records sort_values sheets table
          = (Ok (added, updated), table') ->
          forall sheet raw,
            In sheet sheets -> In raw sheet ->
            exists d r sheet' raw',
              ImportExcel.normalize_date
                (ImportExcel.fillna0_cell (ImportExcel.Daily.date raw))
              = Ok (Date d)
              /\ Spec.lookup DailyRecord.date d table' = Some r
              /\ In sheet' sheets /\ In raw' sheet'
              /\ (Spec.only_row_for sheets d raw -> raw' = raw)
              /\ Spec.written_from raw' r
              /\ (Spec.whole_amounts raw' ->
                  Float64.is_nan (Spec.net_formula r) = false ->
                  Float64.to_int (Spec.net_formula r)
                  = Ok (DailyRecord.daily_net r))).
Proof.
  split.
  - intros d rc e c p i os oe table table' H.
    apply add_record_true in H as (n & Hn & Hl & _).
    eexists. split; [exact Hl|]. exact Hn.
  - intros sort_values Hperm sheets table added updated table' H
      sheet raw Hsh Hraw.
    destruct (import_daily_stored _ Hperm _ _ _ _ _ H sheet raw Hsh Hraw)
      as (d & r & sheet' & raw' & Hd & Hl & Hsh' & Hraw' & Hd' & Hrec).
    exists d, r, sheet', raw'.
    repeat (split; [first [assumption
                          | eapply written_from_prepared; eassumption
                          | intros Honly; eapply Honly; eassumption]|]).
    intros Hw Hnan.
    destruct (to_record_prepared _ _ _ Hrec)
      as (_ & _ & _ & _ & _ & _ & _ & Hn).
    rewrite (formula_whole _ _ _ Hw Hrec) in Hn.
    now rewrite (fillna0_not_nan _ Hnan) in Hn.
Qed.

Lemma daily_net_truncates_formula_witness :
  (exists r,
      Spec.lookup DailyRecord.date Examples.jan1 [Examples.rec_half] = Some r
      /\ Float64.to_int (Spec.net_formula r) = Ok (DailyRecord.daily_net r))
  /\ (exists d r sheet' raw',
        ImportExcel.normalize_date
          (ImportExcel.fillna0_cell (ImportExcel.Daily.date Examples.row_ok))
        = Ok (Date d)
        /\ Spec.lookup DailyRecord.date d [Examples.rec_ok] = Some r
        /\ In sheet' [[Examples.row_ok]; []] /\ In raw' sheet'
        /\ (Spec.only_row_for [[Examples.row_ok]; []] d Examples.row_ok ->
            raw' = Examples.row_ok)
        /\ Spec.written_from raw' r
        /\ (Spec.whole_amounts raw' ->
            Float64.is_nan (Spec.net_formula r) = false ->
            Float64.to_int (Spec.net_formula r)
            = Ok (DailyRecord.daily_net r))).
Proof.
  split.
  - apply (proj1 daily_net_truncates_formula Examples.jan1 5 1000 200
             Examples.half Float64.zero Float64.zero (Examples.amt 120) []).
    reflexivity.
  - apply (proj2 daily_net_truncates_formula Pandas.sort_values
             pandas_sort_values_perm [[Examples.row_ok]; []] [] 1 0
             [Examples.rec_ok] eq_refl [Examples.row_ok]).
    + left. reflexivity.
    + left. reflexivity.
Defined.

(** ** Repeated writes for one date *)

(** C2: on a table with distinct dates, two successive successful
    [add_record] calls for date [d] leave exactly one row for [d], and its
    fields are those of the second call. *)
Theorem add_record_last_write_wins :
  forall d table
         rc1 e1 c1 p1 i1 os1 oe1 table1
         rc2 e2 c2 p2 i2 os2 oe2 table2,
    Spec.unique_dates DailyRecord.date table ->
    App.add_record d rc1 e1 c1 p1 i1 os1 oe1 table = (true, table1) ->
    App.add_record d rc2 e2 c2 p2 i2 os2 oe2 table1 = (true, table2) ->
    exists n,
      Float64.to_int
        (Float64.sub (Float64.sub (Float64.of_Z (e2 - c2)) p2) i2) = Ok n
      /\ Spec.rows_for DailyRecord.date d table2
         = [DailyRecord.mk d rc2 e2 c2 (Some p2) (Some i2)
              (App.odometer os2) (App.odometer oe2) n].
Proof.
  intros d table rc1 e1 c1 p1 i1 os1 oe1 table1
    rc2 e2 c2 p2 i2 os2 oe2 table2 U H1 H2.
  pose proof (add_record_unique _ _ _ _ _ _ _ _ _ _ U H1) as U1.
  pose proof (add_record_unique _ _ _ _ _ _ _ _ _ _ U1 H2) as U2.
  apply add_record_true in H2 as (n & Hn & Hl & _).
  exists n. split; [exact Hn|].
  now apply rows_for_unique.
Qed.

Lemma add_record_last_write_wins_witness :
  exists n,
    Float64.to_int
      (Float64.sub (Float64.sub (Float64.of_Z (900 - 100)) (Examples.amt 50))
         Float64.zero) = Ok n
    /\ Spec.rows_for DailyRecord.date Examples.jan1 [Examples.rec_second]
       = [DailyRecord.mk Examples.jan1 7 900 100
            (Some (Examples.amt 50)) (Some Float64.zero)
            (App.odometer (Examples.amt 10)) (App.odometer (Examples.amt 0))
            n].
Proof.
  apply (add_record_last_write_wins Examples.jan1 []
           5 1000 200 Examples.half Float64.zero Float64.zero
           (Examples.amt 120) [Examples.rec_half]
           7 900 100 (Examples.amt 50) Float64.zero (Examples.amt 10)
           (Examples.amt 0) [Examples.rec_second]).
  - constructor.
  - reflexivity.
  - reflexivity.
Defined.

(** ** Atomic import *)

Lemma daily_loop_Raise (rows : list ImportExcel.Daily.row) :
  forall s a u row e,
    In row rows ->
    ImportExcel.normalize_date (ImportExcel.Daily.date row) = Raise e ->
    exists e' s', ImportExcel.daily_loop rows s a u = (Raise e', s').
Proof.
  intros s a u row e Hin He.
  destruct (ImportExcel.daily_loop rows s a u) as [[[a' u']|e'] s'] eqn:E;
    [|eauto].
  apply daily_loop_Ok in E as [Hn _].
  destruct (Hn row Hin) as [d Hd]. congruence.
Qed.

Lemma expense_loop_Raise (rows : list ImportExcel.Expense.row) :
  forall s a u row e,
    In row rows ->
    ImportExcel.normalize_date (ImportExcel.Expense.date row) = Raise e ->
    exists e' s', ImportExcel.expense_loop rows s a u = (Raise e', s').
Proof.
  intros s a u row e Hin He.
  destruct (ImportExcel.expense_loop rows s a u) as [[[a' u']|e'] s'] eqn:E;
    [|eauto].
  apply expense_loop_Ok in E as [Hn _].
  destruct (Hn row Hin) as [d Hd]. congruence.
Qed.

(** C3: one call of [import_daily_records] or of [import_other_expenses]
    is all or nothing.  If the date of some row of the concatenated batch
    does not normalize, the call raises and the table is the one before the
    call; whenever the call raises, the table is the one before the call;
    the counts are returned only when every row was processed, and then
    they add up to the size of the batch. *)
Theorem import_is_atomic :
  forall sort_values,
    (forall sheets table combined row e,
        ImportExcel.daily_batch sort_values sheets = Ok combined ->
        In row combined ->
        ImportExcel.normalize_date (ImportExcel.Daily.date row) = Raise e ->
        exists e',
          ImportExcel.import_daily_records sort_values sheets table
          = (Raise e', table))
    /\ (forall sheets table outcome table',
          ImportExcel.import_daily_records sort_values sheets table
          = (outcome, table') ->
          match outcome with
          | Raise _ => table' = table
          | Ok (added, updated) =>
              exists combined,
                ImportExcel.daily_batch sort_values sheets = Ok combined
                /\ added + updated = Z.of_nat (List.length combined)
          end)
    /\ (forall sheets table combined row e,
          ImportExcel.expense_batch sort_values sheets = Ok combined ->
          In row combined ->
          ImportExcel.normalize_date (ImportExcel.Expense.date row) = Raise e ->
          exists e',
            ImportExcel.import_other_expenses sort_values sheets table
            = (Raise e', table))
    /\ (forall sheets table outcome table',
          ImportExcel.import_other_expenses sort_values sheets table
          = (outcome, table') ->
          match outcome with
          | Raise _ => table' = table
          | Ok (added, updated) =>
              exists combined,
                ImportExcel.expense_batch sort_values sheets = Ok combined
                /\ added + updated = Z.of_nat (List.length combined)
          end).
Proof.
  intros sort_values. repeat split.
  - intros sheets table combined row e Hb Hin He.
    unfold ImportExcel.import_daily_records. rewrite Hb.
    destruct (daily_loop_Raise combined (Session.get_session table) 0 0
                row e Hin He) as (e' & s' & Hloop).
    rewrite Hloop. exists e'. f_equal.
    apply (daily_loop_inv (fun _ => True)) in Hloop as (Hc & _); cbn; auto.
    all: apply Forall_forall; auto.
  - intros sheets table outcome table'.
    unfold ImportExcel.import_daily_records.
    destruct (ImportExcel.daily_batch sort_values sheets) as [combined|e];
      [|now intros H; inv H].
    destruct (ImportExcel.daily_loop _ _ _ _) as [[[a u]|e] s] eqn:Eloop.
    + pose proof Eloop as Hinv.
      apply (daily_loop_inv (fun _ => True)) in Hinv as (Hc & _); cbn; auto;
        try (apply Forall_forall; auto).
      apply daily_loop_Ok in Eloop as [_ Hcount].
      destruct (Session.commit _ _ s); intros H; inv H.
      * exists combined. split; [reflexivity | lia].
      * exact Hc.
    + apply (daily_loop_inv (fun _ => True)) in Eloop as (Hc & _); cbn; auto;
        try (apply Forall_forall; auto).
      intros H; inv H. exact Hc.
  - intros sheets table combined row e Hb Hin He.
    unfold ImportExcel.import_other_expenses. rewrite Hb.
    destruct (expense_loop_Raise combined (Session.get_session table) 0 0
                row e Hin He) as (e' & s' & Hloop).
    rewrite Hloop. exists e'. f_equal.
    now apply expense_loop_committed in Hloop.
  - intros sheets table outcome table'.
    unfold ImportExcel.import_other_expenses.
    destruct (ImportExcel.expense_batch sort_values sheets) as [combined|e];
      [|now intros H; inv H].
    destruct (ImportExcel.expense_loop _ _ _ _) as [[[a u]|e] s] eqn:Eloop.
    + pose proof (expense_loop_committed _ _ _ _ _ _ Eloop) as Hc.
      apply expense_loop_Ok in Eloop as [_ Hcount].
      destruct (Session.commit _ _ s); intros H; inv H.
      * exists combined. split; [reflexivity | lia].
      * exact Hc.
    + apply expense_loop_committed in Eloop.
      intros H; inv H. exact Eloop.
Qed.

Lemma import_is_atomic_witness :
  (exists e',
      ImportExcel.import_daily_records Pandas.sort_values
        [[Examples.row_ok; Examples.row_bad_month]] [Examples.rec_half]
      = (Raise e', [Examples.rec_half]))
  /\ (exists e',
        ImportExcel.import_other_expenses Pandas.sort_values
          [[Examples.exp_emi; Examples.exp_bad_month]] []
        = (Raise e', [])).
Proof.
  split.
  - apply (proj1 (import_is_atomic Pandas.sort_values)
             [[Examples.row_ok; Examples.row_bad_month]] [Examples.rec_half]
             [ImportExcel.Daily.fillna
                (ImportExcel.Daily.set_daily_net Examples.row_ok);
              ImportExcel.Daily.fillna
                (ImportExcel.Daily.set_daily_net Examples.row_bad_month)]
             (ImportExcel.Daily.fillna
                (ImportExcel.Daily.set_daily_net Examples.row_bad_month))
             ValueError).
    + reflexivity.
    + right. left. reflexivity.
    + reflexivity.
  - apply (proj1 (proj2 (proj2 (import_is_atomic Pandas.sort_values)))
             [[Examples.exp_emi; Examples.exp_bad_month]] []
             [ImportExcel.Expense.fillna Examples.exp_emi;
              ImportExcel.Expense.fillna Examples.exp_bad_month]
             (ImportExcel.Expense.fillna Examples.exp_bad_month)
             ValueError).
    + reflexivity.
    + right. left. reflexivity.
    + reflexivity.
Defined.

(** ** Odometer readings *)

Lemma app_odometer_zero (x : Float64.float) :
  Float64.eqb x Float64.zero = true -> App.odometer x = None.
Proof. unfold App.odometer. intros H. now rewrite (eqb_zero_not_lt _ H). Qed.

Lemma app_odometer_pos (x : Float64.float) :
  Float64.ltb Float64.zero x = true -> App.odometer x = Some x.
Proof. unfold App.odometer. now intros ->. Qed.

Lemma sheet_odometer_zero (x : Float64.float) :
  Float64.eqb x Float64.zero = true ->
  ImportExcel.Daily.odometer (Float64.fillna0 x) = None.
Proof.
  destruct x as [s|s| |s m e]; try destruct s; cbn; congruence.
Qed.

Lemma sheet_odometer_pos (x : Float64.float) :
  Float64.ltb Float64.zero x = true ->
  ImportExcel.Daily.odometer (Float64.fillna0 x) = Some x.
Proof.
  intros H. rewrite (lt_zero_fillna0 _ H).
  unfold ImportExcel.Daily.odometer. now rewrite (lt_zero_truthy _ H).
Qed.

(** C8: a write through [add_record] stores an odometer reading of zero as
    unset and a positive reading as given.  So does [import_daily_records]:
    after a successful import every sheet row has a row stored for its
    date, written from a sheet row of that date (the row itself when no
    other sheet row has its date), in which a reading of zero in the sheet
    is unset and a positive reading is the one of the sheet. *)
Theorem zero_odometer_is_unset :
  (forall d rc e c p i os oe table table',
      App.add_record d rc e c p i os oe table = (true, table') ->
      exists r,
        Spec.lookup DailyRecord.date d table' = Some r
        /\ (Float64.eqb os Float64.zero = true ->
            DailyRecord.odometer_start r = None)
        /\ (Float64.ltb Float64.zero os = true ->
            DailyRecord.odometer_start r = Some os)
        /\ (Float64.eqb oe Float64.zero = true ->
            DailyRecord.odometer_end r = None)
        /\ (Float64.ltb Float64.zero oe = true ->
            DailyRecord.odometer_end r = Some oe))
  /\ (forall sort_values,
        (forall A key (l l' : list A),
            sort_values A key l = Ok l' -> Permutation l l') ->
        forall sheets table added updated table',
          ImportExcel.import_daily_records sort_values sheets table
          = (Ok (added, updated), table') ->
          forall sheet raw,
            In sheet sheets -> In raw sheet ->
            exists d r sheet' raw',
              ImportExcel.normalize_date
                (ImportExcel.fillna0_cell (ImportExcel.Daily.date raw))
              = Ok (Date d)
              /\ Spec.lookup DailyRecord.date d table' = Some r
              /\ In sheet' sheets /\ In raw' sheet'
              /\ (Spec.only_row_for sheets d raw -> raw' = raw)
              /\ Spec.written_from raw' r
              /\ (Float64.eqb (ImportExcel.Daily.odometer_start raw')
                    Float64.zero = true ->
                  DailyRecord.odometer_start r = None)
              /\ (Float64.ltb Float64.zero
                    (ImportExcel.Daily.odometer_start raw') = true ->
                  DailyRecord.odometer_start r
                  = Some (ImportExcel.Daily.odometer_start raw'))
              /\ (Float64.eqb (ImportExcel.Daily.odometer_end raw')
                    Float64.zero = true ->
                  DailyRecord.odometer_end r = None)
              /\ (Float64.ltb Float64.zero
                    (ImportExcel.Daily.odometer_end raw') = true ->
                  DailyRecord.odometer_end r
                  = Some (ImportExcel.Daily.odometer_end raw'))).
Proof.
  split.
  - intros d rc e c p i os oe table table' H.
    apply add_record_true in H as (n & _ & Hl & _).
    eexists. split; [exact Hl|]. cbn.
    auto using app_odometer_zero, app_odometer_pos.
  - intros sort_values Hperm sheets table added updated table' H
      sheet raw Hsh Hraw.
    destruct (import_daily_stored _ Hperm _ _ _ _ _ H sheet raw Hsh Hraw)
      as (d & r & sheet' & raw' & Hd & Hl & Hsh' & Hraw' & Hd' & Hrec).
    exists d, r, sheet', raw'.
    repeat (split; [first [assumption
                          | eapply written_from_prepared; eassumption
                          | intros Honly; eapply Honly; eassumption]|]).
    destruct (to_record_prepared _ _ _ Hrec)
      as (_ & _ & _ & _ & _ & Hs & Hen & _).
    rewrite Hs, Hen.
    repeat split; auto using sheet_odometer_zero, sheet_odometer_pos.
Qed.

Lemma zero_odometer_is_unset_witness :
  (exists r,
      Spec.lookup DailyRecord.date Examples.jan1 [Examples.rec_half] = Some r
      /\ (Float64.eqb Float64.zero Float64.zero = true ->
          DailyRecord.odometer_start r = None)
      /\ (Float64.ltb Float64.zero Float64.zero = true ->
          DailyRecord.odometer_start r = Some Float64.zero)
      /\ (Float64.eqb (Examples.amt 120) Float64.zero = true ->
          DailyRecord.odometer_end r = None)
      /\ (Float64.ltb Float64.zero (Examples.amt 120) = true ->
          DailyRecord.odometer_end r = Some (Examples.amt 120)))
  /\ (exists d r sheet' raw',
        ImportExcel.normalize_date
          (ImportExcel.fillna0_cell
             (ImportExcel.Daily.date Examples.row_trip))
        = Ok (Date d)
        /\ Spec.lookup DailyRecord.date d
             [Examples.rec_half; Examples.rec_trip] = Some r
        /\ In sheet' [[Examples.row_trip]] /\ In raw' sheet'
        /\ (Spec.only_row_for [[Examples.row_trip]] d Examples.row_trip ->
            raw' = Examples.row_trip)
        /\ Spec.written_from raw' r
        /\ (Float64.eqb (ImportExcel.Daily.odometer_start raw')
              Float64.zero = true ->
            DailyRecord.odometer_start r = None)
        /\ (Float64.ltb Float64.zero
              (ImportExcel.Daily.odometer_start raw') = true ->
            DailyRecord.odometer_start r
            = Some (ImportExcel.Daily.odometer_start raw'))
        /\ (Float64.eqb (ImportExcel.Daily.odometer_end raw')
              Float64.zero = true ->
            DailyRecord.odometer_end r = None)
        /\ (Float64.ltb Float64.zero
              (ImportExcel.Daily.odometer_end raw') = true ->
            DailyRecord.odometer_end r
            = Some (ImportExcel.Daily.odometer_end raw'))).
Proof.
  split.
  - exact (proj1 zero_odometer_is_unset Examples.jan1 5 1000 200
             Examples.half Float64.zero Float64.zero (Examples.amt 120)
             [] [Examples.rec_half] eq_refl).
  - apply (proj2 zero_odometer_is_unset Pandas.sort_values
             pandas_sort_values_perm [[Examples.row_trip]]
             [Examples.rec_half] 1 0
             [Examples.rec_half; Examples.rec_trip] eq_refl
             [Examples.row_trip]).
    + left. reflexivity.
    + left. reflexivity.
Defined.

(** ** All-zero expense rows *)

(** C9: the batch [import_other_expenses] iterates over contains no sheet
    row whose [expenses], [car_emi] and [pg_rent] are all zero once blanks
    are filled with zero, and contains every sheet row in which one of the
    three is not zero. *)
Theorem zero_expense_rows_are_dropped :
  forall sort_values,
    (forall A key (l l' : list A),
        sort_values A key l = Ok l' -> Permutation l l') ->
    forall sheets combined,
      ImportExcel.expense_batch sort_values sheets = Ok combined ->
      forall sheet raw,
        In sheet sheets -> In raw sheet ->
        let row := ImportExcel.Expense.fillna raw in
        (Float64.eqb (ImportExcel.Expense.expenses row) Float64.zero = true
         /\ Float64.eqb (ImportExcel.Expense.car_emi row) Float64.zero = true
         /\ Float64.eqb (ImportExcel.Expense.pg_rent row) Float64.zero = true ->
         ~ In row combined)
        /\ (Float64.eqb (ImportExcel.Expense.expenses row) Float64.zero = false
            \/ Float64.eqb (ImportExcel.Expense.car_emi row) Float64.zero
               = false
            \/ Float64.eqb (ImportExcel.Expense.pg_rent row) Float64.zero
               = false ->
            In row combined).
Proof.
  intros sort_values Hperm sheets combined Hb sheet raw Hsh Hraw row.
  pose proof (expense_batch_In _ Hperm _ _ Hb row) as Hin.
  split.
  - intros (H1 & H2 & H3) Hc. apply Hin in Hc as [Hk _].
    unfold ImportExcel.Expense.keep, ImportExcel.Expense.ne0 in Hk.
    rewrite H1, H2, H3 in Hk. discriminate.
  - intros H. apply Hin. split; [|eauto].
    unfold ImportExcel.Expense.keep, ImportExcel.Expense.ne0.
    rewrite !orb_true_iff, !negb_true_iff. tauto.
Qed.

Lemma zero_expense_rows_are_dropped_witness :
  ~ In (ImportExcel.Expense.fillna Examples.exp_blank)
      [ImportExcel.Expense.fillna Examples.exp_emi]
  /\ In (ImportExcel.Expense.fillna Examples.exp_emi)
       [ImportExcel.Expense.fillna Examples.exp_emi].
Proof.
  pose proof (zero_expense_rows_are_dropped Pandas.sort_values
                pandas_sort_values_perm
                [[Examples.exp_blank; Examples.exp_emi]; []]
                [ImportExcel.Expense.fillna Examples.exp_emi] eq_refl
                [Examples.exp_blank; Examples.exp_emi]) as H.
  split.
  - apply (H Examples.exp_blank); [now left | now left | ].
    repeat split; reflexivity.
  - apply (H Examples.exp_emi); [now left | right; now left | ].
    right. left. reflexivity.
Defined.

(** ** Manual entry of an all-zero expense *)

(** C10: for a date without a row, [add_other_expense] with zero EMI, rent
    and expenses succeeds and appends a row for the date, although the
    importer drops a sheet row with the same three amounts. *)
Theorem manual_zero_expense_is_stored :
  forall d months table,
    Spec.lookup OtherExpense.date d table = None ->
    App.add_other_expense d Float64.zero Float64.zero Float64.zero months table
    = (true,
       table ++ [OtherExpense.mk d (Some Float64.zero) (Some months)
                   (Some Float64.zero) (Some Float64.zero)])
    /\ forall cell note,
        ImportExcel.Expense.prepare_sheet
          [ImportExcel.Expense.mk cell Float64.zero note
             Float64.zero Float64.zero] = [].
Proof.
  intros d months table Hl. split; [|reflexivity].
  unfold App.add_other_expense, App.add_other_expense_body,
    Session.query_first, Session.get_session, Session.commit.
  cbn [Session.loaded Session.pending].
  fold (Spec.lookup OtherExpense.date d table). rewrite Hl.
  pose proof (lookup_None_has_date _ _ _ Hl) as Hd.
  unfold Session.has_date in Hd. cbn. now rewrite Hd.
Qed.

Lemma manual_zero_expense_is_stored_witness :
  App.add_other_expense Examples.jan1 Float64.zero Float64.zero Float64.zero
    EmptyString []
  = (true,
     [OtherExpense.mk Examples.jan1 (Some Float64.zero) (Some EmptyString)
        (Some Float64.zero) (Some Float64.zero)]).
Proof.
  apply (proj1 (manual_zero_expense_is_stored Examples.jan1 EmptyString []
                  eq_refl)).
Defined.

(** ** Summary metrics *)

Lemma wrap64_add_l (a x : Z) :
  Float64.wrap64 (Float64.wrap64 a + x) = Float64.wrap64 (a + x).
Proof.
  unfold Float64.wrap64. f_equal.
  replace ((a + 2 ^ 63) mod 2 ^ 64 - 2 ^ 63 + x + 2 ^ 63)
    with ((a + 2 ^ 63) mod 2 ^ 64 + x) by lia.
  rewrite Zplus_mod_idemp_l. f_equal. lia.
Qed.

Lemma wrap64_small (z : Z) :
  - 2 ^ 63 <= z < 2 ^ 63 -> Float64.wrap64 z = z.
Proof.
  intros H. unfold Float64.wrap64. rewrite Z.mod_small; lia.
Qed.

(** The [int64] sum is the exact sum reduced to the 64-bit range. *)
Lemma sum_int_total (col : list Z) :
  App.sum_int col = Float64.wrap64 (Spec.total col).
Proof.
  unfold App.sum_int.
  assert (G : forall acc,
             fold_left (fun a x => Float64.wrap64 (a + x)) col
               (Float64.wrap64 acc)
             = Float64.wrap64 (acc + Spec.total col)).
  { induction col as [|x col IH]; intros acc;
      cbn [fold_left fold_right Spec.total].
    - now rewrite Z.add_0_r.
    - rewrite wrap64_add_l, IH. f_equal. unfold Spec.total. ring. }
  specialize (G 0). rewrite wrap64_small in G by lia. exact G.
Qed.

(** C6: the average earnings per ride is the binary64 quotient of the
    total earnings by the total ride count when that count is positive,
    and the integer 0 when it is 0; both totals are the column sums. *)
Theorem avg_per_ride_guarded :
  forall filtered_df,
    App.total_earnings filtered_df
    = Float64.wrap64 (Spec.total (map App.Frame.earnings filtered_df))
    /\ App.total_rides filtered_df
       = Float64.wrap64 (Spec.total (map App.Frame.ride_count filtered_df))
    /\ (0 < App.total_rides filtered_df ->
        App.avg_per_ride filtered_df
        = App.Float
            (Float64.div (Float64.of_Z (App.total_earnings filtered_df))
               (Float64.of_Z (App.total_rides filtered_df))))
    /\ (App.total_rides filtered_df = 0 ->
        App.avg_per_ride filtered_df = App.Int 0).
Proof.
  intros df. unfold App.total_earnings, App.total_rides, App.avg_per_ride.
  rewrite <- !sum_int_total. repeat split.
  - intros H. apply Z.ltb_lt in H. unfold App.total_rides. now rewrite H.
  - unfold App.total_rides. now intros ->.
Qed.

Lemma avg_per_ride_guarded_witness :
  App.avg_per_ride [Examples.day_half]
  = App.Float (Float64.div (Examples.amt 1000) (Examples.amt 5))
  /\ App.avg_per_ride [Examples.day_fuel_only; Examples.day_idle] = App.Int 0.
Proof.
  split.
  - apply (proj1 (proj2 (proj2 (avg_per_ride_guarded [Examples.day_half])))).
    reflexivity.
  - apply (proj2 (proj2 (proj2
             (avg_per_ride_guarded
                [Examples.day_fuel_only; Examples.day_idle])))).
    reflexivity.
Defined.

(** ** Profit margin *)

(** C4 (failing input): a day with no earnings and 200 of fuel has
    [daily_net = -200]; its profit margin is minus infinity, not 0.  Only
    the day with no earnings and no costs, where the quotient is NaN, is
    mapped to 0 by [fillna(0)]. *)
Theorem profit_margin_zero_earnings :
  App.profit_margin [Examples.day_fuel_only; Examples.day_idle]
  = [Float64.ninf; Float64.zero]
  /\ App.Frame.earnings Examples.day_fuel_only = 0
  /\ Float64.eqb (App.profit_margin_of Examples.day_fuel_only) Float64.zero
     = false.
Proof. repeat split. Qed.

(** ** Monthly summary *)

Lemma period_eqb_eq (p q : App.period) : App.period_eqb p q = true <-> p = q.
Proof.
  destruct p as [y m], q as [y' m']. unfold App.period_eqb. cbn.
  rewrite andb_true_iff, !Z.eqb_eq. split.
  - now intros [-> ->].
  - intros H. now inv H.
Qed.

Lemma insert_period_In (p q : App.period) (keys : list App.period) :
  In q (App.insert_period p keys) <-> q = p \/ In q keys.
Proof.
  induction keys as [|k keys IH]; cbn.
  - intuition.
  - destruct (App.period_eqb p k) eqn:E.
    + apply period_eqb_eq in E. subst k. cbn. intuition.
    + destruct (App.period_ltb p k); cbn; rewrite ?IH; intuition.
Qed.

Lemma group_keys_In (p : App.period) (dates : list date) :
  In p (App.group_keys dates) <-> In p (map App.to_period dates).
Proof.
  unfold App.group_keys. induction dates as [|d dates IH]; cbn.
  - tauto.
  - rewrite insert_period_In, IH. intuition.
Qed.

Lemma filter_in_month_nil {A} (date_of : A -> date) (p : App.period)
  (rows : list A) :
  ~ In p (map App.to_period (map date_of rows)) ->
  filter (fun r => App.in_month p (date_of r)) rows = [].
Proof.
  induction rows as [|r rows IH]; cbn; auto.
  intros H. unfold App.in_month at 1.
  destruct (App.period_eqb (App.to_period (date_of r)) p) eqn:E.
  - apply period_eqb_eq in E. exfalso. auto.
  - apply IH. auto.
Qed.

(** Merging the per-month sums and filling blanks gives, for each month,
    the sums over that month's rows. *)
Lemma merged_expenses_sums (p : App.period)
  (other : list App.ExpenseFrame.row) :
  App.merged_expenses p (App.expense_summary other)
  = (Spec.month_sum App.ExpenseFrame.car_emi p other,
     Spec.month_sum App.ExpenseFrame.pg_rent p other,
     Spec.month_sum App.ExpenseFrame.expenses p other).
Proof.
  unfold App.merged_expenses, App.expense_summary, Spec.month_sum.
  pose proof (group_keys_In p (map App.ExpenseFrame.date other)) as Hk.
  induction (App.group_keys (map App.ExpenseFrame.date other))
    as [|k keys IH]; cbn [map find fst].
  - rewrite filter_in_month_nil; [reflexivity|]. intros H. now apply Hk in H.
  - destruct (App.period_eqb k p) eqn:E.
    + apply period_eqb_eq in E. now subst k.
    + apply IH. split.
      * intros H. apply Hk. now right.
      * intros H. apply Hk in H as [->|H]; auto.
        rewrite (proj2 (period_eqb_eq p p) eq_refl) in E. discriminate.
Qed.

Lemma has_expenses_false (p : App.period)
  (other : list App.ExpenseFrame.row) :
  Spec.has_expenses p other = false ->
  filter (fun r => App.in_month p (App.ExpenseFrame.date r)) other = [].
Proof.
  unfold Spec.has_expenses. induction other as [|r other IH]; cbn; auto.
  destruct (App.in_month p (App.ExpenseFrame.date r)); cbn; auto.
  discriminate.
Qed.

(** C5 as stated fails: January has no other-expenses row, February has
    one; January's net profit is then 1000 - 200.5 = 799.5 and not the
    summed [daily_net] 799. *)
Lemma monthly_net_profit_counterexample :
  exists m,
    App.monthly_summary [Examples.day_half] [Examples.emi_feb] = [m]
    /\ Spec.has_expenses (App.Monthly.month m) [Examples.emi_feb] = false
    /\ App.Monthly.daily_net m = 799
    /\ App.Monthly.net_profit m <> App.Int (App.Monthly.daily_net m)
    /\ Float64.eqb (Spec.value (App.Monthly.net_profit m))
         (Float64.of_Z (App.Monthly.daily_net m)) = false.
Proof.
  eexists. split; [vm_compute; reflexivity|].
  cbn [App.Monthly.month App.Monthly.daily_net App.Monthly.net_profit].
  repeat split; try reflexivity. discriminate.
Qed.

(** C5 (amended): for every month of the monthly summary, when the
    other-expenses table has any row at all, total expenses are the
    month's daily expenses plus the car EMI, rent and miscellaneous sums of
    that month (each zero when the month has no such row) and net profit is
    the month's earnings minus that total; when the other-expenses table is
    empty, net profit is the month's summed [daily_net]. *)
Theorem monthly_net_profit :
  forall filtered_df other_expenses_df m,
    In m (App.monthly_summary filtered_df other_expenses_df) ->
    let g := Spec.month_rows (App.Monthly.month m) filtered_df in
    let emi :=
      Spec.month_sum App.ExpenseFrame.car_emi (App.Monthly.month m)
        other_expenses_df in
    let rent :=
      Spec.month_sum App.ExpenseFrame.pg_rent (App.Monthly.month m)
        other_expenses_df in
    let misc :=
      Spec.month_sum App.ExpenseFrame.expenses (App.Monthly.month m)
        other_expenses_df in
    let total_all :=
      Float64.add
        (Float64.add (Float64.add (App.total_expenses g) emi) rent) misc in
    App.Monthly.earnings m = App.total_earnings g
    /\ App.Monthly.daily_net m = App.total_profit g
    /\ App.Monthly.total_expenses m = App.total_expenses g
    /\ (other_expenses_df <> [] ->
        App.Monthly.total_all_expenses m = Some total_all
        /\ App.Monthly.net_profit m
           = App.Float
               (Float64.sub (Float64.of_Z (App.total_earnings g)) total_all))
    /\ (other_expenses_df = [] ->
        App.Monthly.net_profit m = App.Int (App.total_profit g))
    /\ (Spec.has_expenses (App.Monthly.month m) other_expenses_df = false ->
        emi = Float64.zero /\ rent = Float64.zero /\ misc = Float64.zero).
Proof.
  intros df other m Hm.
  unfold App.monthly_summary in Hm.
  apply in_map_iff in Hm as (p & <- & _).
  unfold App.monthly_row.
  destruct other as [|o other].
  - cbn. repeat split; congruence.
  - rewrite merged_expenses_sums.
    cbn [App.Monthly.month App.Monthly.earnings App.Monthly.daily_net
         App.Monthly.total_expenses App.Monthly.total_all_expenses
         App.Monthly.net_profit].
    repeat split; try discriminate.
    all: match goal with
         | Hnone : Spec.has_expenses _ _ = false |- _ =>
             unfold Spec.month_sum; now rewrite (has_expenses_false _ _ Hnone)
         end.
Qed.

Lemma monthly_net_profit_witness :
  App.Monthly.net_profit
    (App.monthly_row [Examples.emi_feb] (2025, 1) [Examples.day_half])
  = App.Float
      (Float64.sub (Examples.amt 1000)
         (Float64.add (Examples.amt 200) Examples.half)).
Proof.
  pose proof (monthly_net_profit [Examples.day_half] [Examples.emi_feb]
                (App.monthly_row [Examples.emi_feb] (2025, 1)
                   [Examples.day_half])
                (or_introl eq_refl))
    as (_ & _ & _ & H & _).
  destruct H as [_ H]; [discriminate|].
  exact H.
Defined.

(** ** Date normalization *)

(** Case analysis on an integer [n] that the context bounds, from [lo]
    upwards. *)
Ltac enum n lo :=
  first
    [ assert (n = lo) by lia; subst n
    | destruct (Z.eq_dec n lo) as [->|?];
      [ | let lo' := eval compute in (lo + 1) in enum n lo' ] ].

Lemma digit_char_digit (n : Z) :
  0 <= n <= 9 -> Unicode.decimal (Spec.digit_char n) = Some n.
Proof.
  intros H. enum n 0; reflexivity.
Qed.

Lemma decimal_bounds (c : N) (v : Z) :
  Unicode.decimal c = Some v -> 0 <= v <= 9.
Proof.
  unfold Unicode.decimal.
  destruct (find _ Unicode.digit_runs) as [lo|] eqn:E; [|discriminate].
  apply find_some in E as [_ E]. apply andb_true_iff in E as [E1 E2].
  apply N.leb_le in E1. apply N.ltb_lt in E2.
  intros H. inv H. lia.
Qed.

Lemma is_digit_of (c : N) :
  Strptime.is_digit c = true -> Spec.digit_of c (Strptime.digit_val c).
Proof.
  unfold Strptime.is_digit, Strptime.digit_val, Spec.digit_of.
  now destruct (Unicode.decimal c).
Qed.

Lemma digit_of_is_digit (c : N) (v : Z) :
  Spec.digit_of c v ->
  Strptime.is_digit c = true /\ Strptime.digit_val c = v.
Proof.
  unfold Strptime.is_digit, Strptime.digit_val, Spec.digit_of.
  now intros ->.
Qed.

(** A character of a class of ASCII digits is the digit of its value. *)
Lemma in_range_char (lo hi : Z) (c : N) :
  0 <= lo -> hi <= 9 ->
  Strptime.in_range lo hi c = true ->
  exists v,
    lo <= v <= hi /\ c = Spec.digit_char v /\ Strptime.digit_val c = v.
Proof.
  unfold Strptime.in_range. rewrite andb_true_iff, !Z.leb_le.
  intros Hlo Hhi [H1 H2].
  remember (Z.of_N c - 48) as v eqn:Ev.
  assert (E : c = Spec.digit_char v).
  { unfold Spec.digit_char. replace (48 + v) with (Z.of_N c) by lia.
    now rewrite N2Z.id. }
  exists v. split; [lia|]. split; [exact E|].
  rewrite E. unfold Strptime.digit_val. now rewrite digit_char_digit by lia.
Qed.

(** *** From the text to the date *)

Lemma pad4_year_text (y : Z) :
  0 <= y <= 9999 -> Spec.year_text (Spec.pad4 y) y.
Proof.
  intros H. unfold Spec.year_text, Spec.pad4, Spec.pad2, Spec.digit_of.
  do 4 eexists. exists (y / 1000), (y / 100 mod 10), (y mod 100 / 10),
    (y mod 100 mod 10).
  split; [reflexivity|].
  repeat split;
    try (apply digit_char_digit; Z.to_euclidean_division_equations; lia).
  Z.to_euclidean_division_equations; lia.
Qed.

Lemma re_year_text (ty rest : Unicode.str) (y : Z) :
  Spec.year_text ty y -> Strptime.re_year (ty ++ rest) = [(y, rest)].
Proof.
  intros (a & b & c & e & va & vb & vc & ve & -> & Ha & Hb & Hc & He & ->).
  destruct (digit_of_is_digit _ _ Ha) as [Ia Va].
  destruct (digit_of_is_digit _ _ Hb) as [Ib Vb].
  destruct (digit_of_is_digit _ _ Hc) as [Ic Vc].
  destruct (digit_of_is_digit _ _ He) as [Ie Ve].
  cbn [app Strptime.re_year]. rewrite Ia, Ib, Ic, Ie, Va, Vb, Vc, Ve.
  reflexivity.
Qed.

Lemma re_month_text (m : Z) (tm rest : Unicode.str) :
  1 <= m <= 12 ->
  Spec.month_text tm m ->
  hd_error (Strptime.re_month (tm ++ Unicode.hyphen :: rest))
  = Some (m, Unicode.hyphen :: rest).
Proof.
  intros H [-> | ->]; enum m 1; reflexivity.
Qed.

Lemma re_day_text (n : Z) (td : Unicode.str) :
  1 <= n <= 31 ->
  Spec.day_text td n ->
  hd_error (Strptime.re_day td) = Some (n, []).
Proof.
  intros H [-> | [-> | [[Hlt ->] | (b & vb & Hn & Hb & Hv & ->)]]].
  1-3: enum n 1; reflexivity.
  destruct (digit_of_is_digit _ _ Hb) as [Ib Vb].
  assert (Hq : n / 10 = 1 \/ n / 10 = 2)
    by (Z.to_euclidean_division_equations; lia).
  assert (E : n = 10 * (n / 10) + vb)
    by (Z.to_euclidean_division_equations; lia).
  destruct Hq as [Hq|Hq]; rewrite Hq in E |- *;
    unfold Strptime.re_day, Strptime.alt, Strptime.two, Strptime.class_digit.
  - change (Strptime.in_range 3 3 (Spec.digit_char 1)) with false.
    change (Strptime.in_range 1 2 (Spec.digit_char 1)) with true.
    change (Strptime.digit_val (Spec.digit_char 1)) with 1.
    rewrite Ib, Vb. cbn [andb app hd_error]. now rewrite E.
  - change (Strptime.in_range 3 3 (Spec.digit_char 2)) with false.
    change (Strptime.in_range 1 2 (Spec.digit_char 2)) with true.
    change (Strptime.digit_val (Spec.digit_char 2)) with 2.
    rewrite Ib, Vb. cbn [andb app hd_error]. now rewrite E.
Qed.

Lemma hd_seq {A B} (p : Strptime.matcher A) (k : A -> Strptime.matcher B)
  (s : Unicode.str) (a : A) (r : Unicode.str) (x : B * Unicode.str) :
  hd_error (p s) = Some (a, r) ->
  hd_error (k a r) = Some x ->
  hd_error (Strptime.seq p k s) = Some x.
Proof.
  unfold Strptime.seq. destruct (p s) as [|[a' r'] l]; cbn; [discriminate|].
  intros H. inv H. destruct (k a r); cbn; [discriminate | auto].
Qed.

Lemma strptime_hd (s : Unicode.str) :
  Strptime.strptime s
  = match hd_error (Strptime.re_format s) with
    | Some ((y, m, d), []) =>
        if valid_date y m d then Ok (mkdate y m d) else Raise ValueError
    | _ => Raise ValueError
    end.
Proof.
  unfold Strptime.strptime.
  destruct (Strptime.re_format s) as [|[[[y m] d] [|c rest]] l]; reflexivity.
Qed.

Lemma valid_date_bounds (y m d : Z) :
  valid_date y m d = true ->
  1 <= y <= 9999 /\ 1 <= m <= 12 /\ 1 <= d <= 31.
Proof.
  unfold valid_date, days_in_month.
  rewrite !andb_true_iff, !Z.leb_le. intros [[[[[? ?] ?] ?] ?] Hd].
  repeat split; try lia.
  destruct (m =? 2); [destruct (is_leap y); lia|].
  destruct ((m =? 4) || (m =? 6) || (m =? 9) || (m =? 11)); lia.
Qed.

Lemma strptime_date_text (s : Unicode.str) (d : date) :
  Spec.date_text s d -> Strptime.strptime s = Ok d.
Proof.
  intros (Hv & ty & tm & td & Hy & Hm & Hd & ->).
  destruct (valid_date_bounds _ _ _ Hv) as (Hyb & Hmb & Hdb).
  rewrite strptime_hd.
  assert (E : hd_error
                (Strptime.re_format
                   (ty ++ Unicode.hyphen :: tm ++ Unicode.hyphen :: td))
              = Some ((year d, month d, day d), [])).
  { unfold Strptime.re_format.
    eapply hd_seq; [rewrite (re_year_text _ _ _ Hy); reflexivity|].
    eapply hd_seq; [reflexivity|].
    eapply hd_seq; [apply re_month_text; eauto|].
    eapply hd_seq; [reflexivity|].
    eapply hd_seq; [apply re_day_text; eauto|].
    reflexivity. }
  rewrite E, Hv. now destruct d.
Qed.

(** *** From the date back to the text *)

Lemma In_single {A} (x y : A) : In x [y] -> x = y.
Proof. intros [H|[]]. now symmetry. Qed.

Lemma In_seq {A B} (p : Strptime.matcher A) (k : A -> Strptime.matcher B)
  (s : Unicode.str) (x : B * Unicode.str) :
  In x (Strptime.seq p k s) ->
  exists a r, In (a, r) (p s) /\ In x (k a r).
Proof.
  unfold Strptime.seq. intros H.
  apply in_flat_map in H as ([a r] & Hp & Hk). eauto.
Qed.

Lemma In_two lo1 hi1 lo2 hi2 (s r : Unicode.str) (v : Z) :
  0 <= lo1 -> hi1 <= 9 -> 0 <= lo2 -> hi2 <= 9 ->
  In (v, r) (Strptime.two lo1 hi1 lo2 hi2 s) ->
  exists va vb,
    s = Spec.digit_char va :: Spec.digit_char vb :: r
    /\ lo1 <= va <= hi1 /\ lo2 <= vb <= hi2
    /\ v = 10 * va + vb.
Proof.
  intros L1 H1 L2 H2.
  unfold Strptime.two. destruct s as [|a [|b rest]]; try contradiction.
  destruct (Strptime.in_range lo1 hi1 a) eqn:Ea; [|contradiction].
  destruct (Strptime.in_range lo2 hi2 b) eqn:Eb; [|contradiction].
  apply in_range_char in Ea as (va & Ra & Ca & Va); auto.
  apply in_range_char in Eb as (vb & Rb & Cb & Vb); auto.
  intros H. apply In_single in H.
  pose proof (f_equal fst H) as Hv. pose proof (f_equal snd H) as Hr.
  cbn [fst snd andb] in Hv, Hr. exists va, vb.
  rewrite Va, Vb in Hv. subst. auto.
Qed.

Lemma In_class_digit lo hi (s r : Unicode.str) (v : Z) :
  0 <= lo -> hi <= 9 ->
  In (v, r) (Strptime.class_digit lo hi s) ->
  exists va b vb,
    s = Spec.digit_char va :: b :: r
    /\ lo <= va <= hi /\ Spec.digit_of b vb
    /\ v = 10 * va + vb.
Proof.
  intros L1 H1.
  unfold Strptime.class_digit. destruct s as [|a [|b rest]]; try contradiction.
  destruct (Strptime.in_range lo hi a) eqn:Ea; [|contradiction].
  destruct (Strptime.is_digit b) eqn:Eb; [|contradiction].
  apply in_range_char in Ea as (va & Ra & Ca & Va); auto.
  apply is_digit_of in Eb.
  intros H. apply In_single in H.
  pose proof (f_equal fst H) as Hv. pose proof (f_equal snd H) as Hr.
  cbn [fst snd andb] in Hv, Hr. exists va, b, (Strptime.digit_val b).
  rewrite Va in Hv. subst. auto.
Qed.

Lemma In_one lo hi (s r : Unicode.str) (v : Z) :
  0 <= lo -> hi <= 9 ->
  In (v, r) (Strptime.one lo hi s) ->
  exists va, s = Spec.digit_char va :: r /\ lo <= va <= hi /\ v = va.
Proof.
  intros L1 H1.
  unfold Strptime.one. destruct s as [|a rest]; try contradiction.
  destruct (Strptime.in_range lo hi a) eqn:Ea; [|contradiction].
  apply in_range_char in Ea as (va & Ra & Ca & Va); auto.
  intros H. apply In_single in H.
  pose proof (f_equal fst H) as Hv. pose proof (f_equal snd H) as Hr.
  cbn [fst snd] in Hv, Hr. exists va. rewrite Va in Hv. subst. auto.
Qed.

Lemma In_space_one (s r : Unicode.str) (v : Z) :
  In (v, r) (Strptime.space_one s) ->
  exists vb,
    s = Unicode.space :: Spec.digit_char vb :: r /\ 1 <= vb <= 9 /\ v = vb.
Proof.
  unfold Strptime.space_one. destruct s as [|a [|b rest]]; try contradiction.
  destruct (N.eqb a Unicode.space) eqn:Ea; [|contradiction].
  apply N.eqb_eq in Ea. subst a.
  destruct (Strptime.in_range 1 9 b) eqn:Eb; [|contradiction].
  apply in_range_char in Eb as (vb & Rb & Cb & Vb); try lia.
  intros H. apply In_single in H.
  pose proof (f_equal fst H) as Hv. pose proof (f_equal snd H) as Hr.
  cbn [fst snd andb] in Hv, Hr. exists vb. rewrite Vb in Hv. subst. auto.
Qed.

Lemma In_re_dash (s r : Unicode.str) (u : unit) :
  In (u, r) (Strptime.re_dash s) -> s = Unicode.hyphen :: r.
Proof.
  unfold Strptime.re_dash. destruct s as [|a rest]; try contradiction.
  destruct (N.eqb a Unicode.hyphen) eqn:Ea; [|contradiction].
  apply N.eqb_eq in Ea. subst a. intros [H|[]]. now inv H.
Qed.

Lemma pad2_digits (va vb : Z) :
  0 <= va <= 9 -> 0 <= vb <= 9 ->
  Spec.pad2 (10 * va + vb) = [Spec.digit_char va; Spec.digit_char vb].
Proof.
  intros Ha Hb. unfold Spec.pad2.
  replace ((10 * va + vb) / 10) with va
    by (Z.to_euclidean_division_equations; lia).
  replace ((10 * va + vb) mod 10) with vb
    by (Z.to_euclidean_division_equations; lia).
  reflexivity.
Qed.

Lemma plain_digit (va : Z) :
  va <= 9 -> Spec.plain va = [Spec.digit_char va].
Proof.
  intros Ha. unfold Spec.plain.
  replace (va <? 10) with true by (symmetry; apply Z.ltb_lt; lia).
  reflexivity.
Qed.

Lemma In_re_year (s r : Unicode.str) (y : Z) :
  In (y, r) (Strptime.re_year s) ->
  exists ty, s = ty ++ r /\ Spec.year_text ty y.
Proof.
  unfold Strptime.re_year.
  destruct s as [|a [|b [|c [|e rest]]]]; try contradiction.
  destruct (Strptime.is_digit a) eqn:Ha; [|contradiction].
  destruct (Strptime.is_digit b) eqn:Hb; [|contradiction].
  destruct (Strptime.is_digit c) eqn:Hc; [|contradiction].
  destruct (Strptime.is_digit e) eqn:He; [|contradiction].
  intros H. apply In_single in H.
  pose proof (f_equal fst H) as Hy. pose proof (f_equal snd H) as Hr.
  cbn [fst snd andb] in Hy, Hr. clear H. subst r.
  exists [a; b; c; e]. split; [reflexivity|].
  exists a, b, c, e.
  exists (Strptime.digit_val a), (Strptime.digit_val b),
    (Strptime.digit_val c), (Strptime.digit_val e).
  auto 10 using is_digit_of.
Qed.

Lemma In_re_month (s r : Unicode.str) (m : Z) :
  In (m, r) (Strptime.re_month s) ->
  exists tm, s = tm ++ r /\ Spec.month_text tm m.
Proof.
  unfold Strptime.re_month, Strptime.alt. rewrite !in_app_iff.
  intros [H|[H|H]].
  - apply In_two in H as (va & vb & -> & Ra & Rb & ->); try lia.
    exists [Spec.digit_char va; Spec.digit_char vb]. split; [reflexivity|].
    left. rewrite pad2_digits; auto; lia.
  - apply In_two in H as (va & vb & -> & Ra & Rb & ->); try lia.
    exists [Spec.digit_char va; Spec.digit_char vb]. split; [reflexivity|].
    left. rewrite pad2_digits; auto; lia.
  - apply In_one in H as (va & -> & Ra & ->); try lia.
    exists [Spec.digit_char va]. split; [reflexivity|].
    right. rewrite plain_digit; auto; lia.
Qed.

Lemma In_re_day (s r : Unicode.str) (n : Z) :
  In (n, r) (Strptime.re_day s) ->
  exists td, s = td ++ r /\ Spec.day_text td n.
Proof.
  unfold Strptime.re_day, Strptime.alt. rewrite !in_app_iff.
  intros [H|[H|[H|[H|H]]]].
  - apply In_two in H as (va & vb & -> & Ra & Rb & ->); try lia.
    exists [Spec.digit_char va; Spec.digit_char vb]. split; [reflexivity|].
    left. rewrite pad2_digits; auto; lia.
  - apply In_class_digit in H as (va & b & vb & -> & Ra & Hb & ->); try lia.
    pose proof (decimal_bounds _ _ Hb) as Rb.
    exists [Spec.digit_char va; b]. split; [reflexivity|].
    right. right. right. exists b, vb.
    replace ((10 * va + vb) / 10) with va
      by (Z.to_euclidean_division_equations; lia).
    repeat split; try lia; auto.
    Z.to_euclidean_division_equations; lia.
  - apply In_two in H as (va & vb & -> & Ra & Rb & ->); try lia.
    exists [Spec.digit_char va; Spec.digit_char vb]. split; [reflexivity|].
    left. rewrite pad2_digits; auto; lia.
  - apply In_one in H as (va & -> & Ra & ->); try lia.
    exists [Spec.digit_char va]. split; [reflexivity|].
    right. left. rewrite plain_digit; auto; lia.
  - apply In_space_one in H as (vb & -> & Rb & ->).
    exists [Unicode.space; Spec.digit_char vb]. split; [reflexivity|].
    right. right. left. split; [lia | reflexivity].
Qed.

Lemma strptime_Ok_text (s : Unicode.str) (d : date) :
  Strptime.strptime s = Ok d -> Spec.date_text s d.
Proof.
  rewrite strptime_hd.
  destruct (hd_error (Strptime.re_format s))
    as [[[[y m] n] [|c rest]]|] eqn:E; try discriminate.
  destruct (valid_date y m n) eqn:Hv; [|discriminate].
  intros H. inv H.
  assert (Hin : In ((y, m, n), []) (Strptime.re_format s)).
  { destruct (Strptime.re_format s); [discriminate|]. inv E. now left. }
  unfold Strptime.re_format in Hin.
  apply In_seq in Hin as (y' & r1 & Hy & Hin).
  apply In_seq in Hin as (u1 & r2 & Hd1 & Hin).
  apply In_seq in Hin as (m' & r3 & Hm & Hin).
  apply In_seq in Hin as (u2 & r4 & Hd2 & Hin).
  apply In_seq in Hin as (n' & r5 & Hn & Hin).
  destruct Hin as [Hin|[]]. inv Hin.
  apply In_re_year in Hy as (ty & Hy & Hty).
  apply In_re_dash in Hd1. apply In_re_dash in Hd2.
  apply In_re_month in Hm as (tm & Hm & Htm).
  apply In_re_day in Hn as (td & Hn & Htd).
  rewrite app_nil_r in Hn. subst.
  split; [exact Hv|]. exists ty, tm, td. cbn. auto.
Qed.

Lemma strptime_Raise (s : Unicode.str) (e : exn) :
  Strptime.strptime s = Raise e -> e = ValueError.
Proof.
  rewrite strptime_hd.
  destruct (hd_error (Strptime.re_format s)) as [[[[y m] n] [|c rest]]|];
    try destruct (valid_date y m n); intros H; now inv H.
Qed.

Lemma normalize_date_str (s : Unicode.str) :
  ImportExcel.normalize_date (PyStr s)
  = match Strptime.strptime s with
    | Ok d => Ok (Date d)
    | Raise e => Raise e
    end.
Proof. reflexivity. Qed.

Lemma date_text_iso (d : date) :
  valid_date (year d) (month d) (day d) = true ->
  Spec.date_text (Spec.iso d) d.
Proof.
  intros Hv. split; [exact Hv|].
  destruct (valid_date_bounds _ _ _ Hv) as (Hy & _).
  exists (Spec.pad4 (year d)), (Spec.pad2 (month d)), (Spec.pad2 (day d)).
  split; [apply pad4_year_text; lia|].
  repeat split; now left.
Qed.

Lemma iso_length (d : date) : List.length (Spec.iso d) = 10%nat.
Proof. reflexivity. Qed.

(** C7 as stated fails: ["2025-1-5"] is no [YYYY-MM-DD] string, no
    datetime and no date, and [normalize_date] returns 5 January 2025 for
    it instead of raising. *)
Lemma normalize_date_unpadded_counterexample :
  ~ Spec.listed_input (Examples.text "2025-1-5")
  /\ ImportExcel.normalize_date (Examples.text "2025-1-5")
     = Ok (Date (mkdate 2025 1 5)).
Proof.
  split; [|reflexivity].
  intros (d & _ & E). apply (f_equal (@List.length N)) in E.
  rewrite iso_length in E. discriminate.
Qed.

(** C7 (amended): [normalize_date] returns the date for a datetime, for a
    plain date, and for every string made of a year of four decimal
    digits, a month and a day separated by hyphens that name a calendar
    date, where month and day are written in ASCII digits with two digits
    or without the leading zero, the day also with a space in place of the
    leading zero or, from 10 to 29, with a last digit that is any decimal
    digit; every [YYYY-MM-DD] string is among these.  For [NaT] it returns
    [NaT].  For every other input it raises [ValueError]. *)
Theorem normalize_date_accepts :
  forall raw_date,
    match raw_date with
    | PyStr s =>
        (forall d, Spec.date_text s d ->
                   ImportExcel.normalize_date raw_date = Ok (Date d))
        /\ ((forall d, ~ Spec.date_text s d) ->
            ImportExcel.normalize_date raw_date = Raise ValueError)
        /\ (Spec.is_yyyy_mm_dd s ->
            exists d, ImportExcel.normalize_date raw_date = Ok (Date d))
    | PyDate d | PyDatetime d _ _ _ =>
        ImportExcel.normalize_date raw_date = Ok (Date d)
    | PyNaT => ImportExcel.normalize_date raw_date = Ok NaT
    | PyNone | PyInt _ | PyFloat _ =>
        ImportExcel.normalize_date raw_date = Raise ValueError
    end.
Proof.
  intros [| z | x | s | d | d h m sec |]; try reflexivity.
  rewrite normalize_date_str. repeat split.
  - intros d H. now rewrite (strptime_date_text _ _ H).
  - intros Hnone.
    destruct (Strptime.strptime s) as [d|e] eqn:E.
    + apply strptime_Ok_text in E. now apply Hnone in E.
    + apply strptime_Raise in E. now subst e.
  - intros (d & Hv & ->). exists d.
    now rewrite (strptime_date_text _ _ (date_text_iso d Hv)).
Qed.

Lemma normalize_date_accepts_witness :
  ImportExcel.normalize_date (Examples.text "2025-1-5")
  = Ok (Date (mkdate 2025 1 5))
  /\ ImportExcel.normalize_date Examples.wide_date
     = Ok (Date (mkdate 2025 1 2))
  /\ ImportExcel.normalize_date (Examples.text "2025-13-01")
     = Raise ValueError
  /\ exists d,
      ImportExcel.normalize_date (Examples.text "2024-02-29") = Ok (Date d).
Proof.
  split; [|split; [|split]].
  - apply (proj1 (normalize_date_accepts (Examples.text "2025-1-5"))).
    split; [reflexivity|].
    exists (Spec.pad4 2025), (Unicode.of_string "1"), (Unicode.of_string "5").
    split; [apply (pad4_year_text 2025); lia|].
    repeat split; [right; reflexivity | right; left; reflexivity].
  - apply (proj1 (normalize_date_accepts Examples.wide_date)).
    split; [reflexivity|].
    exists Examples.wide_2025, (Unicode.of_string "01"),
      (Unicode.of_string "02").
    split.
    + exists 65298%N, 65296%N, 65298%N, 65301%N, 2, 0, 2, 5.
      repeat split.
    + repeat split; left; reflexivity.
  - apply (proj1 (proj2 (normalize_date_accepts
                           (Examples.text "2025-13-01")))).
    intros d H. apply strptime_date_text in H. discriminate.
  - apply (proj2 (proj2 (normalize_date_accepts
                           (Examples.text "2024-02-29")))).
    exists (mkdate 2024 2 29). split; reflexivity.
Defined.

(* ================================================================== *)
(** * Part IV: further properties of the writers, the importer and the
      aggregation                                                      *)
(* ================================================================== *)

(** ** [add_record] *)

(** X1: [add_record] returns [True] exactly when [int(daily_net)] can be
    taken (the net amount is no infinity and no NaN, and the integer part of
    the subtraction is not too large for a float) and the ride count, the
    earnings, the fuel expenses and the net amount fit an Integer column.
    In every other case it returns [False] and the table is the one before
    the call.  The unique constraint never makes it fail. *)
Theorem add_record_failure_cases :
  forall d rc e c p i os oe table,
    match Float64.to_int
            (Float64.sub (Float64.sub (Float64.of_Z (e - c)) p) i) with
    | Ok n =>
        if DailyRecord.int64 rc && DailyRecord.int64 e
           && DailyRecord.int64 c && DailyRecord.int64 n
        then fst (App.add_record d rc e c p i os oe table) = true
        else App.add_record d rc e c p i os oe table = (false, table)
    | Raise _ => App.add_record d rc e c p i os oe table = (false, table)
    end.
Proof.
  intros. rewrite add_record_eval.
  destruct (Float64.to_int _) as [n|x]; [|reflexivity].
  cbn zeta. unfold DailyRecord.storable.
  cbn [DailyRecord.ride_count DailyRecord.earnings DailyRecord.cng_expenses
       DailyRecord.daily_net].
  now destruct (DailyRecord.int64 rc && DailyRecord.int64 e
                && DailyRecord.int64 c && DailyRecord.int64 n).
Qed.

(** X2: a successful [add_record] for date [d] leaves the row of every
    other date as it was, and the table grows by one row when [d] had no
    row and keeps its size when it had one. *)
Theorem add_record_other_dates_untouched :
  forall d rc e c p i os oe table table',
    App.add_record d rc e c p i os oe table = (true, table') ->
    (forall d', d' <> d ->
                Spec.lookup DailyRecord.date d' table'
                = Spec.lookup DailyRecord.date d' table)
    /\ List.length table'
       = match Spec.lookup DailyRecord.date d table with
         | Some _ => List.length table
         | None => S (List.length table)
         end.
Proof.
  intros d rc e c p i os oe table table' H.
  apply add_record_true in H as (n & _ & _ & [(r0 & El & ->)|[El ->]]);
    rewrite El.
  - split; [|apply assign_length].
    intros d' Hne. now apply lookup_assign_other.
  - split.
    + intros d' Hne. now apply lookup_app_other with (d := d).
    + rewrite length_app. cbn. lia.
Qed.

Lemma add_record_other_dates_untouched_witness :
  Spec.lookup DailyRecord.date Examples.jan1
    [Examples.rec_half; Examples.rec_ok]
  = Spec.lookup DailyRecord.date Examples.jan1 [Examples.rec_half].
Proof.
  apply (proj1 (add_record_other_dates_untouched Examples.jan2 3 800 150
                  Float64.zero (Examples.amt 20) Float64.zero Float64.zero
                  [Examples.rec_half] [Examples.rec_half; Examples.rec_ok]
                  eq_refl)).
  discriminate.
Defined.

(** X3: [add_record] is idempotent: repeating a successful call with the
    same arguments succeeds and leaves the table as the first call left
    it. *)
Theorem add_record_idempotent :
  forall d rc e c p i os oe table table',
    App.add_record d rc e c p i os oe table = (true, table') ->
    App.add_record d rc e c p i os oe table' = (true, table').
Proof.
  intros d rc e c p i os oe table table' H.
  pose proof (add_record_true _ _ _ _ _ _ _ _ _ _ H) as (n & Hn & Hl & _).
  pose proof (add_record_storable _ _ _ _ _ _ _ _ _ _ _ H Hn) as Hs.
  rewrite add_record_eval, Hn. cbn zeta in Hl |- *.
  rewrite Hs, Hl. f_equal. now apply assign_same.
Qed.

Lemma add_record_idempotent_witness :
  App.add_record Examples.jan1 5 1000 200 Examples.half Float64.zero
    Float64.zero (Examples.amt 120) [Examples.rec_half]
  = (true, [Examples.rec_half]).
Proof.
  apply (add_record_idempotent Examples.jan1 5 1000 200 Examples.half
           Float64.zero Float64.zero (Examples.amt 120) []).
  reflexivity.
Defined.

(** ** [add_other_expense] *)




(** ** The table after [import_daily_records] *)

(** X5: a successful [import_daily_records] keeps the dates of the table
    in place and appends the new dates of the batch in batch order; these
    are pairwise distinct; [added] is their number and [updated] the
    number of the other batch rows; distinct dates stay distinct. *)
Theorem import_daily_dates :
  forall sort_values sheets table added updated table',
    ImportExcel.import_daily_records sort_values sheets table
    = (Ok (added, updated), table') ->
    exists combined,
      ImportExcel.daily_batch sort_values sheets = Ok combined
      /\ let fresh :=
           Spec.new_dates ImportExcel.Daily.date DailyRecord.date
             table combined in
         map DailyRecord.date table' = map DailyRecord.date table ++ fresh
         /\ NoDup fresh
         /\ added = Z.of_nat (List.length fresh)
         /\ updated
            = Z.of_nat (List.length combined) - Z.of_nat (List.length fresh)
         /\ (Spec.unique_dates DailyRecord.date table ->
             Spec.unique_dates DailyRecord.date table').
Proof. exact import_daily_shape. Qed.

Lemma import_daily_dates_witness :
  exists combined,
    ImportExcel.daily_batch Pandas.sort_values [[Examples.row_ok]; []]
    = Ok combined
    /\ let fresh :=
         Spec.new_dates ImportExcel.Daily.date DailyRecord.date
           [Examples.rec_half] combined in
       map DailyRecord.date [Examples.rec_half; Examples.rec_ok]
       = map DailyRecord.date [Examples.rec_half] ++ fresh
       /\ NoDup fresh
       /\ 1 = Z.of_nat (List.length fresh)
       /\ 0 = Z.of_nat (List.length combined) - Z.of_nat (List.length fresh)
       /\ (Spec.unique_dates DailyRecord.date [Examples.rec_half] ->
           Spec.unique_dates DailyRecord.date
             [Examples.rec_half; Examples.rec_ok]).
Proof.
  apply (import_daily_dates Pandas.sort_values [[Examples.row_ok]; []]
           [Examples.rec_half] 1 0 [Examples.rec_half; Examples.rec_ok]).
  reflexivity.
Defined.

(** X6: after a successful [import_daily_records] the row stored for a
    date is the record built from the last batch row with that date, and
    the row the table had before when the batch has no row for it. *)
Theorem import_daily_last_row_wins :
  forall sort_values sheets table added updated table',
    ImportExcel.import_daily_records sort_values sheets table
    = (Ok (added, updated), table') ->
    exists combined,
      ImportExcel.daily_batch sort_values sheets = Ok combined
      /\ forall d,
          Spec.lookup DailyRecord.date d table'
          = match Spec.last_write d combined with
            | Some r => Some r
            | None => Spec.lookup DailyRecord.date d table
            end.
Proof. exact import_daily_lookup. Qed.

Lemma import_daily_last_row_wins_witness :
  exists combined,
    ImportExcel.daily_batch Pandas.sort_values [[Examples.row_ok]; []]
    = Ok combined
    /\ forall d,
        Spec.lookup DailyRecord.date d [Examples.rec_half; Examples.rec_ok]
        = match Spec.last_write d combined with
          | Some r => Some r
          | None => Spec.lookup DailyRecord.date d [Examples.rec_half]
          end.
Proof.
  apply (import_daily_last_row_wins Pandas.sort_values
           [[Examples.row_ok]; []] [Examples.rec_half] 1 0
           [Examples.rec_half; Examples.rec_ok]).
  reflexivity.
Defined.

(** X7: when two rows of the batch carry the same date and the table has
    no row for it, [import_daily_records] raises and stores nothing: the
    lookup does not see the row added for the first of them, and the
    second insert breaks the unique constraint at commit. *)
Theorem import_daily_duplicate_new_date_fails :
  forall sort_values sheets table l1 r1 l2 r2 l3 d,
    ImportExcel.daily_batch sort_values sheets
    = Ok (l1 ++ r1 :: l2 ++ r2 :: l3) ->
    ImportExcel.normalize_date (ImportExcel.Daily.date r1) = Ok (Date d) ->
    ImportExcel.normalize_date (ImportExcel.Daily.date r2) = Ok (Date d) ->
    Spec.lookup DailyRecord.date d table = None ->
    exists e,
      ImportExcel.import_daily_records sort_values sheets table
      = (Raise e, table).
Proof.
  intros sort_values sheets table l1 r1 l2 r2 l3 d Hb H1 H2 Hl.
  destruct (ImportExcel.import_daily_records sort_values sheets table)
    as [[[a u]|e] table'] eqn:E.
  - exfalso.
    apply import_daily_shape in E as (combined & Hb' & _ & Hn & _).
    rewrite Hb in Hb'. inv Hb'.
    pose proof (lookup_None_has_date _ _ _ Hl) as Hh.
    rewrite new_dates_app in Hn. cbn [Spec.new_dates] in Hn.
    rewrite H1, Hh in Hn.
    apply NoDup_remove_2 in Hn. apply Hn. apply in_or_app. right.
    eapply In_new_dates; eauto. apply in_or_app. right. now left.
  - exists e. f_equal. eapply import_daily_Raise; eauto.
Qed.

Lemma import_daily_duplicate_new_date_fails_witness :
  exists e,
    ImportExcel.import_daily_records Pandas.sort_values
      [[Examples.row_ok; Examples.row_ok]] [Examples.rec_half]
    = (Raise e, [Examples.rec_half]).
Proof.
  apply (import_daily_duplicate_new_date_fails Pandas.sort_values
           [[Examples.row_ok; Examples.row_ok]] [Examples.rec_half]
           []
           (ImportExcel.Daily.fillna
              (ImportExcel.Daily.set_daily_net Examples.row_ok))
           []
           (ImportExcel.Daily.fillna
              (ImportExcel.Daily.set_daily_net Examples.row_ok))
           [] Examples.jan2); reflexivity.
Defined.

Lemma lookup_None_has_date_inv {T} (key : T -> date) (d : date)
  (rows : list T) :
  Session.has_date key d rows = false ->
  find (fun r => date_eqb (key r) d) rows = None.
Proof.
  intros H. pose proof (has_date_lookup key d rows) as E.
  unfold Spec.lookup in E. rewrite H in E.
  now destruct (find _ rows).
Qed.

(** Two tables with the same distinct dates in the same order and the
    same row for every date are the same table. *)
Lemma unique_lookup_ext {T} (key : T -> date) (l1 l2 : list T) :
  map key l1 = map key l2 ->
  NoDup (map key l1) ->
  (forall d, Spec.lookup key d l1 = Spec.lookup key d l2) ->
  l1 = l2.
Proof.
  revert l2. induction l1 as [|x l1 IH]; intros [|y l2] Hk Hn Hl;
    try discriminate; auto.
  cbn in Hk. injection Hk as Hxy Hk.
  inversion Hn as [|? ? Hnot Hn']; subst.
  assert (x = y).
  { specialize (Hl (key x)). unfold Spec.lookup in Hl. cbn in Hl.
    rewrite <- Hxy, date_eqb_refl in Hl. now inv Hl. }
  subst y. f_equal. apply IH; auto.
  intros d. specialize (Hl d). unfold Spec.lookup in Hl |- *. cbn in Hl.
  destruct (date_eqb (key x) d) eqn:E; auto.
  apply date_eqb_eq in E. subst d.
  assert (G : forall l, ~ In (key x) (map key l) ->
                        find (fun r => date_eqb (key r) (key x)) l = None).
  { intros l Hni. apply lookup_None_has_date_inv with (key := key).
    apply not_true_is_false. intros Ht. now apply has_date_In in Ht. }
  rewrite !G; auto. now rewrite <- Hk.
Qed.

Lemma daily_loop_total (rows : list ImportExcel.Daily.row) :
  (forall row, In row rows ->
     exists d r,
       ImportExcel.normalize_date (ImportExcel.Daily.date row) = Ok (Date d)
       /\ ImportExcel.Daily.to_record d row = Ok r) ->
  forall s a u,
    exists a' u' s',
      ImportExcel.daily_loop rows s a u = (Ok (a', u'), s').
Proof.
  induction rows as [|row rows IH]; intros Hc s a u.
  - cbn. eauto.
  - destruct (Hc row (or_introl eq_refl)) as (d & r & Ed & Er).
    cbn [ImportExcel.daily_loop]. rewrite Ed.
    unfold Session.query_first.
    fold (Spec.lookup DailyRecord.date d (Session.loaded s)).
    destruct (Spec.lookup DailyRecord.date d (Session.loaded s))
      as [ex|] eqn:El.
    + destruct (lookup_Some_key _ _ _ _ El) as [-> _]. rewrite Er.
      apply IH. intros; apply Hc; now right.
    + rewrite Er. apply IH. intros; apply Hc; now right.
Qed.

Lemma new_records_nil (table : list DailyRecord.t)
  (rows : list ImportExcel.Daily.row) :
  (forall row d,
      In row rows ->
      ImportExcel.normalize_date (ImportExcel.Daily.date row) = Ok (Date d) ->
      Session.has_date DailyRecord.date d table = true) ->
  Spec.new_records table rows = [].
Proof.
  induction rows as [|row rows IH]; intros H; cbn; auto.
  destruct (ImportExcel.normalize_date _) as [[d|]|] eqn:Ed.
  - rewrite (H row d (or_introl eq_refl) Ed). apply IH.
    intros; eapply H; eauto. now right.
  - apply IH. intros; eapply H; eauto. now right.
  - apply IH. intros; eapply H; eauto. now right.
Qed.

(** The dates assigned to in a completed loop: those of the batch rows
    whose date has a row in the table. *)
Lemma daily_loop_dirty (rows : list ImportExcel.Daily.row) :
  forall s a u a' u' s',
    ImportExcel.daily_loop rows s a u = (Ok (a', u'), s') ->
    forall d,
      In d (Session.dirty s') <->
      In d (Session.dirty s)
      \/ exists row,
          In row rows
          /\ ImportExcel.normalize_date (ImportExcel.Daily.date row)
             = Ok (Date d)
          /\ Session.has_date DailyRecord.date d (Session.loaded s) = true.
Proof.
  induction rows as [|row rows IH]; intros s a u a' u' s' H d.
  - inv H. split; [auto | intros [?|(row & [] & _)]; auto].
  - cbn [ImportExcel.daily_loop] in H.
    destruct (ImportExcel.normalize_date _) as [[d0|]|e] eqn:Ed; [|inv H..].
    unfold Session.query_first in H.
    fold (Spec.lookup DailyRecord.date d0 (Session.loaded s)) in H.
    destruct (Spec.lookup DailyRecord.date d0 (Session.loaded s))
      as [ex|] eqn:El.
    + destruct (lookup_Some_key _ _ _ _ El) as [E0 _]. rewrite E0 in H.
      destruct (ImportExcel.Daily.to_record d0 row) as [rec|e] eqn:Er;
        [|inv H].
      pose proof (to_record_date _ _ _ Er) as Hrd.
      rewrite (IH _ _ _ _ _ _ H d).
      cbn [Session.set_existing Session.loaded Session.dirty].
      assert (Ek : forall x,
                 Session.has_date DailyRecord.date x
                   (Session.assign DailyRecord.date d0 rec (Session.loaded s))
                 = Session.has_date DailyRecord.date x (Session.loaded s)).
      { intros x. apply has_date_keys. now apply map_key_assign. }
      split.
      * intros [[<-|Hd]|(x & Hx & Hn & Hh)].
        -- right. exists row. split; [now left|]. split; [exact Ed|].
           now rewrite has_date_lookup, El.
        -- now left.
        -- right. exists x. rewrite Ek in Hh. split; [now right | auto].
      * intros [Hd|(x & [<-|Hx] & Hn & Hh)].
        -- left. now right.
        -- left. left. congruence.
        -- right. exists x. rewrite Ek. auto.
    + destruct (ImportExcel.Daily.to_record d0 row) as [rec|e] eqn:Er;
        [|inv H].
      rewrite (IH _ _ _ _ _ _ H d).
      cbn [Session.add Session.loaded Session.dirty].
      split.
      * intros [Hd|(x & Hx & Hn & Hh)]; [now left|].
        right. exists x. split; [now right | auto].
      * intros [Hd|(x & [<-|Hx] & Hn & Hh)]; [now left| |].
        -- exfalso. rewrite Ed in Hn. inv Hn.
           rewrite has_date_lookup, El in Hh. discriminate.
        -- right. exists x. auto.
Qed.

(** After a successful import, the row stored for the date of a batch row
    fits the columns: the commit wrote it. *)
Lemma import_daily_written_storable
  sort_values sheets table added updated table' :
  ImportExcel.import_daily_records sort_values sheets table
  = (Ok (added, updated), table') ->
  exists combined,
    ImportExcel.daily_batch sort_values sheets = Ok combined
    /\ forall row d r,
        In row combined ->
        ImportExcel.normalize_date (ImportExcel.Daily.date row)
        = Ok (Date d) ->
        Spec.lookup DailyRecord.date d table' = Some r ->
        DailyRecord.storable r = true.
Proof.
  intros H.
  apply import_daily_Ok in H as (combined & s' & Hb & Hloop & Hu & Hf).
  exists combined. split; [exact Hb|]. intros row d r Hin Hd Hl.
  pose proof (daily_loop_state _ _ _ _ _ _ _ Hloop) as (Hk & _).
  pose proof (daily_loop_dirty _ _ _ _ _ _ _ Hloop d) as Hdirty.
  pose proof (flush_storable _ _ _ _ _ Hf) as Hs.
  pose proof (flush_app _ _ _ _ _ Hf) as Ht.
  cbn [Session.get_session Session.loaded Session.dirty] in *.
  subst table'. rewrite lookup_app in Hl.
  destruct (Session.has_date DailyRecord.date d table) eqn:Eh.
  - assert (Hin' : In d (Session.dirty s')) by (apply Hdirty; right; eauto).
    destruct (Spec.lookup DailyRecord.date d (Session.loaded s'))
      as [r'|] eqn:El.
    + inv Hl. rewrite forallb_forall in Hu. apply Hu.
      unfold Session.updated. apply in_flat_map. exists d.
      split; [exact Hin'|]. unfold Session.query_first.
      fold (Spec.lookup DailyRecord.date d (Session.loaded s')).
      rewrite El. now left.
    + exfalso. apply lookup_None_has_date in El.
      rewrite (has_date_keys _ d _ _ Hk) in El. congruence.
  - destruct (Spec.lookup DailyRecord.date d (Session.loaded s'))
      as [r'|] eqn:El.
    + exfalso. rewrite <- (has_date_keys _ d _ _ Hk) in Eh.
      rewrite has_date_lookup, El in Eh. discriminate.
    + apply lookup_Some_key in Hl as [_ Hin'].
      rewrite forallb_forall in Hs. auto.
Qed.

(** X8: running [import_daily_records] again on the same sheets, after a
    successful run on a table with distinct dates, succeeds, adds nothing,
    reports every row of the batch as updated and leaves the table as the
    first run left it. *)
Theorem import_daily_rerun_changes_nothing :
  forall sort_values sheets table added updated table',
    Spec.unique_dates DailyRecord.date table ->
    ImportExcel.import_daily_records sort_values sheets table
    = (Ok (added, updated), table') ->
    ImportExcel.import_daily_records sort_values sheets table'
    = (Ok (0, added + updated), table').
Proof.
  intros sort_values sheets table added updated table' U H.
  pose proof (import_daily_shape _ _ _ _ _ _ H)
    as (combined & Hb & Hkeys & _ & _ & _ & HU).
  pose proof (import_daily_lookup _ _ _ _ _ _ H) as (combined' & Hb' & Hlk).
  rewrite Hb in Hb'. inv Hb'. specialize (HU U).
  pose proof (import_daily_Ok _ _ _ _ _ _ H) as (c0 & s1 & Hb1 & Hloop1 & _).
  rewrite Hb in Hb1. inv Hb1.
  pose proof (daily_loop_records _ _ _ _ _ _ _ Hloop1) as Hrec.
  pose proof (daily_loop_Ok _ _ _ _ _ _ _ Hloop1) as [_ Hcount1].
  destruct (daily_loop_total c0 Hrec (Session.get_session table') 0 0)
    as (a2 & u2 & s2 & Hloop2).
  pose proof (daily_loop_Ok _ _ _ _ _ _ _ Hloop2) as [_ Hcount2].
  pose proof (daily_loop_state _ _ _ _ _ _ _ Hloop2) as (Hk & Hp & _ & Ha & Hl).
  cbn [Session.get_session Session.loaded Session.pending app] in *.
  assert (Hnil : Spec.new_records table' c0 = []).
  { apply new_records_nil. intros row d Hin Hd.
    apply has_date_In. rewrite Hkeys. apply in_or_app.
    destruct (Session.has_date DailyRecord.date d table) eqn:Eh.
    - left. now apply has_date_In.
    - right. eapply In_new_dates; eauto. }
  rewrite Hnil in Hp, Ha. cbn in Ha.
  assert (Ht : Session.loaded s2 = table').
  { apply unique_lookup_ext with (key := DailyRecord.date); auto.
    - unfold Spec.unique_dates in HU. now rewrite Hk.
    - intros d. rewrite Hl.
      destruct (Spec.lookup DailyRecord.date d table') as [x|] eqn:Ex; auto.
      rewrite Hlk in Ex.
      destruct (Spec.last_write d c0); [now inv Ex | reflexivity]. }
  assert (Hc : Session.commit DailyRecord.date DailyRecord.storable s2
               = Ok table').
  { assert (Hu2 : forallb DailyRecord.storable
                    (Session.updated DailyRecord.date s2) = true).
    { apply forallb_forall. intros r Hr. unfold Session.updated in Hr.
      apply in_flat_map in Hr as (d & Hd & Hr).
      unfold Session.query_first in Hr. rewrite Ht in Hr.
      fold (Spec.lookup DailyRecord.date d table') in Hr.
      destruct (Spec.lookup DailyRecord.date d table') as [x|] eqn:Ex;
        [|destruct Hr].
      apply In_single in Hr. subst x.
      apply (daily_loop_dirty _ _ _ _ _ _ _ Hloop2) in Hd
        as [[]|(row & Hrow & Hn & _)].
      destruct (import_daily_written_storable _ _ _ _ _ _ H)
        as (c1 & Hb1 & Hst).
      rewrite Hb in Hb1. inv Hb1. eapply Hst; eauto. }
    unfold Session.commit. rewrite Hu2, Hp, Ht. reflexivity. }
  unfold ImportExcel.import_daily_records.
  rewrite Hb, Hloop2, Hc. repeat f_equal; lia.
Qed.

Lemma import_daily_rerun_changes_nothing_witness :
  ImportExcel.import_daily_records Pandas.sort_values
    [[Examples.row_ok]; []] [Examples.rec_half; Examples.rec_ok]
  = (Ok (0, 1 + 0), [Examples.rec_half; Examples.rec_ok]).
Proof.
  apply (import_daily_rerun_changes_nothing Pandas.sort_values
           [[Examples.row_ok]; []] [Examples.rec_half] 1 0
           [Examples.rec_half; Examples.rec_ok]).
  - repeat constructor. intros [].
  - reflexivity.
Defined.

(** ** What [import_other_expenses] stores *)

Lemma expense_loop_inv (P : OtherExpense.t -> Prop)
  (rows : list ImportExcel.Expense.row) :
  forall s a u res s',
    ImportExcel.expense_loop rows s a u = (res, s') ->
    (forall row d,
        In row rows ->
        ImportExcel.normalize_date (ImportExcel.Expense.date row)
        = Ok (Date d) ->
        P (ImportExcel.Expense.to_record d row)) ->
    Forall P (Session.loaded s) -> Forall P (Session.pending s) ->
    Forall P (Session.loaded s') /\ Forall P (Session.pending s').
Proof.
  induction rows as [|row rows IH]; intros s a u res s' H HP Hl Hp.
  - inv H. auto.
  - cbn [ImportExcel.expense_loop] in H.
    destruct (ImportExcel.normalize_date _) as [[d|]|e] eqn:Ed;
      [|inv H; auto..].
    unfold Session.query_first in H.
    fold (Spec.lookup OtherExpense.date d (Session.loaded s)) in H.
    destruct (Spec.lookup _ d _) as [r0|] eqn:El.
    + destruct (lookup_Some_key _ _ _ _ El) as [E0 _]. rewrite E0 in H.
      apply IH in H; cbn; auto.
      * intros; eapply HP; eauto. now right.
      * apply Forall_forall. intros x Hx.
        apply In_assign in Hx as [->|Hx].
        -- eapply HP; eauto. now left.
        -- eapply Forall_forall in Hl; eauto.
    + apply IH in H; cbn; auto.
      * intros; eapply HP; eauto. now right.
      * apply Forall_app. split; auto. constructor; auto.
        eapply HP; eauto. now left.
Qed.

Lemma fillna0_is_number (x : Float64.float) :
  Float64.is_nan (Float64.fillna0 x) = false.
Proof. now destruct x. Qed.

(** X9: every row of the table after a successful
    [import_other_expenses] was there before or was built from a sheet
    row; such a row has all three amounts set to numbers (a blank cell is
    stored as 0, never as null or NaN) and at least one of them is not
    zero. *)
Theorem import_other_expenses_stores_nonzero_rows :
  forall sort_values,
    (forall A key (l l' : list A),
        sort_values A key l = Ok l' -> Permutation l l') ->
    forall sheets table added updated table',
      ImportExcel.import_other_expenses sort_values sheets table
      = (Ok (added, updated), table') ->
      forall r, In r table' ->
        In r table
        \/ exists sheet raw emi rent misc,
            In sheet sheets /\ In raw sheet
            /\ ImportExcel.normalize_date (ImportExcel.Expense.date raw)
               = Ok (Date (OtherExpense.date r))
            /\ OtherExpense.months r = ImportExcel.Expense.months raw
            /\ OtherExpense.car_emi r = Some emi
            /\ OtherExpense.pg_rent r = Some rent
            /\ OtherExpense.expenses r = Some misc
            /\ emi = Float64.fillna0 (ImportExcel.Expense.car_emi raw)
            /\ rent = Float64.fillna0 (ImportExcel.Expense.pg_rent raw)
            /\ misc = Float64.fillna0 (ImportExcel.Expense.expenses raw)
            /\ Float64.is_nan emi = false
            /\ Float64.is_nan rent = false
            /\ Float64.is_nan misc = false
            /\ (Float64.eqb emi Float64.zero = false
                \/ Float64.eqb rent Float64.zero = false
                \/ Float64.eqb misc Float64.zero = false).
Proof.
  intros sort_values Hperm sheets table added updated table' H r Hr.
  unfold ImportExcel.import_other_expenses in H.
  destruct (ImportExcel.expense_batch sort_values sheets)
    as [combined|e] eqn:Eb; [|discriminate].
  destruct (ImportExcel.expense_loop _ _ _ _) as [[[a u]|e] s] eqn:Eloop;
    [|discriminate].
  destruct (Session.commit _ _ s) as [t|e] eqn:Ec; [|discriminate].
  inv H. apply commit_app in Ec. subst table'.
  eapply expense_loop_inv with
    (P := fun r =>
      In r table
      \/ exists sheet raw emi rent misc,
          In sheet sheets /\ In raw sheet
          /\ ImportExcel.normalize_date (ImportExcel.Expense.date raw)
             = Ok (Date (OtherExpense.date r))
          /\ OtherExpense.months r = ImportExcel.Expense.months raw
          /\ OtherExpense.car_emi r = Some emi
          /\ OtherExpense.pg_rent r = Some rent
          /\ OtherExpense.expenses r = Some misc
          /\ emi = Float64.fillna0 (ImportExcel.Expense.car_emi raw)
          /\ rent = Float64.fillna0 (ImportExcel.Expense.pg_rent raw)
          /\ misc = Float64.fillna0 (ImportExcel.Expense.expenses raw)
          /\ Float64.is_nan emi = false
          /\ Float64.is_nan rent = false
          /\ Float64.is_nan misc = false
          /\ (Float64.eqb emi Float64.zero = false
              \/ Float64.eqb rent Float64.zero = false
              \/ Float64.eqb misc Float64.zero = false))
    in Eloop as (Hl & Hp).
  - apply in_app_or in Hr as [Hr|Hr];
      [eapply Forall_forall in Hl | eapply Forall_forall in Hp]; eauto.
  - intros row d Hrow Hd. right.
    apply (expense_batch_In _ Hperm _ _ Eb) in Hrow
      as (Hk & sheet & raw & Hsh & Hraw & ->).
    exists sheet, raw. do 3 eexists. cbn.
    repeat (split; [first [eassumption | reflexivity
                          | apply fillna0_is_number]|]).
    unfold ImportExcel.Expense.keep, ImportExcel.Expense.ne0 in Hk. cbn in Hk.
    rewrite !orb_true_iff, !negb_true_iff in Hk. tauto.
  - cbn. apply Forall_forall. auto.
  - cbn. constructor.
Qed.

Lemma import_other_expenses_stores_nonzero_rows_witness :
  In (ImportExcel.Expense.to_record Examples.jan1
        (ImportExcel.Expense.fillna Examples.exp_emi)) []
  \/ exists sheet raw emi rent misc,
      In sheet [[Examples.exp_blank; Examples.exp_emi]] /\ In raw sheet
      /\ ImportExcel.normalize_date (ImportExcel.Expense.date raw)
         = Ok (Date Examples.jan1)
      /\ None = ImportExcel.Expense.months raw
      /\ Some (Examples.amt 5000) = Some emi
      /\ Some (Examples.amt 3000) = Some rent
      /\ Some Float64.zero = Some misc
      /\ emi = Float64.fillna0 (ImportExcel.Expense.car_emi raw)
      /\ rent = Float64.fillna0 (ImportExcel.Expense.pg_rent raw)
      /\ misc = Float64.fillna0 (ImportExcel.Expense.expenses raw)
      /\ Float64.is_nan emi = false
      /\ Float64.is_nan rent = false
      /\ Float64.is_nan misc = false
      /\ (Float64.eqb emi Float64.zero = false
          \/ Float64.eqb rent Float64.zero = false
          \/ Float64.eqb misc Float64.zero = false).
Proof.
  apply (import_other_expenses_stores_nonzero_rows Pandas.sort_values
           pandas_sort_values_perm
           [[Examples.exp_blank; Examples.exp_emi]] [] 1 0
           [ImportExcel.Expense.to_record Examples.jan1
              (ImportExcel.Expense.fillna Examples.exp_emi)]).
  - reflexivity.
  - left. reflexivity.
Defined.

(** ** [import_excel_to_db] *)

Lemma import_expense_Raise sort_values sheets table e table' :
  ImportExcel.import_other_expenses sort_values sheets table
  = (Raise e, table') ->
  table' = table.
Proof.
  unfold ImportExcel.import_other_expenses.
  destruct (ImportExcel.expense_batch sort_values sheets) as [combined|e0];
    [|now intros H; inv H].
  destruct (ImportExcel.expense_loop _ _ _ _) as [[[a u]|e0] s] eqn:Eloop;
    apply expense_loop_committed in Eloop.
  - destruct (Session.commit _ _ s); intros H; inv H. exact Eloop.
  - intros H; inv H. exact Eloop.
Qed.

(** X10: [import_excel_to_db] runs the two imports as separate
    transactions.  When the daily import raises, neither table changes and
    the expense import is not run; when the expense import raises after a
    successful daily import, the daily records stay committed and only the
    expense table is as before. *)
Theorem import_excel_to_db_two_transactions :
  forall sort_values daily_sheets expense_sheets daily_table expense_table
         outcome daily_table' expense_table',
    ImportExcel.import_excel_to_db sort_values daily_sheets expense_sheets
      daily_table expense_table
    = (outcome, (daily_table', expense_table')) ->
    match ImportExcel.import_daily_records sort_values daily_sheets
            daily_table with
    | (Raise e, _) =>
        outcome = Raise e
        /\ daily_table' = daily_table /\ expense_table' = expense_table
    | (Ok daily_counts, committed) =>
        daily_table' = committed
        /\ match outcome with
           | Raise e =>
               expense_table' = expense_table
               /\ fst (ImportExcel.import_other_expenses sort_values
                         expense_sheets expense_table) = Raise e
           | Ok (c1, c2) =>
               c1 = daily_counts
               /\ ImportExcel.import_other_expenses sort_values
                    expense_sheets expense_table
                  = (Ok c2, expense_table')
           end
    end.
Proof.
  intros sort_values ds es dt et outcome dt' et'.
  unfold ImportExcel.import_excel_to_db.
  destruct (ImportExcel.import_daily_records sort_values ds dt)
    as [[c|e] dt1] eqn:Ed.
  - destruct (ImportExcel.import_other_expenses sort_values es et)
      as [[c2|e] et1] eqn:Ee; intros H; inv H.
    + auto.
    + apply import_expense_Raise in Ee. subst. auto.
  - intros H; inv H. apply import_daily_Raise in Ed. subst. auto.
Qed.

Lemma import_excel_to_db_two_transactions_witness :
  [Examples.rec_ok] = [Examples.rec_ok]
  /\ @nil OtherExpense.t = []
  /\ fst (ImportExcel.import_other_expenses Pandas.sort_values
            [[Examples.exp_emi; Examples.exp_bad_month]] [])
     = Raise ValueError.
Proof.
  exact (import_excel_to_db_two_transactions Pandas.sort_values
           [[Examples.row_ok]]
           [[Examples.exp_emi; Examples.exp_bad_month]] [] []
           (Raise ValueError) [Examples.rec_ok] [] eq_refl).
Defined.

(** ** More on [normalize_date] *)

(** X11: [normalize_date] inverts the ISO rendering: for every calendar
    date [d] (year 1 to 9999) it returns [d] on the [YYYY-MM-DD] string of
    [d]; two different dates never share that string; and whatever string
    it accepts, the date it returns is a calendar date. *)
Theorem normalize_date_iso_round_trip :
  (forall d,
      valid_date (year d) (month d) (day d) = true ->
      ImportExcel.normalize_date (PyStr (Spec.iso d)) = Ok (Date d))
  /\ (forall d1 d2,
        valid_date (year d1) (month d1) (day d1) = true ->
        valid_date (year d2) (month d2) (day d2) = true ->
        Spec.iso d1 = Spec.iso d2 -> d1 = d2)
  /\ (forall s d,
        ImportExcel.normalize_date (PyStr s) = Ok (Date d) ->
        valid_date (year d) (month d) (day d) = true).
Proof.
  assert (RT : forall d,
             valid_date (year d) (month d) (day d) = true ->
             ImportExcel.normalize_date (PyStr (Spec.iso d)) = Ok (Date d)).
  { intros d Hv. rewrite normalize_date_str.
    now rewrite (strptime_date_text _ _ (date_text_iso d Hv)). }
  split; [exact RT|]. split.
  - intros d1 d2 H1 H2 E. apply RT in H1. apply RT in H2.
    rewrite E in H1. congruence.
  - intros s d H. rewrite normalize_date_str in H.
    destruct (Strptime.strptime s) as [d'|] eqn:E; [|discriminate].
    inv H. apply strptime_Ok_text in E. apply E.
Qed.

Lemma normalize_date_iso_round_trip_witness :
  ImportExcel.normalize_date (PyStr (Spec.iso (mkdate 2024 2 29)))
  = Ok (Date (mkdate 2024 2 29))
  /\ valid_date 2025 1 5 = true.
Proof.
  split.
  - apply (proj1 normalize_date_iso_round_trip (mkdate 2024 2 29)).
    reflexivity.
  - apply (proj2 (proj2 normalize_date_iso_round_trip)
             (Unicode.of_string "2025-1-5") (mkdate 2025 1 5)).
    reflexivity.
Defined.

Lemma re_day_pad2_rest (n : Z) (rest : Unicode.str) :
  1 <= n <= 31 ->
  hd_error (Strptime.re_day (Spec.pad2 n ++ rest)) = Some (n, rest).
Proof.
  intros H. enum n 1; reflexivity.
Qed.

(** X12: a [YYYY-MM-DD] string followed by any further text, such as a
    time of day, is rejected with [ValueError]. *)
Theorem normalize_date_rejects_trailing_text :
  forall d c rest,
    valid_date (year d) (month d) (day d) = true ->
    ImportExcel.normalize_date (PyStr (Spec.iso d ++ c :: rest))
    = Raise ValueError.
Proof.
  intros d c rest Hv.
  destruct (valid_date_bounds _ _ _ Hv) as (Hy & Hm & Hd).
  rewrite normalize_date_str, strptime_hd.
  assert (E : hd_error (Strptime.re_format (Spec.iso d ++ c :: rest))
              = Some ((year d, month d, day d), c :: rest)).
  { unfold Strptime.re_format, Spec.iso.
    rewrite <- !app_assoc. cbn [app]. rewrite <- !app_assoc.
    eapply hd_seq;
      [rewrite (re_year_text _ _ _ (pad4_year_text (year d) ltac:(lia)));
       reflexivity|].
    eapply hd_seq; [reflexivity|].
    eapply hd_seq;
      [apply (re_month_text (month d) (Spec.pad2 (month d)));
       [lia | now left]|].
    eapply hd_seq; [reflexivity|].
    eapply hd_seq; [apply (re_day_pad2_rest (day d)); lia|].
    reflexivity. }
  now rewrite E.
Qed.

Lemma normalize_date_rejects_trailing_text_witness :
  ImportExcel.normalize_date (Examples.text "2025-01-02 00:00:00")
  = Raise ValueError.
Proof.
  apply (normalize_date_rejects_trailing_text (mkdate 2025 1 2)
           Unicode.space (Unicode.of_string "00:00:00")).
  reflexivity.
Defined.

(** ** The monthly summary as a partition of the selection *)

Lemma period_ltb_lt (p q : App.period) :
  App.period_ltb p q = true <->
  fst p < fst q \/ (fst p = fst q /\ snd p < snd q).
Proof.
  unfold App.period_ltb.
  rewrite orb_true_iff, andb_true_iff, !Z.ltb_lt, Z.eqb_eq. tauto.
Qed.

Lemma period_eqb_neq (p q : App.period) :
  App.period_eqb p q = false <-> p <> q.
Proof.
  rewrite <- period_eqb_eq. now destruct (App.period_eqb p q).
Qed.

Lemma period_ltb_total (p q : App.period) :
  App.period_eqb p q = false -> App.period_ltb p q = false ->
  App.period_ltb q p = true.
Proof.
  intros He Hl. apply period_eqb_neq in He.
  apply period_ltb_lt.
  assert (Hn : ~ (fst p < fst q \/ (fst p = fst q /\ snd p < snd q))).
  { rewrite <- period_ltb_lt. now rewrite Hl. }
  destruct p as [a b], q as [a' b']. cbn in *.
  assert (a <> a' \/ b <> b')
    by (destruct (Z.eq_dec a a'); [right|left]; congruence).
  lia.
Qed.

Lemma insert_period_HdRel (a p : App.period) (keys : list App.period) :
  HdRel (fun x y => App.period_ltb x y = true) a keys ->
  App.period_ltb a p = true ->
  HdRel (fun x y => App.period_ltb x y = true) a (App.insert_period p keys).
Proof.
  intros Hh Hp. destruct keys as [|q keys]; cbn.
  - now constructor.
  - destruct (App.period_eqb p q); [exact Hh|].
    destruct (App.period_ltb p q); constructor; auto.
    now inversion Hh.
Qed.

Lemma insert_period_sorted (p : App.period) (keys : list App.period) :
  Spec.months_ascending keys ->
  Spec.months_ascending (App.insert_period p keys).
Proof.
  unfold Spec.months_ascending.
  induction keys as [|q keys IH]; cbn; intros Hs.
  - repeat constructor.
  - destruct (App.period_eqb p q) eqn:Ee; [exact Hs|].
    destruct (App.period_ltb p q) eqn:El.
    + constructor; auto.
    + inversion Hs as [|? ? Hs' Hh]; subst. constructor; auto.
      apply insert_period_HdRel; auto. now apply period_ltb_total.
Qed.

Lemma group_keys_sorted (dates : list date) :
  Spec.months_ascending (App.group_keys dates).
Proof.
  unfold App.group_keys. induction dates as [|d dates IH]; cbn.
  - constructor.
  - now apply insert_period_sorted.
Qed.

Lemma months_ascending_NoDup (keys : list App.period) :
  Spec.months_ascending keys -> NoDup keys.
Proof.
  unfold Spec.months_ascending. intros Hs.
  apply Sorted_StronglySorted in Hs.
  - induction Hs as [|p keys Hs IH Hall]; constructor; auto.
    intros Hin. eapply Forall_forall in Hall; eauto.
    apply period_ltb_lt in Hall. lia.
  - intros x y z Hxy Hyz. apply period_ltb_lt in Hxy, Hyz.
    apply period_ltb_lt. lia.
Qed.

(** Each row falls into the group of exactly one key. *)
Section Partition.
Context {A : Type}.
Variable period_of : A -> App.period.
Variable f : A -> Z.

Let group_total (rows : list A) (p : App.period) : Z :=
  Spec.total
    (map f (filter (fun r => App.period_eqb (period_of r) p) rows)).

Lemma group_total_cons (r : A) (rows : list A) (p : App.period) :
  group_total (r :: rows) p
  = if App.period_eqb (period_of r) p
    then f r + group_total rows p
    else group_total rows p.
Proof.
  unfold group_total. cbn [filter].
  now destruct (App.period_eqb (period_of r) p).
Qed.

Lemma group_totals_other (r : A) (rows : list A) (keys : list App.period) :
  ~ In (period_of r) keys ->
  Spec.total (map (group_total (r :: rows)) keys)
  = Spec.total (map (group_total rows) keys).
Proof.
  intros Hn. f_equal. apply map_ext_in. intros p Hp.
  rewrite group_total_cons.
  replace (App.period_eqb (period_of r) p) with false; auto.
  symmetry. apply period_eqb_neq. intros E. apply Hn. now rewrite E.
Qed.

Lemma group_totals_cons (r : A) (rows : list A) (keys : list App.period) :
  NoDup keys -> In (period_of r) keys ->
  Spec.total (map (group_total (r :: rows)) keys)
  = f r + Spec.total (map (group_total rows) keys).
Proof.
  induction keys as [|k keys IH]; intros Hn Hin; [destruct Hin|].
  inversion Hn as [|? ? Hnot Hn']; subst.
  change (Spec.total (map (group_total (r :: rows)) (k :: keys)))
    with (group_total (r :: rows) k
          + Spec.total (map (group_total (r :: rows)) keys)).
  change (Spec.total (map (group_total rows) (k :: keys)))
    with (group_total rows k + Spec.total (map (group_total rows) keys)).
  rewrite group_total_cons.
  destruct (App.period_eqb (period_of r) k) eqn:E.
  - apply period_eqb_eq in E. subst k.
    rewrite group_totals_other by assumption. lia.
  - destruct Hin as [Hk|Hin].
    + subst k. rewrite (proj2 (period_eqb_eq _ _) eq_refl) in E.
      discriminate.
    + rewrite IH by assumption. lia.
Qed.

Lemma partition_total (keys : list App.period) (rows : list A) :
  NoDup keys ->
  (forall r, In r rows -> In (period_of r) keys) ->
  Spec.total (map (group_total rows) keys) = Spec.total (map f rows).
Proof.
  intros Hn. induction rows as [|r rows IH]; intros Hc.
  - clear Hn Hc. induction keys as [|k keys IHk]; [reflexivity|].
    change (Spec.total (map (group_total []) (k :: keys)))
      with (0 + Spec.total (map (group_total []) keys)).
    rewrite IHk. reflexivity.
  - rewrite group_totals_cons; auto using in_eq.
    rewrite IH by (intros; apply Hc; now right). reflexivity.
Qed.

End Partition.

Lemma wrap64_add_r (a x : Z) :
  Float64.wrap64 (a + Float64.wrap64 x) = Float64.wrap64 (a + x).
Proof.
  rewrite Z.add_comm, wrap64_add_l. f_equal. lia.
Qed.

Lemma wrap64_total_map {A} (t : A -> Z) (l : list A) :
  Float64.wrap64 (Spec.total (map (fun p => Float64.wrap64 (t p)) l))
  = Float64.wrap64 (Spec.total (map t l)).
Proof.
  induction l as [|k l IH]; [reflexivity|].
  change (Float64.wrap64
            (Float64.wrap64 (t k)
             + Spec.total (map (fun p => Float64.wrap64 (t p)) l))
          = Float64.wrap64 (t k + Spec.total (map t l))).
  rewrite wrap64_add_l.
  rewrite <- wrap64_add_r, IH, wrap64_add_r. reflexivity.
Qed.

Lemma monthly_row_fields other p g :
  App.Monthly.month (App.monthly_row other p g) = p
  /\ App.Monthly.earnings (App.monthly_row other p g)
     = App.sum_int (map App.Frame.earnings g)
  /\ App.Monthly.ride_count (App.monthly_row other p g)
     = App.sum_int (map App.Frame.ride_count g)
  /\ App.Monthly.daily_net (App.monthly_row other p g)
     = App.sum_int (map App.Frame.daily_net g)
  /\ App.Monthly.days (App.monthly_row other p g)
     = Z.of_nat (List.length g).
Proof.
  unfold App.monthly_row. destruct other.
  - cbn. auto.
  - destruct (App.merged_expenses p _) as [[emi rent] misc]. cbn. auto.
Qed.

Lemma total_ones {A} (l : list A) :
  Spec.total (map (fun _ => 1) l) = Z.of_nat (List.length l).
Proof.
  induction l as [|x l IH]; [reflexivity|].
  change (1 + Spec.total (map (fun _ : A => 1) l)
          = Z.of_nat (S (List.length l))).
  rewrite IH. lia.
Qed.

Lemma monthly_column_total (col : App.Frame.row -> Z)
  (out : App.Monthly.row -> Z) filtered_df other :
  (forall p g, out (App.monthly_row other p g) = App.sum_int (map col g)) ->
  Float64.wrap64
    (Spec.total (map out (App.monthly_summary filtered_df other)))
  = App.sum_int (map col filtered_df).
Proof.
  intros Hout. unfold App.monthly_summary. rewrite map_map.
  rewrite (map_ext _
             (fun p =>
                Float64.wrap64
                  (Spec.total
                     (map col
                        (filter
                           (fun r =>
                              App.period_eqb
                                (App.to_period (App.Frame.date r)) p)
                           filtered_df)))))
    by (intros p; rewrite Hout, sum_int_total; reflexivity).
  rewrite wrap64_total_map, sum_int_total. f_equal.
  apply (partition_total (fun r => App.to_period (App.Frame.date r)) col).
  - apply months_ascending_NoDup, group_keys_sorted.
  - intros r Hr. apply group_keys_In. rewrite map_map.
    now apply (in_map (fun x => App.to_period (App.Frame.date x))).
Qed.

(** X13: the monthly summary partitions the selection.  Its months are
    in strictly ascending order, so each appears once; every month listed
    has at least one day worked; the days worked add up to the number of
    selected rows; and the monthly earnings, ride counts and [daily_net]
    sums add up (in [int64]) to the totals of the summary metrics. *)
Theorem monthly_summary_partitions :
  forall filtered_df other_expenses_df,
    let summary := App.monthly_summary filtered_df other_expenses_df in
    Spec.months_ascending (map App.Monthly.month summary)
    /\ (forall m, In m summary -> 1 <= App.Monthly.days m)
    /\ Spec.total (map App.Monthly.days summary)
       = Z.of_nat (List.length filtered_df)
    /\ Float64.wrap64 (Spec.total (map App.Monthly.earnings summary))
       = App.total_earnings filtered_df
    /\ Float64.wrap64 (Spec.total (map App.Monthly.ride_count summary))
       = App.total_rides filtered_df
    /\ Float64.wrap64 (Spec.total (map App.Monthly.daily_net summary))
       = App.total_profit filtered_df.
Proof.
  intros df other summary. subst summary.
  split; [|split; [|split; [|split; [|split]]]].
  - unfold App.monthly_summary. rewrite map_map.
    rewrite (map_ext _ (fun p => p))
      by (intros p; apply monthly_row_fields).
    rewrite map_id. apply group_keys_sorted.
  - intros m Hm. unfold App.monthly_summary in Hm.
    apply in_map_iff in Hm as (p & <- & Hp).
    destruct (monthly_row_fields other p
                (filter (fun r => App.in_month p (App.Frame.date r)) df))
      as (_ & _ & _ & _ & ->).
    apply group_keys_In in Hp. rewrite map_map in Hp.
    apply in_map_iff in Hp as (r & Er & Hr).
    assert (Hin : In r (filter (fun r => App.in_month p (App.Frame.date r))
                          df)).
    { apply filter_In. split; auto. unfold App.in_month.
      apply period_eqb_eq. exact Er. }
    destruct (filter _ df); [destruct Hin | cbn [List.length]; lia].
  - unfold App.monthly_summary. rewrite map_map.
    rewrite (map_ext _
               (fun p =>
                  Spec.total
                    (map (fun _ => 1)
                       (filter
                          (fun r =>
                             App.period_eqb
                               (App.to_period (App.Frame.date r)) p)
                          df))))
      by (intros p; rewrite total_ones; apply monthly_row_fields).
    rewrite (partition_total
               (fun r => App.to_period (App.Frame.date r)) (fun _ => 1)).
    + apply total_ones.
    + apply months_ascending_NoDup, group_keys_sorted.
    + intros r Hr. apply group_keys_In. rewrite map_map.
      now apply (in_map (fun x => App.to_period (App.Frame.date x))).
  - apply monthly_column_total. intros; apply monthly_row_fields.
  - apply monthly_column_total. intros; apply monthly_row_fields.
  - apply monthly_column_total. intros; apply monthly_row_fields.
Qed.

Lemma monthly_summary_partitions_witness :
  1 <= App.Monthly.days
         (App.monthly_row [Examples.emi_feb] (2025, 1) [Examples.day_half]).
Proof.
  apply (proj1 (proj2 (monthly_summary_partitions [Examples.day_half]
                         [Examples.emi_feb]))).
  left. reflexivity.
Defined.

(** ** Cumulative profit *)

Lemma cumsum_from_nth (col : list Z) :
  forall acc k,
    (k < List.length col)%nat ->
    nth k (App.cumsum_from acc col) 0
    = Float64.wrap64 (acc + Spec.total (firstn (S k) col)).
Proof.
  induction col as [|x col IH]; intros acc k Hk; [cbn in Hk; lia|].
  cbn [App.cumsum_from]. destruct k as [|k].
  - cbn. f_equal. lia.
  - cbn [nth]. rewrite IH by (cbn in Hk; lia).
    rewrite wrap64_add_l. f_equal.
    change (firstn (S (S k)) (x :: col)) with (x :: firstn (S k) col).
    unfold Spec.total. cbn [fold_right]. lia.
Qed.

Lemma last_as_nth {A} (l : list A) (d : A) :
  last l d = nth (Nat.pred (List.length l)) l d.
Proof.
  induction l as [|x l IH]; [reflexivity|].
  destruct l as [|y l]; [reflexivity|]. exact IH.
Qed.

Lemma cumsum_from_length (col : list Z) :
  forall acc, List.length (App.cumsum_from acc col) = List.length col.
Proof.
  induction col as [|x col IH]; intros acc; cbn; auto.
Qed.

(** X14: the cumulative profit series has one value per selected row;
    its value at position [k] is the total profit of the first [k + 1]
    rows, and so its last value is the total profit of the selection. *)
Theorem cumulative_profit_prefix_totals :
  forall filtered_df,
    List.length (App.cumulative_profit filtered_df)
    = List.length filtered_df
    /\ (forall k,
          (k < List.length filtered_df)%nat ->
          nth k (App.cumulative_profit filtered_df) 0
          = App.total_profit (firstn (S k) filtered_df))
    /\ (filtered_df <> [] ->
        last (App.cumulative_profit filtered_df) 0
        = App.total_profit filtered_df).
Proof.
  intros df. unfold App.cumulative_profit.
  assert (Hn : forall k,
             (k < List.length df)%nat ->
             nth k (App.cumsum_from 0 (map App.Frame.daily_net df)) 0
             = App.total_profit (firstn (S k) df)).
  { intros k Hk. rewrite cumsum_from_nth by now rewrite length_map.
    unfold App.total_profit. rewrite sum_int_total, firstn_map.
    reflexivity. }
  split; [|split; [exact Hn|]].
  - now rewrite cumsum_from_length, length_map.
  - intros Hne. rewrite last_as_nth, cumsum_from_length, length_map.
    destruct df as [|r df]; [congruence|].
    rewrite Hn by (cbn; lia).
    change (S (Nat.pred (List.length (r :: df))))
      with (List.length (r :: df)).
    now rewrite firstn_all.
Qed.

Lemma cumulative_profit_prefix_totals_witness :
  nth 0 (App.cumulative_profit [Examples.day_half; Examples.day_fuel_only]) 0
  = App.total_profit (firstn 1 [Examples.day_half; Examples.day_fuel_only])
  /\ last (App.cumulative_profit [Examples.day_half; Examples.day_fuel_only])
       0
     = App.total_profit [Examples.day_half; Examples.day_fuel_only].
Proof.
  pose proof (cumulative_profit_prefix_totals
                [Examples.day_half; Examples.day_fuel_only])
    as (_ & Hn & Hl).
  split; [apply Hn; cbn; lia | apply Hl; discriminate].
Defined.

(** ** Order of dates *)

Lemma date_ltb_lt (a b : date) : date_ltb a b = true <-> Spec.date_lt a b.
Proof.
  unfold date_ltb, Spec.date_lt.
  rewrite !orb_true_iff, !andb_true_iff, !orb_true_iff, !andb_true_iff,
    !Z.ltb_lt, !Z.eqb_eq. tauto.
Qed.

Lemma date_leb_le (a b : date) :
  App.date_leb a b = true <-> ~ Spec.date_lt b a.
Proof.
  unfold App.date_leb. rewrite negb_true_iff, <- date_ltb_lt.
  now destruct (date_ltb b a).
Qed.

Lemma date_leb_refl (a : date) : App.date_leb a a = true.
Proof. apply date_leb_le. unfold Spec.date_lt. lia. Qed.

Lemma date_leb_trans (a b c : date) :
  App.date_leb a b = true -> App.date_leb b c = true ->
  App.date_leb a c = true.
Proof. rewrite !date_leb_le. unfold Spec.date_lt. lia. Qed.

Lemma date_ltb_leb (a b : date) :
  date_ltb a b = true -> App.date_leb a b = true.
Proof. rewrite date_ltb_lt, date_leb_le. unfold Spec.date_lt. lia. Qed.

Lemma date_min_le (a b : date) :
  App.date_leb (App.date_min a b) a = true
  /\ App.date_leb (App.date_min a b) b = true
  /\ (App.date_min a b = a \/ App.date_min a b = b).
Proof.
  unfold App.date_min. destruct (date_ltb b a) eqn:E.
  - auto using date_ltb_leb, date_leb_refl.
  - repeat split; auto using date_leb_refl.
    unfold App.date_leb. now rewrite E.
Qed.

Lemma date_max_ge (a b : date) :
  App.date_leb a (App.date_max a b) = true
  /\ App.date_leb b (App.date_max a b) = true
  /\ (App.date_max a b = a \/ App.date_max a b = b).
Proof.
  unfold App.date_max. destruct (date_ltb a b) eqn:E.
  - auto using date_ltb_leb, date_leb_refl.
  - repeat split; auto using date_leb_refl.
    unfold App.date_leb. now rewrite E.
Qed.

Lemma fold_min_le (rest : list App.Frame.row) :
  forall acc,
    let m := fold_left (fun a x => App.date_min a (App.Frame.date x))
               rest acc in
    App.date_leb m acc = true
    /\ (forall x, In x rest -> App.date_leb m (App.Frame.date x) = true)
    /\ (m = acc \/ exists x, In x rest /\ m = App.Frame.date x).
Proof.
  induction rest as [|r rest IH]; intros acc; cbn [fold_left].
  - cbn. split; [apply date_leb_refl|]. split; [intros ? []|now left].
  - destruct (IH (App.date_min acc (App.Frame.date r))) as (H1 & H2 & H3).
    destruct (date_min_le acc (App.Frame.date r)) as (Ha & Hr & Hc).
    cbn zeta. repeat split.
    + eauto using date_leb_trans.
    + intros x [<-|Hx]; eauto using date_leb_trans.
    + destruct H3 as [->|(x & Hx & ->)].
      * destruct Hc as [->| ->]; [now left|right]. eauto using in_eq.
      * right. eauto using in_cons.
Qed.

Lemma fold_max_ge (rest : list App.Frame.row) :
  forall acc,
    let m := fold_left (fun a x => App.date_max a (App.Frame.date x))
               rest acc in
    App.date_leb acc m = true
    /\ (forall x, In x rest -> App.date_leb (App.Frame.date x) m = true)
    /\ (m = acc \/ exists x, In x rest /\ m = App.Frame.date x).
Proof.
  induction rest as [|r rest IH]; intros acc; cbn [fold_left].
  - cbn. split; [apply date_leb_refl|]. split; [intros ? []|now left].
  - destruct (IH (App.date_max acc (App.Frame.date r))) as (H1 & H2 & H3).
    destruct (date_max_ge acc (App.Frame.date r)) as (Ha & Hr & Hc).
    cbn zeta. repeat split.
    + eauto using date_leb_trans.
    + intros x [<-|Hx]; eauto using date_leb_trans.
    + destruct H3 as [->|(x & Hx & ->)].
      * destruct Hc as [->| ->]; [now left|right]. eauto using in_eq.
      * right. eauto using in_cons.
Qed.

Lemma filter_all {A} (f : A -> bool) (l : list A) :
  (forall x, In x l -> f x = true) -> filter f l = l.
Proof.
  induction l as [|x l IH]; intros H; cbn; auto.
  rewrite (H x (or_introl eq_refl)), IH; auto.
  intros; apply H; now right.
Qed.

(** X15: the default date range of the sidebar selects everything: the
    smallest and the largest date of the frame are dates of rows of the
    frame, and filtering by the range between them returns the frame
    unchanged. *)
Theorem default_date_range_selects_all :
  forall df lo hi,
    App.min_date df = Some lo ->
    App.max_date df = Some hi ->
    App.filter_range lo hi df = df
    /\ (exists r, In r df /\ App.Frame.date r = lo)
    /\ (exists r, In r df /\ App.Frame.date r = hi).
Proof.
  intros [|r rest] lo hi Hlo Hhi; [discriminate|].
  cbn [App.min_date App.max_date] in Hlo, Hhi. inv Hlo. inv Hhi.
  destruct (fold_min_le rest (App.Frame.date r)) as (L1 & L2 & L3).
  destruct (fold_max_ge rest (App.Frame.date r)) as (M1 & M2 & M3).
  cbn zeta in *. split; [|split].
  - apply filter_all. intros x [<-|Hx]; apply andb_true_iff; auto.
  - destruct L3 as [->|(x & Hx & ->)]; eauto using in_eq, in_cons.
  - destruct M3 as [->|(x & Hx & ->)]; eauto using in_eq, in_cons.
Qed.

Lemma default_date_range_selects_all_witness :
  App.filter_range Examples.jan1 Examples.feb1
    [Examples.day_fuel_only; Examples.day_half; Examples.day_idle]
  = [Examples.day_fuel_only; Examples.day_half; Examples.day_idle].
Proof.
  apply (proj1 (default_date_range_selects_all
                  [Examples.day_fuel_only; Examples.day_half;
                   Examples.day_idle]
                  Examples.jan1 Examples.feb1 eq_refl eq_refl)).
Defined.

(** ** Loading the frames *)

Section OrderBy.
Context {A : Type}.
Variable key : A -> date.

Lemma insert_by_perm (x : A) (l : list A) :
  Permutation (x :: l) (App.insert_by key x l).
Proof.
  induction l as [|y l IH]; cbn; auto.
  destruct (date_ltb (key x) (key y)); auto.
  rewrite perm_swap. now constructor.
Qed.

Lemma order_by_perm (l : list A) : Permutation l (App.order_by key l).
Proof.
  unfold App.order_by. induction l as [|x l IH]; cbn; auto.
  rewrite <- insert_by_perm. now constructor.
Qed.

Lemma insert_by_HdRel (a x : A) (l : list A) :
  HdRel (fun u v => App.date_leb (key u) (key v) = true) a l ->
  App.date_leb (key a) (key x) = true ->
  HdRel (fun u v => App.date_leb (key u) (key v) = true) a
    (App.insert_by key x l).
Proof.
  intros Hh Hx. destruct l as [|y l]; cbn.
  - now constructor.
  - destruct (date_ltb (key x) (key y)); constructor; auto.
    now inversion Hh.
Qed.

Lemma insert_by_sorted (x : A) (l : list A) :
  Sorted (fun u v => App.date_leb (key u) (key v) = true) l ->
  Sorted (fun u v => App.date_leb (key u) (key v) = true)
    (App.insert_by key x l).
Proof.
  induction l as [|y l IH]; cbn; intros Hs.
  - repeat constructor.
  - destruct (date_ltb (key x) (key y)) eqn:E.
    + constructor; auto. constructor. now apply date_ltb_leb.
    + inversion Hs as [|? ? Hs' Hh]; subst. constructor; auto.
      apply insert_by_HdRel; auto. unfold App.date_leb. now rewrite E.
Qed.

Lemma order_by_sorted (l : list A) :
  Sorted (fun u v => App.date_leb (key u) (key v) = true)
    (App.order_by key l).
Proof.
  unfold App.order_by. induction l as [|x l IH]; cbn.
  - constructor.
  - now apply insert_by_sorted.
Qed.

End OrderBy.

Lemma Sorted_map {A B} (R : B -> B -> Prop) (f : A -> B) (l : list A) :
  Sorted (fun u v => R (f u) (f v)) l -> Sorted R (map f l).
Proof.
  induction 1 as [|x l Hs IH Hh]; cbn; constructor; auto.
  destruct Hh; cbn; constructor; auto.
Qed.

(** X16: [load_data] and [load_other_expenses] return one frame row per
    table row, in ascending order of date whatever the order of the
    table. *)
Theorem load_frames_sorted_by_date :
  (forall table,
      Permutation (map App.load_row table) (App.load_data table)
      /\ Spec.ascending (map App.Frame.date (App.load_data table)))
  /\ (forall table,
        Permutation (map App.load_expense_row table)
          (App.load_other_expenses table)
        /\ Spec.ascending
             (map App.ExpenseFrame.date (App.load_other_expenses table))).
Proof.
  split; intros table; split.
  - unfold App.load_data. apply Permutation_map, order_by_perm.
  - unfold App.load_data, Spec.ascending. rewrite map_map. cbn.
    apply Sorted_map with (f := DailyRecord.date), order_by_sorted.
  - unfold App.load_other_expenses. apply Permutation_map, order_by_perm.
  - unfold App.load_other_expenses, Spec.ascending. rewrite map_map. cbn.
    apply Sorted_map with (f := OtherExpense.date), order_by_sorted.
Qed.

(** ** Profit margin of days without earnings *)

Lemma shr_1_digits (m : positive) (r s : bool) :
  (1 < Z.pos (digits2_pos m)) ->
  exists m' r' s',
    shr_1 (Build_shr_record (Z.pos m) r s)
    = Build_shr_record (Z.pos m') r' s'
    /\ Z.pos (digits2_pos m') = Z.pos (digits2_pos m) - 1.
Proof.
  destruct m as [p|p|]; cbn [shr_1 digits2_pos]; intros H.
  - exists p. do 2 eexists. split; [reflexivity|lia].
  - exists p. do 2 eexists. split; [reflexivity|lia].
  - lia.
Qed.

Lemma shr_iter_digits (k : nat) :
  forall (m : positive) (r s : bool),
    Z.of_nat k < Z.pos (digits2_pos m) ->
    exists m' r' s',
      Nat.iter k shr_1 (Build_shr_record (Z.pos m) r s)
      = Build_shr_record (Z.pos m') r' s'.
Proof.
  induction k as [|k IH]; intros m r s H.
  - cbn. eauto.
  - rewrite Nat.iter_succ_r.
    destruct (shr_1_digits m r s) as (m' & r' & s' & -> & Hd); [lia|].
    apply IH. lia.
Qed.

Lemma shr_fexp_pos (m : positive) (e : Z) (l : location) :
  -1074 < e ->
  exists m' r' s' e',
    shr_fexp 53 1024 (Z.pos m) e l
    = (Build_shr_record (Z.pos m') r' s', e')
    /\ e <= e'.
Proof.
  intros He. unfold shr_fexp, shr, fexp, emin. cbn [Zdigits2].
  assert (Hrec : exists r s,
             shr_record_of_loc (Z.pos m) l
             = Build_shr_record (Z.pos m) r s).
  { destruct l as [|[]]; cbn; eauto. }
  destruct Hrec as (r & s & ->).
  destruct (Z.max (Z.pos (digits2_pos m) + e - 53) (3 - 1024 - 53) - e)
    as [|p|p] eqn:En.
  - do 4 eexists. split; [reflexivity|lia].
  - rewrite iter_pos_nat.
    destruct (shr_iter_digits (Pos.to_nat p) m r s) as (m' & r' & s' & ->).
    + rewrite positive_nat_Z. lia.
    + do 4 eexists. split; [reflexivity|lia].
  - do 4 eexists. split; [reflexivity|lia].
Qed.

Lemma binary_round_aux_nonzero (sx : bool) (mx : positive) (ex : Z)
  (lx : location) :
  -1074 < ex ->
  (exists m e,
      binary_round_aux 53 1024 sx (Z.pos mx) ex lx = S754_finite sx m e)
  \/ binary_round_aux 53 1024 sx (Z.pos mx) ex lx = S754_infinity sx.
Proof.
  intros He. unfold binary_round_aux.
  destruct (shr_fexp_pos mx ex lx He) as (m1 & r1 & s1 & e1 & -> & He1).
  cbn [shr_m].
  assert (Hr : exists m1',
             round_nearest_even (Z.pos m1)
               (loc_of_shr_record (Build_shr_record (Z.pos m1) r1 s1))
             = Z.pos m1').
  { unfold round_nearest_even.
    destruct (loc_of_shr_record _) as [|[]]; eauto.
    - destruct (Z.even (Z.pos m1)); eauto.
      exists (m1 + 1)%positive. reflexivity.
    - exists (m1 + 1)%positive. reflexivity. }
  destruct Hr as (m1' & ->).
  destruct (shr_fexp_pos m1' e1 loc_Exact)
    as (m2 & r2 & s2 & e2 & -> & He2); [lia|].
  cbn [shr_m]. destruct (e2 <=? 1024 - 53); eauto.
Qed.

(** The float of a nonzero integer is a nonzero number or an infinity,
    with the sign of the integer. *)
Lemma of_Z_nonzero (z : Z) :
  z <> 0 ->
  (exists m e, Float64.of_Z z = S754_finite (z <? 0) m e)
  \/ Float64.of_Z z = S754_infinity (z <? 0).
Proof.
  intros Hz. unfold Float64.of_Z, Float64.prec, Float64.emax.
  assert (G : forall sx m,
             (exists m' e,
                 binary_round 53 1024 sx m 0 = S754_finite sx m' e)
             \/ binary_round 53 1024 sx m 0 = S754_infinity sx).
  { intros sx m. unfold binary_round, shl_align, fexp, emin.
    destruct (Z.max (Z.pos (digits2_pos m) + 0 - 53) (3 - 1024 - 53) - 0)
      as [|p|p] eqn:En.
    - apply binary_round_aux_nonzero. lia.
    - apply binary_round_aux_nonzero. lia.
    - apply binary_round_aux_nonzero. lia. }
  destruct z as [|m|m]; [congruence| |];
    cbn [binary_normalize Z.ltb Z.compare]; apply G.
Qed.

(** X17: for every row without earnings the profit margin is 0 when
    [daily_net] is 0, plus infinity when it is positive and minus infinity
    when it is negative; and no profit margin of any row is NaN. *)
Theorem profit_margin_without_earnings :
  forall r,
    Float64.is_nan (App.profit_margin_of r) = false
    /\ (App.Frame.earnings r = 0 ->
        App.profit_margin_of r
        = if App.Frame.daily_net r =? 0 then Float64.zero
          else if App.Frame.daily_net r <? 0 then Float64.ninf
               else Float64.pinf).
Proof.
  intros r. split.
  - unfold App.profit_margin_of. apply fillna0_is_number.
  - unfold App.profit_margin_of. intros ->.
    destruct (Z.eqb_spec (App.Frame.daily_net r) 0) as [->|Hne].
    + reflexivity.
    + destruct (of_Z_nonzero _ Hne) as [(m & e & ->)| ->];
        destruct (App.Frame.daily_net r <? 0); reflexivity.
Qed.

Lemma profit_margin_without_earnings_witness :
  App.profit_margin_of Examples.day_fuel_only = Float64.ninf.
Proof.
  apply (proj2 (profit_margin_without_earnings Examples.day_fuel_only)).
  reflexivity.
Defined.

(** ** A saved record in the next load *)

(** X18: after a successful [add_record] the frame [load_data] builds
    from the table has a row with the date and the values saved: the
    odometer readings as blanks when unset, and the subscription and
    top-up with a zero read back as 0. *)
Theorem saved_record_is_loaded :
  forall d rc e c p i os oe table table',
    App.add_record d rc e c p i os oe table = (true, table') ->
    exists n,
      Float64.to_int
        (Float64.sub (Float64.sub (Float64.of_Z (e - c)) p) i) = Ok n
      /\ In (App.Frame.mk d rc e c (App.or0 (Some p)) (App.or0 (Some i))
               (App.cell (App.odometer os)) (App.cell (App.odometer oe)) n)
           (App.load_data table')
      /\ List.length (App.load_data table') = List.length table'.
Proof.
  intros d rc e c p i os oe table table' H.
  apply add_record_true in H as (n & Hn & Hl & _). cbn zeta in Hl.
  exists n. split; [exact Hn|].
  destruct (lookup_Some_key _ _ _ _ Hl) as [_ Hin].
  unfold App.load_data. split.
  - apply (in_map App.load_row) in Hin.
    eapply Permutation_in; [|exact Hin].
    apply Permutation_map, order_by_perm.
  - rewrite length_map. symmetry.
    apply Permutation_length, order_by_perm.
Qed.

Lemma saved_record_is_loaded_witness :
  exists n,
    Float64.to_int
      (Float64.sub
         (Float64.sub (Float64.of_Z (1000 - 200)) Examples.half)
         Float64.zero) = Ok n
    /\ In (App.Frame.mk Examples.jan1 5 1000 200
             (App.or0 (Some Examples.half)) (App.or0 (Some Float64.zero))
             (App.cell (App.odometer Float64.zero))
             (App.cell (App.odometer (Examples.amt 120))) n)
         (App.load_data [Examples.rec_half])
    /\ List.length (App.load_data [Examples.rec_half])
       = List.length [Examples.rec_half].
Proof.
  apply (saved_record_is_loaded Examples.jan1 5 1000 200 Examples.half
           Float64.zero Float64.zero (Examples.amt 120) []). reflexivity.
Defined.

(** ** Monthly mode *)

Lemma group_keys_single (p : App.period) (dates : list date) :
  dates <> [] ->
  (forall d, In d dates -> App.to_period d = p) ->
  App.group_keys dates = [p].
Proof.
  unfold App.group_keys.
  induction dates as [|d dates IH]; intros Hne Hall; [congruence|].
  cbn [map fold_right]. rewrite (Hall d (or_introl eq_refl)).
  destruct dates as [|d' dates]; [reflexivity|].
  rewrite IH; [|discriminate|intros; apply Hall; now right].
  cbn. now rewrite (proj2 (period_eqb_eq p p) eq_refl).
Qed.

(** X19: in Monthly mode the monthly summary has exactly one entry, for
    the month selected, computed from all rows of that month; when the
    month has no row the summary is empty. *)
Theorem monthly_mode_single_month :
  forall df other p,
    App.monthly_summary (App.filter_month p df) other
    = match App.filter_month p df with
      | [] => []
      | _ :: _ => [App.monthly_row other p (App.filter_month p df)]
      end.
Proof.
  intros df other p. unfold App.monthly_summary.
  destruct (App.filter_month p df) as [|r g] eqn:Eg; [reflexivity|].
  assert (Hall : forall x, In x (r :: g) ->
                   App.to_period (App.Frame.date x) = p).
  { intros x Hx. rewrite <- Eg in Hx. unfold App.filter_month in Hx.
    apply filter_In in Hx as [_ Hx]. now apply period_eqb_eq. }
  rewrite (group_keys_single p).
  - cbn [map]. do 2 f_equal. apply filter_all.
    intros x Hx. unfold App.in_month. apply period_eqb_eq. auto.
  - discriminate.
  - intros d Hd. apply in_map_iff in Hd as (x & <- & Hx). auto.
Qed.

(** ** The dates [import_other_expenses] adds *)

Lemma expense_loop_state (rows : list ImportExcel.Expense.row) :
  forall s a u a' u' s',
    ImportExcel.expense_loop rows s a u = (Ok (a', u'), s') ->
    let fresh :=
      Spec.new_dates ImportExcel.Expense.date OtherExpense.date
        (Session.loaded s) rows in
    map OtherExpense.date (Session.loaded s')
    = map OtherExpense.date (Session.loaded s)
    /\ map OtherExpense.date (Session.pending s')
       = map OtherExpense.date (Session.pending s) ++ fresh
    /\ a' = a + Z.of_nat (List.length fresh).
Proof.
  induction rows as [|row rows IH]; intros s a u a' u' s' H.
  - inv H. cbn. rewrite app_nil_r. repeat split; lia.
  - cbn [ImportExcel.expense_loop] in H. cbn [Spec.new_dates].
    destruct (ImportExcel.normalize_date _) as [[d0|]|e] eqn:Ed; [|inv H..].
    unfold Session.query_first in H.
    fold (Spec.lookup OtherExpense.date d0 (Session.loaded s)) in H.
    rewrite (has_date_lookup OtherExpense.date d0 (Session.loaded s)).
    destruct (Spec.lookup OtherExpense.date d0 (Session.loaded s))
      as [ex|] eqn:El.
    + destruct (lookup_Some_key _ _ _ _ El) as [E0 _]. rewrite E0 in H.
      apply IH in H as (Hk & Hp & Ha).
      cbn [Session.set_existing Session.loaded Session.pending] in *.
      assert (Ek : map OtherExpense.date
                     (Session.assign OtherExpense.date d0
                        (ImportExcel.Expense.to_record d0 row)
                        (Session.loaded s))
                   = map OtherExpense.date (Session.loaded s))
        by now apply map_key_assign.
      rewrite (new_dates_keys _ _ _ _ _ Ek) in Hp, Ha.
      cbn zeta. repeat split; congruence.
    + apply IH in H as (Hk & Hp & Ha).
      cbn [Session.add Session.loaded Session.pending] in *.
      rewrite map_app, <- app_assoc in Hp.
      cbn [map app ImportExcel.Expense.to_record OtherExpense.date] in Hp.
      cbn zeta. cbn [List.length]. split; [exact Hk|]. split; [exact Hp|].
      lia.
Qed.

(** X20: a successful [import_other_expenses] keeps the dates of the
    table in place and appends the new dates of the batch in batch order;
    these are pairwise distinct, so a batch with two rows for one new date
    cannot succeed; [added] is their number and [updated] the number of
    the other batch rows; distinct dates stay distinct. *)
Theorem import_other_expenses_dates :
  forall sort_values sheets table added updated table',
    ImportExcel.import_other_expenses sort_values sheets table
    = (Ok (added, updated), table') ->
    exists combined,
      ImportExcel.expense_batch sort_values sheets = Ok combined
      /\ let fresh :=
           Spec.new_dates ImportExcel.Expense.date OtherExpense.date
             table combined in
         map OtherExpense.date table' = map OtherExpense.date table ++ fresh
         /\ NoDup fresh
         /\ added = Z.of_nat (List.length fresh)
         /\ updated
            = Z.of_nat (List.length combined) - Z.of_nat (List.length fresh)
         /\ (Spec.unique_dates OtherExpense.date table ->
             Spec.unique_dates OtherExpense.date table').
Proof.
  intros sort_values sheets table added updated table'.
  unfold ImportExcel.import_other_expenses.
  destruct (ImportExcel.expense_batch sort_values sheets)
    as [combined|e] eqn:Eb; [|discriminate].
  destruct (ImportExcel.expense_loop _ _ _ _) as [[[a u]|e] s] eqn:Eloop;
    [|discriminate].
  destruct (Session.commit _ _ s) as [t|e] eqn:Ec; [|discriminate].
  intros H. inv H. apply commit_Ok in Ec as [_ Ec].
  exists combined. split; [reflexivity|]. cbn zeta.
  pose proof (expense_loop_Ok _ _ _ _ _ _ _ Eloop) as [_ Hcount].
  pose proof (expense_loop_state _ _ _ _ _ _ _ Eloop) as (Hk & Hp & Ha).
  cbn [Session.get_session Session.loaded Session.pending app map] in *.
  pose proof (flush_fresh _ _ _ _ _ Ec) as [Hn _].
  pose proof (flush_app _ _ _ _ _ Ec) as Ht.
  rewrite Hp in Hn.
  repeat split.
  - subst table'. rewrite map_app, Hk, Hp. reflexivity.
  - exact Hn.
  - lia.
  - lia.
  - intros U. eapply flush_unique; [|exact Ec].
    unfold Spec.unique_dates in *. now rewrite Hk.
Qed.

Lemma import_other_expenses_dates_witness :
  exists combined,
    ImportExcel.expense_batch Pandas.sort_values
      [[Examples.exp_blank; Examples.exp_emi]] = Ok combined
    /\ let fresh :=
         Spec.new_dates ImportExcel.Expense.date OtherExpense.date
           [] combined in
       map OtherExpense.date
         [ImportExcel.Expense.to_record Examples.jan1
            (ImportExcel.Expense.fillna Examples.exp_emi)]
       = map OtherExpense.date [] ++ fresh
       /\ NoDup fresh
       /\ 1 = Z.of_nat (List.length fresh)
       /\ 0 = Z.of_nat (List.length combined) - Z.of_nat (List.length fresh)
       /\ (Spec.unique_dates OtherExpense.date [] ->
           Spec.unique_dates OtherExpense.date
             [ImportExcel.Expense.to_record Examples.jan1
                (ImportExcel.Expense.fillna Examples.exp_emi)]).
Proof.
  apply (import_other_expenses_dates Pandas.sort_values
           [[Examples.exp_blank; Examples.exp_emi]] [] 1 0
           [ImportExcel.Expense.to_record Examples.jan1
              (ImportExcel.Expense.fillna Examples.exp_emi)]).
  reflexivity.
Defined.

(** ** Blank cells in the sheets *)

Lemma sub_nan_l (x : Float64.float) : Float64.sub Float64.nan x = Float64.nan.
Proof. now destruct x. Qed.

Lemma sub_nan_r (x : Float64.float) : Float64.sub x Float64.nan = Float64.nan.
Proof. now destruct x. Qed.

Lemma is_nan_eq (x : Float64.float) :
  Float64.is_nan x = true -> x = Float64.nan.
Proof. now destruct x. Qed.

(** X21: after a successful [import_daily_records] every sheet row has a
    row stored for its date, written from a sheet row of that date (the
    row itself when no other sheet row has its date); when the earnings or
    the fuel cell of that sheet row is blank, the stored [daily_net] is 0,
    whatever the other amounts are, and the blank amount is stored as 0. *)
Theorem import_blank_amount_stores_zero_net :
  forall sort_values,
    (forall A key (l l' : list A),
        sort_values A key l = Ok l' -> Permutation l l') ->
    forall sheets table added updated table',
      ImportExcel.import_daily_records sort_values sheets table
      = (Ok (added, updated), table') ->
      forall sheet raw,
        In sheet sheets -> In raw sheet ->
        exists d r sheet' raw',
          ImportExcel.normalize_date
            (ImportExcel.fillna0_cell (ImportExcel.Daily.date raw))
          = Ok (Date d)
          /\ Spec.lookup DailyRecord.date d table' = Some r
          /\ In sheet' sheets /\ In raw' sheet'
          /\ (Spec.only_row_for sheets d raw -> raw' = raw)
          /\ Spec.written_from raw' r
          /\ (Float64.is_nan (ImportExcel.Daily.earnings raw') = true ->
              DailyRecord.earnings r = 0 /\ DailyRecord.daily_net r = 0)
          /\ (Float64.is_nan (ImportExcel.Daily.cng_expenses raw') = true ->
              DailyRecord.cng_expenses r = 0 /\ DailyRecord.daily_net r = 0).
Proof.
  intros sort_values Hperm sheets table added updated table' H
    sheet raw Hsh Hraw.
  destruct (import_daily_stored _ Hperm _ _ _ _ _ H sheet raw Hsh Hraw)
    as (d & r & sheet' & raw' & Hd & Hl & Hsh' & Hraw' & Hd' & Hrec).
  exists d, r, sheet', raw'.
  repeat (split; [first [assumption
                        | eapply written_from_prepared; eassumption
                        | intros Honly; eapply Honly; eassumption]|]).
  destruct (to_record_prepared _ _ _ Hrec)
    as (_ & He & Hc & _ & _ & _ & _ & Hn).
  unfold ImportExcel.Daily.formula in Hn.
  split; intros Hnan; apply is_nan_eq in Hnan; rewrite Hnan in *;
    rewrite ?sub_nan_l, ?sub_nan_r in Hn; cbn in He, Hc, Hn;
    split; congruence.
Qed.

Lemma import_blank_amount_stores_zero_net_witness :
  exists d r sheet' raw',
    ImportExcel.normalize_date
      (ImportExcel.fillna0_cell (ImportExcel.Daily.date Examples.row_blank))
    = Ok (Date d)
    /\ Spec.lookup DailyRecord.date d [Examples.rec_blank] = Some r
    /\ In sheet' [[Examples.row_blank]] /\ In raw' sheet'
    /\ (Spec.only_row_for [[Examples.row_blank]] d Examples.row_blank ->
        raw' = Examples.row_blank)
    /\ Spec.written_from raw' r
    /\ (Float64.is_nan (ImportExcel.Daily.earnings raw') = true ->
        DailyRecord.earnings r = 0 /\ DailyRecord.daily_net r = 0)
    /\ (Float64.is_nan (ImportExcel.Daily.cng_expenses raw') = true ->
        DailyRecord.cng_expenses r = 0 /\ DailyRecord.daily_net r = 0).
Proof.
  apply (import_blank_amount_stores_zero_net Pandas.sort_values
           pandas_sort_values_perm [[Examples.row_blank]] [] 1 0
           [Examples.rec_blank] eq_refl [Examples.row_blank]).
  - left. reflexivity.
  - left. reflexivity.
Defined.

Lemma import_expense_Ok sort_values sheets table added updated table' :
  ImportExcel.import_other_expenses sort_values sheets table
  = (Ok (added, updated), table') ->
  exists combined s',
    ImportExcel.expense_batch sort_values sheets = Ok combined
    /\ ImportExcel.expense_loop combined (Session.get_session table) 0 0
       = (Ok (added, updated), s').
Proof.
  unfold ImportExcel.import_other_expenses.
  destruct (ImportExcel.expense_batch sort_values sheets) as [combined|e];
    [|discriminate].
  destruct (ImportExcel.expense_loop _ _ _ _) as [[[a u]|e] s] eqn:Eloop;
    [|discriminate].
  destruct (Session.commit _ _ s) as [t|e] eqn:Ec; [|discriminate].
  intros H. inv H. eauto.
Qed.

(** X22: a sheet row whose date cell is blank makes the import fail and
    leaves the table as it was.  In a "Daily Record" sheet the blank
    becomes 0 with the other blanks, and [normalize_date] raises; in an
    "Other Expenses" sheet a row that is kept reaches [normalize_date] as
    [NaT], which is returned as it is, and the query by date raises. *)
Theorem import_blank_date_fails :
  forall sort_values,
    (forall A key (l l' : list A),
        sort_values A key l = Ok l' -> Permutation l l') ->
    (forall sheets table sheet raw,
        In sheet sheets -> In raw sheet ->
        ImportExcel.Daily.date raw = PyNaT ->
        exists e,
          ImportExcel.import_daily_records sort_values sheets table
          = (Raise e, table))
    /\ (forall sheets table sheet raw,
          In sheet sheets -> In raw sheet ->
          ImportExcel.Expense.keep (ImportExcel.Expense.fillna raw) = true ->
          ImportExcel.Expense.date raw = PyNaT ->
          ImportExcel.normalize_date (ImportExcel.Expense.date raw) = Ok NaT
          /\ exists e,
              ImportExcel.import_other_expenses sort_values sheets table
              = (Raise e, table)).
Proof.
  intros sort_values Hperm. split.
  - intros sheets table sheet raw Hsh Hraw Hd.
    destruct (ImportExcel.import_daily_records sort_values sheets table)
      as [[[a u]|e] table'] eqn:E.
    + exfalso.
      destruct (import_daily_stored _ Hperm _ _ _ _ _ E sheet raw Hsh Hraw)
        as (d & _ & _ & _ & Hn & _).
      rewrite Hd in Hn. discriminate.
    + exists e. f_equal. eapply import_daily_Raise; eauto.
  - intros sheets table sheet raw Hsh Hraw Hk Hd.
    split; [now rewrite Hd|].
    destruct (ImportExcel.import_other_expenses sort_values sheets table)
      as [[[a u]|e] table'] eqn:E.
    + exfalso.
      apply import_expense_Ok in E as (combined & s' & Hb & Hloop).
      apply expense_loop_Ok in Hloop as [Hn _].
      destruct (Hn (ImportExcel.Expense.fillna raw)) as [d Hdate].
      * apply (expense_batch_In _ Hperm _ _ Hb). split; [exact Hk|eauto].
      * cbn in Hdate. rewrite Hd in Hdate. discriminate.
    + exists e. f_equal. eapply import_expense_Raise; eauto.
Qed.

Lemma import_blank_date_fails_witness :
  (exists e,
      ImportExcel.import_daily_records Pandas.sort_values
        [[Examples.row_ok; Examples.row_no_date]] [Examples.rec_half]
      = (Raise e, [Examples.rec_half]))
  /\ ImportExcel.normalize_date
       (ImportExcel.Expense.date Examples.exp_no_date) = Ok NaT
  /\ exists e,
      ImportExcel.import_other_expenses Pandas.sort_values
        [[Examples.exp_no_date]] []
      = (Raise e, []).
Proof.
  split.
  - apply (proj1 (import_blank_date_fails Pandas.sort_values
                    pandas_sort_values_perm)
             [[Examples.row_ok; Examples.row_no_date]] [Examples.rec_half]
             [Examples.row_ok; Examples.row_no_date] Examples.row_no_date).
    + left. reflexivity.
    + right. left. reflexivity.
    + reflexivity.
  - apply (proj2 (import_blank_date_fails Pandas.sort_values
                    pandas_sort_values_perm)
             [[Examples.exp_no_date]] [] [Examples.exp_no_date]
             Examples.exp_no_date).
    + left. reflexivity.
    + left. reflexivity.
    + reflexivity.
    + reflexivity.
Defined.
